(** * Real-time poll application: vote ledger, rate limiter, result snapshots

    A shallow embedding of [services/poll_service.py], [models.py] and the
    vote/create routes of [app.py], together with the properties of the
    vote-integrity engine.

    Conventions.
    - Python [int] is [Z]; [str] is [string], a sequence of code points
      below 256.
    - [time.time()] and [datetime.utcnow()] are inputs of the operation that
      reads them; clock readings are exact rationals ([Q]).
    - The SQLAlchemy session is a state-and-exception monad over the
      committed tables, the open transaction's view and the pending objects.
      The backend is the configured SQLite database: an [int] bound to a
      statement must fit a signed 64-bit INTEGER. It may fail for a reason
      of its own at the UPDATE, at the COMMIT, or at the reads that follow
      the COMMIT.
    - [generate_poll_code] is an oracle: the sequence of codes it will emit. *)

From Stdlib Require Import ZArith QArith Lqa String Ascii List Bool Lia.
From stdpp Require Import base option list gmap strings pretty.

Import ListNotations.
Local Open Scope Z_scope.
Set Warnings "-register-all".

(** ** Rate limiter ([class RateLimiter]) *)

Module RateLimiter.

Record t := mk {
  max_requests : Z;
  window_seconds : Z;
  _requests : gmap string (list Q)
}.

(** [RateLimiter.__init__] *)
Definition init (max_requests window_seconds : Z) : t :=
  mk max_requests window_seconds ∅.

(** [req_time > window_start] on clock readings *)
Definition Qgtb (a b : Q) : bool := negb (Qle_bool a b).

Definition with_requests (rl : t) (m : gmap string (list Q)) : t :=
  mk (max_requests rl) (window_seconds rl) m.

(** [RateLimiter.is_allowed], with [current_time = time.time()] passed in.
    Returns the answer and the limiter after the call. *)
Definition is_allowed (rl : t) (current_time : Q) (ip_address : string)
  : bool * t :=
  let window_start := (current_time - inject_Z (window_seconds rl))%Q in
  (* if ip_address not in self._requests: self._requests[ip_address] = [] *)
  let m1 := match _requests rl !! ip_address with
            | None => <[ip_address := []]> (_requests rl)
            | Some _ => _requests rl
            end in
  (* self._requests[ip_address] = [t for t in ... if t > window_start] *)
  let kept := List.filter (fun req_time => Qgtb req_time window_start)
                          (default [] (m1 !! ip_address)) in
  let m2 := <[ip_address := kept]> m1 in
  if Z.of_nat (length kept) >=? max_requests rl then
    (false, with_requests rl m2)
  else
    (* self._requests[ip_address].append(current_time) *)
    (true, with_requests rl (<[ip_address := kept ++ [current_time]]> m2)).

(** [RateLimiter.get_remaining] *)
Definition get_remaining (rl : t) (current_time : Q) (ip_address : string) : Z :=
  match _requests rl !! ip_address with
  | None => max_requests rl
  | Some reqs =>
      let window_start := (current_time - inject_Z (window_seconds rl))%Q in
      let recent := List.filter (fun req_time => Qgtb req_time window_start) reqs in
      Z.max 0 (max_requests rl - Z.of_nat (length recent))
  end.

(** The timestamps recorded for an identity ([[]] when it is unknown). *)
Definition history (rl : t) (ip_address : string) : list Q :=
  default [] (_requests rl !! ip_address).

(** The history of an identity as [is_allowed] prunes it at [now]. *)
Definition pruned (rl : t) (now : Q) (ip_address : string) : list Q :=
  List.filter (fun req_time =>
                 Qgtb req_time (now - inject_Z (window_seconds rl))%Q)
              (history rl ip_address).

(** Runs a sequence of calls for one identity, collecting the answers. *)
Fixpoint calls (rl : t) (ip_address : string) (times : list Q) : list bool * t :=
  match times with
  | [] => ([], rl)
  | now :: rest =>
      let '(b, rl1) := is_allowed rl now ip_address in
      let '(bs, rl2) := calls rl1 ip_address rest in
      (b :: bs, rl2)
  end.

(** The admission rule in the words of the specification: a recorded
    timestamp is dropped when it is older than [now - window_seconds]. *)
Definition older_than (req_time bound : Q) : bool :=
  negb (Qle_bool bound req_time).

Definition rule_as_specified (rl : t) (now : Q) (identity : string)
  : bool * t :=
  let bound := (now - inject_Z (window_seconds rl))%Q in
  let remaining := List.filter (fun req_time => negb (older_than req_time bound))
                               (history rl identity) in
  if Z.of_nat (length remaining) >=? max_requests rl then
    (false, with_requests rl (<[identity := remaining]> (_requests rl)))
  else
    (true, with_requests rl (<[identity := remaining ++ [now]]> (_requests rl))).

(** The limiter after one allowed call at time 0, with one request
    allowed per 60 seconds. *)
Definition one_call_at_0 : t := snd (is_allowed (init 1 60) 0%Q "10.0.0.1").

End RateLimiter.

(** ** Python built-ins used by the service *)

Module Py.

(** [str.isspace] on one code point below 256: TAB..CR, FS..US, SPACE,
    NEL and NBSP. *)
Definition is_space (c : ascii) : bool :=
  let n := N_of_ascii c in
  ((9 <=? n) && (n <=? 13) || (28 <=? n) && (n <=? 32)
   || (n =? 133) || (n =? 160))%N.

Fixpoint lstrip (s : string) : string :=
  match s with
  | EmptyString => EmptyString
  | String c rest => if is_space c then lstrip rest else s
  end.

Fixpoint rstrip (s : string) : string :=
  match s with
  | EmptyString => EmptyString
  | String c rest =>
      match rstrip rest with
      | EmptyString => if is_space c then EmptyString else String c EmptyString
      | kept => String c kept
      end
  end.

(** [str.strip()] *)
Definition strip (s : string) : string := rstrip (lstrip s).

(** [str.startswith] *)
Definition startswith (s pre : string) : bool := String.prefix pre s.

(** [len(s)] *)
Definition len (s : string) : Z := Z.of_nat (String.length s).

(** [sum(xs)] over ints: left to right from 0. *)
Definition sum (xs : list Z) : Z := fold_left Z.add xs 0.

(** [f"{n}"] for an int *)
Definition fmt (n : Z) : string := pretty n.

(** Truth value of a query result: [None] is false, a row is true. *)
Definition is_some {A} (o : option A) : bool :=
  match o with Some _ => true | None => false end.

(** Truth value of a string: [not s] is [is_empty s]. *)
Definition is_empty (s : string) : bool :=
  match s with EmptyString => true | _ => false end.

(** Float arithmetic and [str.upper] belong to the Python runtime; the
    service only composes them, so they are parameters here. *)
Class Runtime := {
  float : Type;
  (** [a / b] on two ints, [b] non-zero *)
  truediv : Z -> Z -> float;
  (** [x * n] for a float and an int *)
  fmul : float -> Z -> float;
  (** [round(x, ndigits)] on a float *)
  round_ndigits : float -> Z -> float;
  (** [s.upper()] *)
  upper : string -> string
}.

(** A Python number: an [int] or a [float]. *)
Inductive number `{Runtime} :=
| NInt (z : Z)
| NFloat (x : float).

(** [int.__round__(ndigits)]: the int itself for [ndigits >= 0], else the
    nearest multiple of [10 ** -ndigits], ties to the even multiple. *)
Definition round_int (z ndigits : Z) : Z :=
  if 0 <=? ndigits then z
  else
    let m := 10 ^ (- ndigits) in
    let q := z / m in
    let r := z mod m in
    if 2 * r <? m then q * m
    else if m <? 2 * r then (q + 1) * m
    else if Z.even q then q * m else (q + 1) * m.

(** [round(x, ndigits)] *)
Definition round `{Runtime} (x : number) (ndigits : Z) : number :=
  match x with
  | NInt z => NInt (round_int z ndigits)
  | NFloat f => NFloat (round_ndigits f ndigits)
  end.

(** JSON-like values ([dict], [list], numbers, strings, [None]); a dict
    keeps its insertion order. [JIso t] is [t.isoformat()]. *)
Inductive value (F : Type) : Type :=
| JNone
| JBool (b : bool)
| JInt (z : Z)
| JFloat (x : F)
| JStr (s : string)
| JIso (t : Q)
| JList (items : list (value F))
| JDict (entries : list (string * value F)).

Arguments JNone {F}.
Arguments JBool {F} b.
Arguments JInt {F} z.
Arguments JFloat {F} x.
Arguments JStr {F} s.
Arguments JIso {F} t.
Arguments JList {F} items.
Arguments JDict {F} entries.

(** [d.keys()] in insertion order; [[]] for a non-dict. *)
Definition keys {F} (v : value F) : list string :=
  match v with
  | JDict entries => map fst entries
  | _ => []
  end.

(** [d[k]] *)
Fixpoint assoc {F} (k : string) (entries : list (string * value F))
  : option (value F) :=
  match entries with
  | [] => None
  | (k', v) :: rest => if String.eqb k k' then Some v else assoc k rest
  end.

Definition get {F} (v : value F) (k : string) : option (value F) :=
  match v with
  | JDict entries => assoc k entries
  | _ => None
  end.

Definition items {F} (v : value F) : list (value F) :=
  match v with
  | JList l => l
  | _ => []
  end.

Definition of_number `{Runtime} (x : number) : value float :=
  match x with
  | NInt z => JInt z
  | NFloat f => JFloat f
  end.

End Py.

(** ** Rows of the three tables ([models.py]) *)

Module Poll.
Record t := mk {
  id : Z;
  question : string;
  poll_code : string;
  created_at : Q
}.
End Poll.

Module Option.
Record t := mk {
  id : Z;
  poll_id : Z;
  option_text : string;
  vote_count : Z
}.

(** [Option.to_dict] *)
Definition to_dict {F} (o : t) : Py.value F :=
  Py.JDict [("id", Py.JInt (id o));
            ("poll_id", Py.JInt (poll_id o));
            ("option_text", Py.JStr (option_text o));
            ("vote_count", Py.JInt (vote_count o))]%string.
End Option.

Module Vote.
Record t := mk {
  id : Z;
  poll_id : Z;
  option_id : Z;
  ip_address : string;
  browser_token : string;
  timestamp : Q
}.
End Vote.

(** ** The storage layer: tables and the constraints declared on them *)

Module Storage.

(** Tables hold their rows in insertion order. *)
Record DB := mkDB {
  polls : list Poll.t;
  options : list Option.t;
  votes : list Vote.t
}.

Definition empty : DB := mkDB [] [] [].

(** An [int] that SQLite can bind as a parameter: a signed 64-bit INTEGER.
    The driver raises [OverflowError] for any other. *)
Definition fits_integer (z : Z) : bool := (- 2 ^ 63 <=? z) && (z <? 2 ^ 63).

(** Autoincrement primary key: one more than the largest key in use. *)
Definition next_id (ids : list Z) : Z := 1 + fold_right Z.max 0 ids.

Definition has_poll_code (db : DB) (code : string) : bool :=
  existsb (fun p => String.eqb (Poll.poll_code p) code) (polls db).

Definition has_poll_id (db : DB) (pid : Z) : bool :=
  existsb (fun p => Poll.id p =? pid) (polls db).

Definition has_option_id (db : DB) (oid : Z) : bool :=
  existsb (fun o => Option.id o =? oid) (options db).

(** [UniqueConstraint('poll_id', 'ip_address', name='uq_vote_poll_ip')] *)
Definition uq_vote_poll_ip (db : DB) (pid : Z) (ip : string) : bool :=
  negb (existsb (fun v => (Vote.poll_id v =? pid)
                          && String.eqb (Vote.ip_address v) ip) (votes db)).

(** [UniqueConstraint('poll_id', 'browser_token', name='uq_vote_poll_token')] *)
Definition uq_vote_poll_token (db : DB) (pid : Z) (token : string) : bool :=
  negb (existsb (fun v => (Vote.poll_id v =? pid)
                          && String.eqb (Vote.browser_token v) token) (votes db)).

(** INSERT INTO polls: [poll_code] is [unique=True]. [None] is the
    integrity violation. *)
Definition insert_poll (db : DB) (question poll_code : string) (now : Q)
  : option (Z * DB) :=
  if has_poll_code db poll_code then None
  else
    let pid := next_id (map Poll.id (polls db)) in
    Some (pid, mkDB (polls db ++ [Poll.mk pid question poll_code now])
                    (options db) (votes db)).

(** INSERT INTO options: [poll_id] is a foreign key to [polls.id]. *)
Definition insert_option (db : DB) (poll_id : Z) (option_text : string)
           (vote_count : Z) : option (Z * DB) :=
  if has_poll_id db poll_id then
    let oid := next_id (map Option.id (options db)) in
    Some (oid, mkDB (polls db)
                    (options db ++ [Option.mk oid poll_id option_text vote_count])
                    (votes db))
  else None.

(** INSERT INTO votes: both uniqueness constraints and both foreign keys. *)
Definition insert_vote (db : DB) (poll_id option_id : Z)
           (ip_address browser_token : string) (now : Q) : option (Z * DB) :=
  if has_poll_id db poll_id && has_option_id db option_id
     && uq_vote_poll_ip db poll_id ip_address
     && uq_vote_poll_token db poll_id browser_token
  then
    let vid := next_id (map Vote.id (votes db)) in
    Some (vid, mkDB (polls db) (options db)
                    (votes db ++ [Vote.mk vid poll_id option_id ip_address
                                          browser_token now]))
  else None.

(** UPDATE options SET vote_count = vote_count + 1 WHERE id = :option_id *)
Definition increment_vote_count (db : DB) (option_id : Z) : DB :=
  mkDB (polls db)
       (map (fun o => if Option.id o =? option_id
                      then Option.mk (Option.id o) (Option.poll_id o)
                                     (Option.option_text o)
                                     (Option.vote_count o + 1)
                      else o) (options db))
       (votes db).

(** Insertion sort on the key, for [order_by='Option.id']. *)
Fixpoint insert_by_id (o : Option.t) (l : list Option.t) : list Option.t :=
  match l with
  | [] => [o]
  | x :: rest => if Option.id o <=? Option.id x then o :: l
                 else x :: insert_by_id o rest
  end.

Definition order_by_id (l : list Option.t) : list Option.t :=
  fold_right insert_by_id [] l.

(** The [Poll.options] relationship: the poll's options ordered by id. *)
Definition poll_options (db : DB) (pid : Z) : list Option.t :=
  order_by_id (List.filter (fun o => Option.poll_id o =? pid) (options db)).

(** The [Poll.votes] relationship. *)
Definition poll_votes (db : DB) (pid : Z) : list Vote.t :=
  List.filter (fun v => Vote.poll_id v =? pid) (votes db).

(** [sum(opt.vote_count for opt in poll.options)] *)
Definition total_votes (db : DB) (pid : Z) : Z :=
  Py.sum (map Option.vote_count (poll_options db pid)).

(** [Poll.to_dict] *)
Definition poll_to_dict {F} (db : DB) (p : Poll.t) : Py.value F :=
  Py.JDict [("id", Py.JInt (Poll.id p));
            ("question", Py.JStr (Poll.question p));
            ("poll_code", Py.JStr (Poll.poll_code p));
            ("created_at", Py.JIso (Poll.created_at p));
            ("total_votes", Py.JInt (total_votes db (Poll.id p)));
            ("options", Py.JList (map Option.to_dict
                                      (poll_options db (Poll.id p))))]%string.

End Storage.

(** ** The SQLAlchemy session as a state-and-exception monad *)

Module Session.
Import Storage.

Inductive exn :=
| ValidationError (msg : string)
| DuplicateVoteError (msg : string)
| PollNotFoundError (msg : string)
| RateLimitError (msg : string)
| PollServiceError (msg : string)
| IntegrityError
| OperationalError
| InvalidRequestError
| RecursionError
| OverflowError.

(** [isinstance(e, PollServiceError)]: the service's own hierarchy. *)
Definition is_poll_service_error (e : exn) : bool :=
  match e with
  | ValidationError _ | DuplicateVoteError _ | PollNotFoundError _
  | RateLimitError _ | PollServiceError _ => true
  | _ => false
  end.

(** Objects handed to [session.add] and not yet flushed. A new poll
    carries its [options] collection. *)
Inductive pending :=
| NewPoll (question poll_code : string) (opts : list (string * Z))
| NewVote (poll_id option_id : Z) (ip_address browser_token : string).

(** Where the backend fails for a reason of its own (lost connection,
    locked database), if it does: at the UPDATE, at the COMMIT, or after
    the COMMIT, when the session reads the committed rows back. *)
Inductive stage := AtExecute | AtCommit | AfterCommit.

Record World := mkWorld {
  committed : DB;              (* the ledger: what every connection sees *)
  txn : DB;                    (* the open transaction's view *)
  new_objects : list pending;  (* session.new *)
  outage : option stage;
  codes : nat -> string;       (* what generate_poll_code returns, call by call *)
  next_code : nat
}.

(** [SessionLocal()]: a fresh session on the ledger. *)
Definition open (db : DB) (outage : option stage) (codes : nat -> string)
           (next_code : nat) : World :=
  mkWorld db db [] outage codes next_code.

Inductive result (A : Type) :=
| Ok (a : A)
| Raise (e : exn).
Arguments Ok {A} a.
Arguments Raise {A} e.

Definition M (A : Type) : Type := World -> result A * World.

Definition ret {A} (a : A) : M A := fun w => (Ok a, w).

Definition bind {A B} (m : M A) (k : A -> M B) : M B :=
  fun w => match m w with
           | (Ok a, w1) => k a w1
           | (Raise e, w1) => (Raise e, w1)
           end.

Definition raise {A} (e : exn) : M A := fun w => (Raise e, w).

(** [try: m  except ...: handler e] *)
Definition try_except {A} (m : M A) (handler : exn -> M A) : M A :=
  fun w => match m w with
           | (Ok a, w1) => (Ok a, w1)
           | (Raise e, w1) => handler e w1
           end.

Definition reads {A} (f : DB -> A) : M A := fun w => (Ok (f (txn w)), w).

Definition set_txn (w : World) (db : DB) (objs : list pending) : World :=
  mkWorld (committed w) db objs (outage w) (codes w) (next_code w).

(** [session.rollback()] *)
Definition rollback : M unit :=
  fun w => (Ok tt, set_txn w (committed w) []).

(** [session.add(obj)] *)
Definition add (obj : pending) : M unit :=
  fun w => (Ok tt, set_txn w (txn w) (new_objects w ++ [obj])).

(** [session.execute(update(Option)...)] *)
Definition execute_increment (option_id : Z) : M unit :=
  fun w => match outage w with
           | Some AtExecute => (Raise OperationalError, w)
           | _ => (Ok tt, set_txn w (increment_vote_count (txn w) option_id)
                                  (new_objects w))
           end.

Fixpoint insert_options (db : DB) (pid : Z) (opts : list (string * Z))
  : option DB :=
  match opts with
  | [] => Some db
  | (text, count) :: rest =>
      match insert_option db pid text count with
      | Some (_, db1) => insert_options db1 pid rest
      | None => None
      end
  end.

(** INSERTs for one pending object; the primary key it receives. *)
Definition flush_object (db : DB) (now : Q) (obj : pending) : option (Z * DB) :=
  match obj with
  | NewPoll question poll_code opts =>
      match insert_poll db question poll_code now with
      | Some (pid, db1) =>
          match insert_options db1 pid opts with
          | Some db2 => Some (pid, db2)
          | None => None
          end
      | None => None
      end
  | NewVote poll_id option_id ip_address browser_token =>
      insert_vote db poll_id option_id ip_address browser_token now
  end.

Fixpoint flush (db : DB) (now : Q) (objs : list pending) : option (list Z * DB) :=
  match objs with
  | [] => Some ([], db)
  | obj :: rest =>
      match flush_object db now obj with
      | Some (k, db1) =>
          match flush db1 now rest with
          | Some (ks, db2) => Some (k :: ks, db2)
          | None => None
          end
      | None => None
      end
  end.

(** [session.commit()]: flush, then COMMIT. Either everything written in
    the transaction reaches the ledger, or the transaction is rolled back
    and the exception is raised. Returns the keys of the flushed objects. *)
Definition commit (now : Q) : M (list Z) :=
  fun w => match outage w with
           | Some AtCommit => (Raise OperationalError, set_txn w (committed w) [])
           | _ =>
               match flush (txn w) now (new_objects w) with
               | Some (ks, db) =>
                   (Ok ks, mkWorld db db [] (outage w) (codes w) (next_code w))
               | None => (Raise IntegrityError, set_txn w (committed w) [])
               end
           end.

(** [generate_poll_code(8)] *)
Definition generate_poll_code : M string :=
  fun w => (Ok (codes w (next_code w)),
            mkWorld (committed w) (txn w) (new_objects w) (outage w)
                    (codes w) (S (next_code w))).

(** [session.refresh(poll)]: a SELECT of the row, issued after the
    COMMIT. *)
Definition refresh (pid : Z) : M Poll.t :=
  fun w => match outage w with
           | Some AfterCommit => (Raise OperationalError, w)
           | _ =>
               match List.find (fun p => Poll.id p =? pid) (polls (txn w)) with
               | Some p => (Ok p, w)
               | None => (Raise InvalidRequestError, w)
               end
           end.

(** A query with [z] bound as a parameter. *)
Definition query_bound {A} (z : Z) (f : DB -> A) : M A :=
  if fits_integer z then reads f else raise OverflowError.

(** A request: open a session on the ledger, run, close. What is left of
    an uncommitted transaction is discarded by [close]. *)
Definition run {A} (m : M A) (db : DB) (outage : option stage)
           (codes : nat -> string) (next_code : nat) : result A * DB :=
  let '(r, w) := m (open db outage codes next_code) in (r, committed w).

Declare Scope session_scope.
Delimit Scope session_scope with session.
Notation "x <- m ;; k" := (bind m (fun x => k))
  (at level 100, m at next level, right associativity) : session_scope.
Notation "m ;;; k" := (bind m (fun _ => k))
  (at level 100, right associativity) : session_scope.

End Session.

(** ** Business logic ([class PollService]) *)

Module PollService.
Import Storage Session.
Local Open Scope string_scope.
Local Open Scope Z_scope.
Local Open Scope session_scope.

Section WithRuntime.
Context {RT : Py.Runtime}.

Definition json : Type := Py.value Py.float.

(** [self.db.query(Poll).filter_by(poll_code=poll_code).first()] *)
Definition get_poll_by_code (poll_code : string) : M (option Poll.t) :=
  reads (fun db => List.find (fun p => String.eqb (Poll.poll_code p) poll_code)
                             (polls db)).

(** [get_poll_or_404] *)
Definition get_poll_or_404 (poll_code : string) : M Poll.t :=
  poll <- get_poll_by_code poll_code ;;
  match poll with
  | None => raise (PollNotFoundError
                     ("Poll with code '" +:+ poll_code +:+ "' not found"))
  | Some p => ret p
  end.

(** The loop that cleans and validates each option. *)
Fixpoint clean_options (max_option_length : Z) (options : list string)
  : M (list string) :=
  match options with
  | [] => ret []
  | opt :: rest =>
      let opt := Py.strip opt in
      if Py.is_empty opt then raise (ValidationError "Options cannot be empty")
      else if (Py.len opt >? max_option_length)%Z then
        raise (ValidationError ("Each option must be "
                 +:+ Py.fmt max_option_length +:+ " characters or less"))
      else
        cleaned <- clean_options max_option_length rest ;;
        ret (opt :: cleaned)
  end.

(** The [for _ in range(max_attempts)] loop of
    [_generate_unique_poll_code]. *)
Fixpoint generate_attempts (attempts : nat) : M string :=
  match attempts with
  | O => raise (ValidationError "Unable to generate unique poll code")
  | S attempts' =>
      code <- generate_poll_code ;;
      existing <- get_poll_by_code code ;;
      match existing with
      | None => ret code
      | Some _ => generate_attempts attempts'
      end
  end.

Definition max_attempts : nat := 10.

Definition _generate_unique_poll_code : M string :=
  generate_attempts max_attempts.

(** [PollService.create_poll]. [depth] is the interpreter's remaining
    recursion depth: the method calls itself when the commit reports an
    integrity violation. *)
Fixpoint create_poll (depth : nat) (now : Q) (question : string)
         (options : list string)
         (min_options max_options max_question_length max_option_length : Z)
  : M Poll.t :=
  match depth with
  | O => raise RecursionError
  | S depth' =>
      if Py.is_empty question || Py.is_empty (Py.strip question) then
        raise (ValidationError "Question is required")
      else
      let question := Py.strip question in
      if (Py.len question >? max_question_length)%Z then
        raise (ValidationError ("Question must be "
                 +:+ Py.fmt max_question_length +:+ " characters or less"))
      else if bool_decide (options = [])
              || (Z.of_nat (length options) <? min_options)%Z then
        raise (ValidationError ("At least " +:+ Py.fmt min_options
                                +:+ " options are required"))
      else if (Z.of_nat (length options) >? max_options)%Z then
        raise (ValidationError ("Maximum " +:+ Py.fmt max_options
                                +:+ " options allowed"))
      else
        cleaned_options <- clean_options max_option_length options ;;
        if negb (length cleaned_options =? length (remove_dups cleaned_options))%nat
        then raise (ValidationError "Options must be unique")
        else
          poll_code <- _generate_unique_poll_code ;;
          try_except
            (add (NewPoll question poll_code
                          (map (fun opt_text => (opt_text, 0)) cleaned_options)) ;;;
             keys <- commit now ;;
             refresh (List.hd 0 keys))
            (fun e =>
               match e with
               | IntegrityError =>
                   rollback ;;;
                   create_poll depth' now question options
                               min_options max_options 500 200
               | _ => raise e
               end)
  end.

(** The two fairness queries: a vote of this poll from the IP address, or
    with the browser token. *)
Definition query_vote_by_ip (pid : Z) (ip_address : string) : M (option Vote.t) :=
  reads (fun db => List.find (fun v => (Vote.poll_id v =? pid)
                                       && String.eqb (Vote.ip_address v) ip_address)
                             (votes db)).

Definition query_vote_by_token (pid : Z) (browser_token : string)
  : M (option Vote.t) :=
  reads (fun db => List.find (fun v => (Vote.poll_id v =? pid)
                                       && String.eqb (Vote.browser_token v)
                                                     browser_token)
                             (votes db)).

(** [PollService.validate_vote] *)
Definition validate_vote (poll_code ip_address browser_token : string)
  : M (bool * option string) :=
  poll <- get_poll_by_code poll_code ;;
  match poll with
  | None => ret (false, Some "Poll not found")
  | Some poll =>
      existing_ip_vote <- query_vote_by_ip (Poll.id poll) ip_address ;;
      if Py.is_some existing_ip_vote then
        ret (false, Some "You have already voted from this IP address")
      else
        existing_token_vote <- query_vote_by_token (Poll.id poll) browser_token ;;
        if Py.is_some existing_token_vote then
          ret (false, Some "You have already voted")
        else ret (true, None)
  end.

(** The [try] block of [submit_vote] with its [except] clauses: the
    count update and the vote insert in one transaction. *)
Definition submit_vote_write (now : Q) (poll : Poll.t)
           (option_id : Z) (ip_address browser_token : string) : M json :=
  try_except
    (execute_increment option_id ;;;
     add (NewVote (Poll.id poll) option_id ip_address browser_token) ;;;
     commit now ;;;
     poll <- refresh (Poll.id poll) ;;
     poll_dict <- reads (fun db => poll_to_dict db poll) ;;
     ret (Py.JDict [("success", Py.JBool true);
                    ("poll", poll_dict);
                    ("voted_option_id", Py.JInt option_id)]))
    (fun e =>
       match e with
       | IntegrityError =>
           rollback ;;; raise (DuplicateVoteError "You have already voted")
       | _ =>
           rollback ;;; raise (PollServiceError "Failed to submit vote")
       end).

(** [PollService.submit_vote] *)
Definition submit_vote (now : Q) (poll_code : string) (option_id : Z)
           (ip_address browser_token : string) : M json :=
  poll <- get_poll_by_code poll_code ;;
  match poll with
  | None => raise (PollNotFoundError "Poll not found")
  | Some poll =>
      option <- query_bound option_id (fun db =>
                  List.find (fun o => (Option.id o =? option_id)
                                      && (Option.poll_id o =? Poll.id poll))
                            (options db)) ;;
      if negb (Py.is_some option) then
        raise (ValidationError "Invalid option selected")
      else
      existing_vote <- query_vote_by_ip (Poll.id poll) ip_address ;;
      if Py.is_some existing_vote then
        raise (DuplicateVoteError "You have already voted from this IP address")
      else
      existing_token_vote <- query_vote_by_token (Poll.id poll) browser_token ;;
      if Py.is_some existing_token_vote then
        raise (DuplicateVoteError "You have already voted")
      else
        submit_vote_write now poll option_id ip_address browser_token
  end.

(** The percentage of one option in [get_results]. *)
Definition percentage (vote_count total_votes : Z) : Py.number :=
  if total_votes >? 0
  then Py.NFloat (Py.fmul (Py.truediv vote_count total_votes) 100)
  else Py.NInt 0.

Definition option_data (total_votes : Z) (opt : Option.t) : json :=
  Py.JDict [("id", Py.JInt (Option.id opt));
            ("option_text", Py.JStr (Option.option_text opt));
            ("vote_count", Py.JInt (Option.vote_count opt));
            ("percentage",
             Py.of_number (Py.round (percentage (Option.vote_count opt)
                                                total_votes) 1))].

(** [PollService.get_results] *)
Definition get_results (poll_code : string) : M json :=
  poll <- get_poll_by_code poll_code ;;
  match poll with
  | None => raise (PollNotFoundError "Poll not found")
  | Some poll =>
      opts <- reads (fun db => poll_options db (Poll.id poll)) ;;
      let total_votes := Py.sum (map Option.vote_count opts) in
      let options_data := map (option_data total_votes) opts in
      ret (Py.JDict [("poll_code", Py.JStr poll_code);
                     ("question", Py.JStr (Poll.question poll));
                     ("total_votes", Py.JInt total_votes);
                     ("options", Py.JList options_data);
                     ("created_at", Py.JIso (Poll.created_at poll))])
  end.

End WithRuntime.
End PollService.

(** ** The HTTP routes that create polls and take votes ([app.py]) *)

Module App.
Import Storage Session.
Local Open Scope string_scope.
Local Open Scope Z_scope.
Local Open Scope session_scope.

(** [class Config]: the poll limits read through [app.config.get]. *)
Record Config := mkConfig {
  MIN_OPTIONS : Z;
  MAX_OPTIONS : Z;
  MAX_QUESTION_LENGTH : Z;
  MAX_OPTION_LENGTH : Z
}.

Definition default_config : Config := mkConfig 2 10 500 200.

(** Process state: the global rate limiter and the ledger, with the
    position in the code generator's output. *)
Record State := mkState {
  rate_limiter : RateLimiter.t;
  ledger : DB;
  code_index : nat
}.

(** What a request sees of its environment: both clocks, the codes and
    browser token the generators would produce, and a backend outage. *)
Record Env := mkEnv {
  time_now : Q;
  utc_now : Q;
  poll_codes : nat -> string;
  fresh_browser_token : string;
  backend_outage : option stage;
  recursion_limit : nat
}.

(** [x or default] on an optional string *)
Definition or_default (x : option string) (d : string) : string :=
  match x with
  | Some s => if Py.is_empty s then d else s
  | None => d
  end.

(** *** POST /create *)

Record CreateRequest := mkCreateRequest {
  cr_remote_addr : option string;
  (** [request.form]: field name and first value, in field order *)
  cr_form : list (string * string)
}.

Inductive CreateResponse :=
(** [redirect(url_for('share_poll', poll_code=...))] *)
| RedirectToShare (poll_code : string)
(** [render_template('create_poll.html', ...)] after [flash(msg, 'error')];
    the validation branch passes the question and options back *)
| CreatePage (flashed : string) (echo : option (string * list string)).

Fixpoint form_get (form : list (string * string)) (key d : string) : string :=
  match form with
  | [] => d
  | (k, v) :: rest => if String.eqb k key then v else form_get rest key d
  end.

(** The loop collecting the non-empty [option_*] fields. *)
Fixpoint form_options (form : list (string * string)) : list string :=
  match form with
  | [] => []
  | (key, v) :: rest =>
      if Py.startswith key "option_" then
        let value := Py.strip v in
        if Py.is_empty value then form_options rest
        else value :: form_options rest
      else form_options rest
  end.

Section WithRuntime.
Context {RT : Py.Runtime}.

Definition create_poll (cfg : Config) (env : Env) (st : State)
           (req : CreateRequest) : CreateResponse * State :=
  let ip_address := or_default (cr_remote_addr req) "127.0.0.1" in
  let '(allowed, rl) := RateLimiter.is_allowed (rate_limiter st) (time_now env)
                                               ip_address in
  if negb allowed then
    (CreatePage "Too many requests. Please try again later." None,
     mkState rl (ledger st) (code_index st))
  else
    let question := Py.strip (form_get (cr_form req) "question" "") in
    let options := form_options (cr_form req) in
    let '(r, w) := PollService.create_poll (recursion_limit env) (utc_now env)
                     question options
                     (MIN_OPTIONS cfg) (MAX_OPTIONS cfg)
                     (MAX_QUESTION_LENGTH cfg) (MAX_OPTION_LENGTH cfg)
                     (open (ledger st) (backend_outage env) (poll_codes env)
                           (code_index st)) in
    let st' := mkState rl (committed w) (next_code w) in
    match r with
    | Ok poll => (RedirectToShare (Poll.poll_code poll), st')
    | Raise (ValidationError msg) =>
        (CreatePage msg (Some (question, options)), st')
    | Raise _ => (CreatePage "An error occurred. Please try again." None, st')
    end.

(** *** POST /poll/<poll_code>/vote *)

(** What reading the body gives: [request.get_json() or {}], then
    [data.get('option_id')], then [int(option_id)]. The route catches
    [ValueError] and [TypeError] of [int()] only; whatever else is raised
    leaves the view function. *)
Inductive OptionIdField :=
| NoOptionId            (* a falsy body, or option_id missing or falsy *)
| NotAnInt              (* int() raises ValueError or TypeError *)
| OptionId (option_id : Z)
| BadBody               (* get_json() raises, or the body is not an object
                           and data.get raises AttributeError *)
| IntOverflow.          (* int() raises OverflowError (an infinite float) *)

Record VoteRequest := mkVoteRequest {
  vr_remote_addr : option string;
  vr_cookie_browser_token : option string;
  vr_option_id : OptionIdField
}.

(** [socketio.emit(event, payload, room=room)] *)
Record Emit := mkEmit {
  event : string;
  payload : PollService.json;
  room : string
}.

(** What a response carries: a JSON document or a rendered page. *)
Inductive Body :=
(** [jsonify(doc)] *)
| Json (doc : PollService.json)
(** [render_template('404.html', error=error)] *)
| ErrorPage (error : string).

Record VoteResponse := mkVoteResponse {
  body : Body;
  status : Z;
  set_cookie : option string
}.

Definition error_body (msg : string) (extra : list (string * PollService.json))
  : PollService.json :=
  Py.JDict ([("success", Py.JBool false); ("error", Py.JStr msg)] ++ extra).

(** [handle_exception], registered with [app.errorhandler(Exception)]: the
    answer to every exception that leaves a view function. *)
Definition handle_exception : VoteResponse :=
  mkVoteResponse (ErrorPage "Something went wrong") 500 None.

Definition submit_vote (env : Env) (st : State) (poll_code : string)
           (req : VoteRequest) : VoteResponse * list Emit * State :=
  let ip_address := or_default (vr_remote_addr req) "127.0.0.1" in
  let browser_token :=
    or_default (vr_cookie_browser_token req) (fresh_browser_token env) in
  match vr_option_id req with
  | BadBody | IntOverflow => (handle_exception, [], st)
  | NoOptionId =>
      (mkVoteResponse (Json (error_body "Please select an option" [])) 400 None,
       [], st)
  | NotAnInt =>
      (mkVoteResponse (Json (error_body "Invalid option" [])) 400 None, [], st)
  | OptionId option_id =>
      let '(allowed, rl) := RateLimiter.is_allowed (rate_limiter st)
                              (time_now env) ip_address in
      if negb allowed then
        (mkVoteResponse
           (Json (error_body "Too many requests. Please try again later."
                             [("rate_limited", Py.JBool true)])) 429 None,
         [], mkState rl (ledger st) (code_index st))
      else
        let '(r, w) :=
          (PollService.submit_vote (utc_now env) (Py.upper poll_code) option_id
                                   ip_address browser_token ;;;
           PollService.get_results (Py.upper poll_code))
            (open (ledger st) (backend_outage env) (poll_codes env)
                  (code_index st)) in
        let st' := mkState rl (committed w) (next_code w) in
        match r with
        | Ok poll_results =>
            (mkVoteResponse
               (Json (Py.JDict [("success", Py.JBool true);
                                ("results", poll_results)]))
               200
               (match vr_cookie_browser_token req with
                | None => Some browser_token
                | Some _ => None
                end),
             [mkEmit "vote_update" poll_results (Py.upper poll_code)], st')
        | Raise (PollNotFoundError _) =>
            (mkVoteResponse (Json (error_body "Poll not found" [])) 404 None,
             [], st')
        | Raise (ValidationError msg) =>
            (mkVoteResponse (Json (error_body msg [])) 400 None, [], st')
        | Raise (DuplicateVoteError msg) =>
            (mkVoteResponse
               (Json (error_body msg [("already_voted", Py.JBool true)]))
               409 None, [], st')
        | Raise _ =>
            (mkVoteResponse (Json (error_body "Failed to submit vote" [])) 500
                            None, [], st')
        end
  end.

(** *** GET /poll/<poll_code>/results *)
Definition get_results (env : Env) (st : State) (poll_code : string)
  : PollService.json * Z :=
  match fst (run (PollService.get_results (Py.upper poll_code)) (ledger st)
                 (backend_outage env) (poll_codes env) (code_index st)) with
  | Ok results => (results, 200)
  | Raise (PollNotFoundError _) =>
      (Py.JDict [("error", Py.JStr "Poll not found")], 404)
  | Raise _ => (Py.JDict [("error", Py.JStr "Failed to get results")], 500)
  end.

End WithRuntime.
End App.

(** ** A runtime for running examples: exact rational arithmetic

    Rounding is to the nearest multiple of [10 ** -ndigits], ties to even;
    [upper] maps the ASCII letters. *)

Module Exact.

Definition round_half_even (x : Q) : Z :=
  let n := Qnum x in
  let d := Zpos (Qden x) in
  let q := n / d in
  let r := n mod d in
  if 2 * r <? d then q
  else if d <? 2 * r then q + 1
  else if Z.even q then q else q + 1.

Definition round_ndigits (x : Q) (ndigits : Z) : Q :=
  let scale := inject_Z (10 ^ ndigits) in
  Qred (inject_Z (round_half_even (x * scale)) / scale).

Definition upper_char (c : ascii) : ascii :=
  let n := N_of_ascii c in
  if ((97 <=? n) && (n <=? 122))%N then ascii_of_N (n - 32) else c.

Fixpoint upper (s : string) : string :=
  match s with
  | EmptyString => EmptyString
  | String c rest => String (upper_char c) (upper rest)
  end.

Definition runtime : Py.Runtime :=
  {| Py.float := Q;
     Py.truediv := fun a b => Qred (inject_Z a / inject_Z b);
     Py.fmul := fun x n => Qred (x * inject_Z n);
     Py.round_ndigits := round_ndigits;
     Py.upper := upper |}.

End Exact.

(** ** Ledger invariants and reachable ledgers *)

Module Ledger.
Import Storage Session.
Local Open Scope string_scope.
Local Open Scope Z_scope.

(** Keys grow along a table. *)
Fixpoint ascending (ids : list Z) : Prop :=
  match ids with
  | [] => True
  | a :: rest => Forall (Z.lt a) rest /\ ascending rest
  end.

Definition uq_ip (db : DB) : Prop :=
  NoDup (map (fun v => (Vote.poll_id v, Vote.ip_address v)) (votes db)).

Definition uq_token (db : DB) : Prop :=
  NoDup (map (fun v => (Vote.poll_id v, Vote.browser_token v)) (votes db)).

(** The counts of some option rows, added up. *)
Definition counts (l : list Option.t) : Z :=
  fold_right Z.add 0 (map Option.vote_count l).

(** The tally invariant for one poll. *)
Definition tally (db : DB) (pid : Z) : Prop :=
  total_votes db pid = Z.of_nat (length (poll_votes db pid)).

Record wf (db : DB) : Prop := mk_wf {
  wf_poll_ids : ascending (map Poll.id (polls db));
  wf_poll_codes : NoDup (map Poll.poll_code (polls db));
  wf_option_ids : ascending (map Option.id (options db));
  wf_option_fk : Forall (fun o => has_poll_id db (Option.poll_id o) = true)
                        (options db);
  wf_vote_fk : Forall (fun v => has_poll_id db (Vote.poll_id v) = true)
                      (votes db);
  wf_uq_ip : uq_ip db;
  wf_uq_token : uq_token db;
  wf_tally : forall pid, tally db pid
}.

(** An option row with its count raised by one. *)
Definition bump (o : Option.t) : Option.t :=
  Option.mk (Option.id o) (Option.poll_id o) (Option.option_text o)
            (Option.vote_count o + 1).

(** The ledger after an accepted vote: the count of the option bumped and
    the vote row appended. *)
Definition vote_applied (db : DB) (pid option_id : Z) (ip tok : string)
           (now : Q) : DB :=
  mkDB (polls db)
       (options (increment_vote_count db option_id))
       (votes db ++ [Vote.mk (next_id (map Vote.id (votes db))) pid option_id
                             ip tok now]).

(** How a call ended, without the value it returned. *)
Inductive outcome :=
| Accepted
| Failed (e : exn).

Definition classify {A} (r : result A) : outcome :=
  match r with
  | Ok _ => Accepted
  | Raise e => Failed e
  end.

Definition find_poll (db : DB) (poll_code : string) : option Poll.t :=
  List.find (fun p => String.eqb (Poll.poll_code p) poll_code) (polls db).

(** The option with this id belongs to the poll. *)
Definition option_of_poll (db : DB) (option_id pid : Z) : bool :=
  existsb (fun o => (Option.id o =? option_id) && (Option.poll_id o =? pid))
          (options db).

(** What a vote request does to a ledger, case by case. *)
Definition vote_effect (db : DB) (now : Q) (poll_code : string) (option_id : Z)
           (ip tok : string) (outage : option stage) : outcome * DB :=
  match find_poll db poll_code with
  | None => (Failed (PollNotFoundError "Poll not found"), db)
  | Some p =>
      if negb (fits_integer option_id) then (Failed OverflowError, db)
      else if negb (option_of_poll db option_id (Poll.id p)) then
        (Failed (ValidationError "Invalid option selected"), db)
      else if negb (uq_vote_poll_ip db (Poll.id p) ip) then
        (Failed (DuplicateVoteError "You have already voted from this IP address"),
         db)
      else if negb (uq_vote_poll_token db (Poll.id p) tok) then
        (Failed (DuplicateVoteError "You have already voted"), db)
      else
        match outage with
        | None => (Accepted, vote_applied db (Poll.id p) option_id ip tok now)
        | Some AfterCommit =>
            (Failed (PollServiceError "Failed to submit vote"),
             vote_applied db (Poll.id p) option_id ip tok now)
        | Some _ => (Failed (PollServiceError "Failed to submit vote"), db)
        end
  end.

(** Option rows for the given texts, keyed consecutively from [first],
    all with a count of 0. *)
Fixpoint number_options (first pid : Z) (texts : list string) : list Option.t :=
  match texts with
  | [] => []
  | text :: rest =>
      Option.mk first pid text 0 :: number_options (first + 1) pid rest
  end.

Definition new_poll (db : DB) (question poll_code : string) (now : Q) : Poll.t :=
  Poll.mk (next_id (map Poll.id (polls db))) question poll_code now.

(** The ledger after a poll with these option texts has been stored. *)
Definition poll_created (db : DB) (question poll_code : string)
           (texts : list string) (now : Q) : DB :=
  mkDB (polls db ++ [new_poll db question poll_code now])
       (options db ++ number_options (next_id (map Option.id (options db)))
                                     (next_id (map Poll.id (polls db))) texts)
       (votes db).

(** The option-cleaning loop without the session. *)
Fixpoint cleaned (max_option_length : Z) (options : list string)
  : result (list string) :=
  match options with
  | [] => Ok []
  | opt :: rest =>
      let opt := Py.strip opt in
      if Py.is_empty opt then Raise (ValidationError "Options cannot be empty")
      else if Py.len opt >? max_option_length then
        Raise (ValidationError ("Each option must be "
                 +:+ Py.fmt max_option_length +:+ " characters or less"))
      else match cleaned max_option_length rest with
           | Ok l => Ok (opt :: l)
           | Raise e => Raise e
           end
  end.

(** The code-picking loop without the session: the code chosen, if any,
    and the generator position afterwards. *)
Fixpoint pick_code (db : DB) (codes : nat -> string) (k attempts : nat)
  : result string * nat :=
  match attempts with
  | O => (Raise (ValidationError "Unable to generate unique poll code"), k)
  | S attempts' =>
      if has_poll_code db (codes k) then pick_code db codes (S k) attempts'
      else (Ok (codes k), S k)
  end.

(** What a creation request does to a ledger and to the generator
    position, case by case. *)
Definition create_effect (db : DB) (now : Q) (question : string)
           (options : list string) (mn mx mq mo : Z)
           (outage : option stage) (codes : nat -> string) (k : nat)
  : result Poll.t * DB * nat :=
  if Py.is_empty question || Py.is_empty (Py.strip question) then
    (Raise (ValidationError "Question is required"), db, k)
  else if Py.len (Py.strip question) >? mq then
    (Raise (ValidationError ("Question must be " +:+ Py.fmt mq
                             +:+ " characters or less")), db, k)
  else if bool_decide (options = []) || (Z.of_nat (length options) <? mn) then
    (Raise (ValidationError ("At least " +:+ Py.fmt mn
                             +:+ " options are required")), db, k)
  else if Z.of_nat (length options) >? mx then
    (Raise (ValidationError ("Maximum " +:+ Py.fmt mx +:+ " options allowed")),
     db, k)
  else
    match cleaned mo options with
    | Raise e => (Raise e, db, k)
    | Ok texts =>
        if negb (length texts =? length (remove_dups texts))%nat then
          (Raise (ValidationError "Options must be unique"), db, k)
        else
          match pick_code db codes k PollService.max_attempts with
          | (Raise e, k') => (Raise e, db, k')
          | (Ok code, k') =>
              match outage with
              | Some AtCommit => (Raise OperationalError, db, k')
              | Some AfterCommit =>
                  (Raise OperationalError,
                   poll_created db (Py.strip question) code texts now, k')
              | _ => (Ok (new_poll db (Py.strip question) code now),
                      poll_created db (Py.strip question) code texts now, k')
              end
          end
    end.

(** A creation request that passes every validation of [create_poll]. *)
Definition valid_request (question : string) (options : list string)
           (mn mx mq mo : Z) : Prop :=
  Py.is_empty (Py.strip question) = false
  /\ Py.len (Py.strip question) <= mq
  /\ options <> []
  /\ mn <= Z.of_nat (length options) <= mx
  /\ Forall (fun opt => Py.is_empty (Py.strip opt) = false
                        /\ Py.len (Py.strip opt) <= mo) options
  /\ NoDup (map Py.strip options).

(** The next [n] candidate codes are all taken. *)
Definition all_taken (db : DB) (codes : nat -> string) (k n : nat) : Prop :=
  forall i, (i < n)%nat -> has_poll_code db (codes (k + i)%nat) = true.

Section WithRuntime.
Context {RT : Py.Runtime}.

(** The results snapshot of poll [p], looked up under [poll_code], in
    ledger [db]. *)
Definition snapshot (db : DB) (poll_code : string) (p : Poll.t)
  : PollService.json :=
  Py.JDict
    [("poll_code", Py.JStr poll_code);
     ("question", Py.JStr (Poll.question p));
     ("total_votes", Py.JInt (total_votes db (Poll.id p)));
     ("options",
      Py.JList (map (PollService.option_data (total_votes db (Poll.id p)))
                    (poll_options db (Poll.id p))));
     ("created_at", Py.JIso (Poll.created_at p))].

(** Ledgers reachable from the empty one through the two writing
    operations of the service, whatever their arguments and outcome. *)
Inductive Reachable : DB -> Prop :=
| reach_empty : Reachable empty
| reach_create_poll db depth now question opts mn mx mq mo outage codes k r db' :
    Reachable db ->
    run (PollService.create_poll depth now question opts mn mx mq mo)
        db outage codes k = (r, db') ->
    Reachable db'
| reach_submit_vote db now poll_code option_id ip tok outage codes k r db' :
    Reachable db ->
    run (PollService.submit_vote now poll_code option_id ip tok)
        db outage codes k = (r, db') ->
    Reachable db'.

End WithRuntime.
End Ledger.

(** ** A small ledger: the poll "Pick one" with options A and B *)

Module Example.
Import Storage Session.
Local Open Scope string_scope.

Definition codes : nat -> string := fun _ => "AB12CD34".

Definition created : result Poll.t * DB :=
  run (PollService.create_poll 1000 0%Q " Pick one " [" A"; "B "] 2 10 500 200)
      empty None codes 0.

Definition db1 : DB := snd created.

(** Identity X votes for A (option 1). *)
Definition vote_x : result (Py.value Q) * DB :=
  run (PollService.submit_vote (RT := Exact.runtime) 1%Q "AB12CD34" 1
                               "10.0.0.1" "token-x")
      db1 None codes 1.

Definition db2 : DB := snd vote_x.

(** Identity Y votes for B (option 2). *)
Definition vote_y : result (Py.value Q) * DB :=
  run (PollService.submit_vote (RT := Exact.runtime) 2%Q "AB12CD34" 2
                               "10.0.0.2" "token-y")
      db2 None codes 1.

Definition db3 : DB := snd vote_y.

(** A create request arriving when the generator keeps producing the code
    of the existing poll. *)
Definition colliding_env : App.Env :=
  App.mkEnv 100%Q 100%Q codes "token-new" None 1000.

Definition state1 : App.State := App.mkState (RateLimiter.init 10 60) db1 1.

Definition lunch_request : App.CreateRequest :=
  App.mkCreateRequest (Some "10.0.0.9")
                      [("question", "Lunch?"); ("option_1", "soup");
                       ("option_2", " salad ")].

(** A three-way tie: one vote for each of three options. *)
Definition tie_db : DB :=
  let db := snd (run (PollService.create_poll 1000 0%Q "Which?" ["x"; "y"; "z"]
                                              2 10 500 200)
                     empty None (fun _ => "TIE00000") 0) in
  let vote db oid ip tok :=
    snd (run (PollService.submit_vote (RT := Exact.runtime) 1%Q "TIE00000" oid
                                      ip tok) db None (fun _ => "TIE00000") 1) in
  vote (vote (vote db 1 "10.0.0.1" "t1") 2 "10.0.0.2" "t2") 3 "10.0.0.3" "t3".

Definition tie_results : result (Py.value Q) :=
  fst (run (PollService.get_results (RT := Exact.runtime) "TIE00000")
           tie_db None (fun _ => "TIE00000") 1).

(** The [percentage] entries of a results snapshot. *)
Definition percentages {F} (snapshot : Py.value F) : list (Py.value F) :=
  map (fun o => default Py.JNone (Py.get o "percentage"))
      (Py.items (default Py.JNone (Py.get snapshot "options"))).

End Example.

(** ** Rate-limit helpers of the service and call sequences *)

Module Limits.
Import RateLimiter.
Local Open Scope string_scope.
Local Open Scope Z_scope.

(** [PollService.check_rate_limit], on the service's [rate_limiter]. *)
Definition check_rate_limit (rl : t) (current_time : Q) (ip_address : string)
  : bool * t :=
  is_allowed rl current_time ip_address.

(** [PollService.get_rate_limit_info] *)
Definition get_rate_limit_info {F} (rl : t) (current_time : Q)
           (ip_address : string) : Py.value F :=
  Py.JDict [("remaining", Py.JInt (get_remaining rl current_time ip_address));
            ("limit", Py.JInt (max_requests rl));
            ("window", Py.JInt (window_seconds rl))].

(** The times of the calls that [is_allowed] answers with [True], in a
    sequence of calls for one identity. *)
Fixpoint granted (rl : t) (ip_address : string) (times : list Q) : list Q :=
  match times with
  | [] => []
  | now :: rest =>
      let '(b, rl1) := is_allowed rl now ip_address in
      (if b then [now] else []) ++ granted rl1 ip_address rest
  end.

(** A clock that never goes back. *)
Fixpoint nondecreasing (times : list Q) : Prop :=
  match times with
  | [] => True
  | a :: rest => Forall (fun b => (a <= b)%Q) rest /\ nondecreasing rest
  end.

(** The timestamps of [l] in the window that ends at [now]. *)
Definition in_window (window : Z) (now : Q) (l : list Q) : list Q :=
  List.filter (fun x => Qgtb x (now - inject_Z window)%Q) l.

End Limits.

(** ** Integrity of the ledger beyond the constraints of the schema *)

Module Integrity.
Import Storage Session Ledger.
Local Open Scope Z_scope.

(** The number of vote rows that reference an option. *)
Definition votes_for (db : DB) (option_id : Z) : nat :=
  length (List.filter (fun v => Vote.option_id v =? option_id) (votes db)).

(** Each option's count is the number of votes that reference it. *)
Definition option_tally (db : DB) : Prop :=
  Forall (fun o => Option.vote_count o = Z.of_nat (votes_for db (Option.id o)))
         (options db).

(** Each vote's option is an option of the vote's poll. *)
Definition vote_refs (db : DB) : Prop :=
  Forall (fun v => option_of_poll db (Vote.option_id v) (Vote.poll_id v) = true)
         (votes db).

(** Each poll has a question and at least one option. *)
Definition polls_ok (db : DB) : Prop :=
  Forall (fun p => Py.is_empty (Poll.question p) = false
                   /\ poll_options db (Poll.id p) <> [])
         (polls db).

(** The option texts of a poll are non-empty and pairwise distinct. *)
Definition texts_ok (db : DB) : Prop :=
  forall pid,
    NoDup (map Option.option_text (poll_options db pid))
    /\ Forall (fun o => Py.is_empty (Option.option_text o) = false)
              (poll_options db pid).

Record integrity (db : DB) : Prop := mk_integrity {
  int_tally : option_tally db;
  int_refs : vote_refs db;
  int_polls : polls_ok db;
  int_texts : texts_ok db
}.

End Integrity.

(** ** The pages that show and share a poll ([app.py]) *)

Module Views.
Import Storage Session.
Local Open Scope string_scope.
Local Open Scope Z_scope.
Local Open Scope session_scope.

Section WithRuntime.
Context {RT : Py.Runtime}.

Inductive Page :=
(** [render_template('404.html', poll_code=poll_code), 404] *)
| NotFound (poll_code : string)
(** [render_template('poll.html', poll=, results=, has_voted=,
    voted_option_id=)], with the cookie the response sets, if any *)
| PollPage (poll : Poll.t) (results : PollService.json) (has_voted : bool)
           (voted_option_id : option Z) (set_cookie : option string)
(** [render_template('share.html', poll=, poll_url=)] *)
| SharePage (poll : Poll.t) (poll_url : string).

(** Truth value of [request.cookies.get('browser_token')]. *)
Definition truthy (x : option string) : bool :=
  match x with
  | Some s => negb (Py.is_empty s)
  | None => false
  end.

(** The body of the [try] block of [view_poll]. *)
Definition view_poll_body (env : App.Env) (poll_code : string)
           (cookie : option string) : M Page :=
  poll <- PollService.get_poll_by_code (Py.upper poll_code) ;;
  match poll with
  | None => ret (NotFound poll_code)
  | Some poll =>
      voted <- (if truthy cookie then
                  existing_vote <- PollService.query_vote_by_token
                                     (Poll.id poll) (default "" cookie) ;;
                  match existing_vote with
                  | Some v => ret (true, Some (Vote.option_id v))
                  | None => ret (false, None)
                  end
                else ret (false, None)) ;;
      (* the code is passed on as it came, not in upper case *)
      results <- PollService.get_results poll_code ;;
      ret (PollPage poll results (fst voted) (snd voted)
                    (if truthy cookie then None
                     else Some (App.fresh_browser_token env)))
  end.

(** GET /poll/<poll_code> *)
Definition view_poll (env : App.Env) (st : App.State) (poll_code : string)
           (cookie : option string) : Page :=
  match fst (run (view_poll_body env poll_code cookie) (App.ledger st)
                 (App.backend_outage env) (App.poll_codes env)
                 (App.code_index st)) with
  | Ok page => page
  | Raise _ => NotFound poll_code
  end.

(** GET /poll/<poll_code>/share; [host_url] is [request.host_url]. *)
Definition share_poll (env : App.Env) (st : App.State) (poll_code host_url : string)
  : Page :=
  match fst (run (PollService.get_poll_by_code (Py.upper poll_code))
                 (App.ledger st) (App.backend_outage env) (App.poll_codes env)
                 (App.code_index st)) with
  | Ok (Some poll) =>
      SharePage poll (host_url +:+ "poll/" +:+ Poll.poll_code poll)
  | _ => NotFound poll_code
  end.

End WithRuntime.
End Views.

(** ** Reading the answers of the vote route *)

Module Routes.
Import Storage Session.
Local Open Scope string_scope.
Local Open Scope Z_scope.

Section WithRuntime.
Context {RT : Py.Runtime}.

(** The JSON error answer the vote route gives for an exception of the
    service. *)
Definition vote_error (e : exn) : App.VoteResponse :=
  match e with
  | PollNotFoundError _ =>
      App.mkVoteResponse (App.Json (App.error_body "Poll not found" [])) 404 None
  | ValidationError msg =>
      App.mkVoteResponse (App.Json (App.error_body msg [])) 400 None
  | DuplicateVoteError msg =>
      App.mkVoteResponse
        (App.Json (App.error_body msg [("already_voted", Py.JBool true)]))
        409 None
  | _ =>
      App.mkVoteResponse (App.Json (App.error_body "Failed to submit vote" []))
                         500 None
  end.

(** The identity under which the vote route records a vote. *)
Definition voter_ip (req : App.VoteRequest) : string :=
  App.or_default (App.vr_remote_addr req) "127.0.0.1".

Definition voter_token (env : App.Env) (req : App.VoteRequest) : string :=
  App.or_default (App.vr_cookie_browser_token req) (App.fresh_browser_token env).

End WithRuntime.
End Routes.

(** ** Reading the poll page *)

Module Pages.
Import Storage Session.
Local Open Scope string_scope.
Local Open Scope Z_scope.

Section WithRuntime.
Context {RT : Py.Runtime}.

(** The vote that the poll page finds for the cookie's token, if the
    cookie carries one. *)
Definition token_vote (db : DB) (pid : Z) (cookie : option string)
  : option Vote.t :=
  if Views.truthy cookie then
    List.find (fun v => (Vote.poll_id v =? pid)
                        && String.eqb (Vote.browser_token v) (default "" cookie))
              (votes db)
  else None.

(** What [view_poll] renders, from what the two lookups give. *)
Definition rendered (env : App.Env) (db : DB) (poll_code : string)
           (cookie : option string) : Views.Page :=
  match Ledger.find_poll db (Py.upper poll_code), Ledger.find_poll db poll_code with
  | Some p, Some p2 =>
      Views.PollPage p (Ledger.snapshot db poll_code p2)
                     (Py.is_some (token_vote db (Poll.id p) cookie))
                     (option_map Vote.option_id (token_vote db (Poll.id p) cookie))
                     (if Views.truthy cookie then None
                      else Some (App.fresh_browser_token env))
  | _, _ => Views.NotFound poll_code
  end.

End WithRuntime.
End Pages.

(** ** Reading the answers of the create route *)

Module CreateRoute.
Import Storage Session.
Local Open Scope string_scope.

(** The question and the options the create route reads off the form. *)
Definition question (req : App.CreateRequest) : string :=
  Py.strip (App.form_get (App.cr_form req) "question" "").

Definition options (req : App.CreateRequest) : list string :=
  App.form_options (App.cr_form req).

(** The answer of the route for what the service returned. *)
Definition answer (req : App.CreateRequest) (r : result Poll.t)
  : App.CreateResponse :=
  match r with
  | Ok poll => App.RedirectToShare (Poll.poll_code poll)
  | Raise (ValidationError msg) =>
      App.CreatePage msg (Some (question req, options req))
  | Raise _ => App.CreatePage "An error occurred. Please try again." None
  end.

End CreateRoute.

(** ** A browser session on the example ledger *)

Module Scenario.
Import Storage Session.
Local Open Scope string_scope.
Local Open Scope list_scope.

(** A request environment whose generator yields a code no poll has. *)
Definition env : App.Env :=
  App.mkEnv 100%Q 100%Q (fun _ => "ZZ99YY88") "token-new" None 1000.

(** A first vote for option 1, sent without a cookie and with the poll code
    in lower case. *)
Definition vote_request : App.VoteRequest :=
  App.mkVoteRequest (Some "10.0.0.7") None (App.OptionId 1).

Definition voted :=
  App.submit_vote (RT := Exact.runtime) env Example.state1 "ab12cd34"
                  vote_request.

(** The lunch poll, created while a free code is on offer. *)
Definition created :=
  App.create_poll App.default_config env Example.state1
                  Example.lunch_request.

(** What the service returned for the vote of identity X. *)
Definition vote_x_value : Py.value Q :=
  match fst Example.vote_x with
  | Ok d => d
  | Raise _ => Py.JNone
  end.

End Scenario.
(** * Properties *)

(** ** Rate limiter *)

Section RateLimiterFacts.
Import RateLimiter.

Lemma Qgtb_lt (a b : Q) : Qgtb a b = true <-> (b < a)%Q.
Proof.
  unfold Qgtb. rewrite negb_true_iff.
  destruct (Qle_bool a b) eqn:E.
  - apply Qle_bool_iff in E. split; [discriminate | intros H; lra].
  - split; [intros _ | reflexivity].
    apply Qnot_le_lt. intros H. apply Qle_bool_iff in H. congruence.
Qed.

Lemma Qgtb_false (a b : Q) : Qgtb a b = false <-> (a <= b)%Q.
Proof.
  unfold Qgtb. rewrite negb_false_iff. apply Qle_bool_iff.
Qed.

Lemma is_allowed_eq (rl : t) (now : Q) (ip : string) :
  is_allowed rl now ip =
    if Z.of_nat (length (pruned rl now ip)) >=? max_requests rl
    then (false, with_requests rl (<[ip := pruned rl now ip]> (_requests rl)))
    else (true, with_requests rl
                  (<[ip := pruned rl now ip ++ [now]]> (_requests rl))).
Proof.
  unfold is_allowed, pruned, history.
  destruct (_requests rl !! ip) as [reqs|] eqn:E; simpl.
  - rewrite E; simpl. rewrite insert_insert_eq. reflexivity.
  - rewrite lookup_insert_eq; simpl. rewrite !insert_insert_eq. reflexivity.
Qed.

Lemma history_after (rl : t) (ip : string) (l : list Q) :
  history (with_requests rl (<[ip := l]> (_requests rl))) ip = l.
Proof. unfold history; simpl. by rewrite lookup_insert_eq. Qed.

Lemma history_other (rl : t) (ip ip' : string) (l : list Q) :
  ip <> ip' ->
  history (with_requests rl (<[ip := l]> (_requests rl))) ip' = history rl ip'.
Proof. intros H. unfold history; simpl. by rewrite lookup_insert_ne. Qed.

Lemma in_pruned (rl : t) (now : Q) (ip : string) (x : Q) :
  In x (pruned rl now ip) <->
  In x (history rl ip) /\ (now - inject_Z (window_seconds rl) < x)%Q.
Proof. unfold pruned. rewrite filter_In, Qgtb_lt. reflexivity. Qed.

Lemma is_allowed_accept (rl : t) (now : Q) (ip : string) :
  Z.of_nat (length (pruned rl now ip)) < max_requests rl ->
  exists rl', is_allowed rl now ip = (true, rl')
              /\ history rl' ip = pruned rl now ip ++ [now]
              /\ max_requests rl' = max_requests rl
              /\ window_seconds rl' = window_seconds rl.
Proof.
  intros H. rewrite is_allowed_eq.
  destruct (Z.geb_spec (Z.of_nat (length (pruned rl now ip))) (max_requests rl));
    [lia |].
  eexists; split; [reflexivity |]. rewrite history_after. auto.
Qed.

Lemma is_allowed_reject (rl : t) (now : Q) (ip : string) :
  max_requests rl <= Z.of_nat (length (pruned rl now ip)) ->
  exists rl', is_allowed rl now ip = (false, rl')
              /\ history rl' ip = pruned rl now ip
              /\ max_requests rl' = max_requests rl
              /\ window_seconds rl' = window_seconds rl.
Proof.
  intros H. rewrite is_allowed_eq.
  destruct (Z.geb_spec (Z.of_nat (length (pruned rl now ip))) (max_requests rl));
    [| lia].
  eexists; split; [reflexivity |]. rewrite history_after. auto.
Qed.

(** Decides each comparison met while pruning an explicit history. *)
Ltac prune_history :=
  unfold pruned;
  repeat match goal with
    | H : history _ _ = _ |- _ => rewrite H
    | H : window_seconds _ = _ |- _ => rewrite H
    end;
  change (inject_Z 60) with 60%Q; simpl List.filter;
  repeat match goal with
    | |- context [Qgtb ?a ?b] =>
        let E := fresh "E" in
        destruct (Qgtb a b) eqn:E;
        [apply Qgtb_lt in E | apply Qgtb_false in E]; try lra
    end.

(** C4 (as amended). [is_allowed] first replaces the identity's history
    by the timestamps strictly later than [now - window_seconds] (a
    timestamp exactly at that bound is dropped with the older ones); if at
    least [max_requests] remain it answers [False] and records nothing,
    otherwise it appends [now] and answers [True]; other identities are not
    touched. With [max_requests = 3] and [window_seconds = 60], three calls
    inside one window are allowed, a fourth inside it is refused, and a
    call once the window of the first has passed is allowed again. *)
Theorem C4_is_allowed_sliding_window
        (rl : t) (now : Q) (ip : string) (t1 t2 t3 t4 t5 : Q)
        (H12 : (t1 <= t2)%Q) (H23 : (t2 <= t3)%Q) (H34 : (t3 <= t4)%Q)
        (Hin : (t4 < t1 + 60)%Q) (Hout : (t1 + 60 <= t5)%Q) :
  (forall x, In x (pruned rl now ip) <->
             In x (history rl ip) /\ (now - inject_Z (window_seconds rl) < x)%Q)
  /\ (max_requests rl <= Z.of_nat (length (pruned rl now ip)) ->
      fst (is_allowed rl now ip) = false
      /\ history (snd (is_allowed rl now ip)) ip = pruned rl now ip)
  /\ (Z.of_nat (length (pruned rl now ip)) < max_requests rl ->
      fst (is_allowed rl now ip) = true
      /\ history (snd (is_allowed rl now ip)) ip = pruned rl now ip ++ [now])
  /\ (forall ip', ip <> ip' ->
                  history (snd (is_allowed rl now ip)) ip' = history rl ip')
  /\ fst (calls (init 3 60) ip [t1; t2; t3; t4; t5])
     = [true; true; true; false; true].
Proof.
  split; [intros x; apply in_pruned |].
  split; [intros H; destruct (is_allowed_reject rl now ip H) as (rl' & -> & ? & _);
          auto |].
  split; [intros H; destruct (is_allowed_accept rl now ip H) as (rl' & -> & ? & _);
          auto |].
  split.
  { intros ip' Hne. rewrite is_allowed_eq.
    destruct (_ >=? _); simpl; by apply history_other. }
  assert (H0 : history (init 3 60) ip = []) by reflexivity.
  assert (W0 : window_seconds (init 3 60) = 60) by reflexivity.
  assert (M0 : max_requests (init 3 60) = 3) by reflexivity.
  unfold calls.
  destruct (is_allowed_accept (init 3 60) t1 ip) as (rl1 & -> & H1 & M1 & W1).
  { prune_history. simpl. lia. }
  rewrite M0 in M1. rewrite W0 in W1.
  assert (P1 : pruned (init 3 60) t1 ip = []) by (unfold pruned; by rewrite H0).
  rewrite P1 in H1. simpl in H1. clear H0 W0 M0 P1.
  destruct (is_allowed_accept rl1 t2 ip) as (rl2 & -> & H2 & M2 & W2).
  { prune_history. rewrite M1. simpl. lia. }
  assert (P2 : pruned rl1 t2 ip = [t1]) by (prune_history; reflexivity).
  rewrite P2 in H2. simpl in H2. rewrite M1 in M2. rewrite W1 in W2.
  clear H1 M1 W1 P2.
  destruct (is_allowed_accept rl2 t3 ip) as (rl3 & -> & H3 & M3 & W3).
  { prune_history. rewrite M2. simpl. lia. }
  assert (P3 : pruned rl2 t3 ip = [t1; t2]) by (prune_history; reflexivity).
  rewrite P3 in H3. simpl in H3. rewrite M2 in M3. rewrite W2 in W3.
  clear H2 M2 W2 P3.
  destruct (is_allowed_reject rl3 t4 ip) as (rl4 & -> & H4 & M4 & W4).
  { prune_history. rewrite M3. simpl. lia. }
  assert (P4 : pruned rl3 t4 ip = [t1; t2; t3]) by (prune_history; reflexivity).
  rewrite P4 in H4. rewrite M3 in M4. rewrite W3 in W4.
  clear H3 M3 W3 P4.
  destruct (is_allowed_accept rl4 t5 ip) as (rl5 & -> & _).
  { rewrite M4. prune_history; simpl; lia. }
  reflexivity.
Qed.

Lemma C4_is_allowed_sliding_window_witness :
  fst (calls (init 3 60) "10.0.0.1" [0; 10; 20; 30; 61]%Q)
  = [true; true; true; false; true].
Proof.
  apply (C4_is_allowed_sliding_window (init 3 60) 0%Q "10.0.0.1"
                                      0%Q 10%Q 20%Q 30%Q 61%Q);
    unfold Qle, Qlt; simpl; lia.
Defined.

(** C4 (as stated) fails at the window bound. A timestamp recorded at 0 is
    not older than [60 - 60], yet, asked at time 60, [is_allowed] drops it
    and allows the call; the rule as specified keeps it and refuses. *)
Lemma C4_boundary_counterexample :
  fst (is_allowed one_call_at_0 60%Q "10.0.0.1") = true
  /\ fst (rule_as_specified one_call_at_0 60%Q "10.0.0.1") = false
  /\ is_allowed one_call_at_0 60%Q "10.0.0.1"
     <> rule_as_specified one_call_at_0 60%Q "10.0.0.1".
Proof.
  assert (A : fst (is_allowed one_call_at_0 60%Q "10.0.0.1") = true)
    by (vm_compute; reflexivity).
  assert (B : fst (rule_as_specified one_call_at_0 60%Q "10.0.0.1") = false)
    by (vm_compute; reflexivity).
  split; [exact A |]. split; [exact B |].
  intros E. rewrite E in A. congruence.
Qed.

End RateLimiterFacts.

(** ** Storage and session *)

Section StorageFacts.
Import Storage Session.

Lemma find_none_existsb {A} (f : A -> bool) (l : list A) :
  List.find f l = None <-> existsb f l = false.
Proof.
  induction l as [|x l IH]; simpl; [tauto |].
  destruct (f x); simpl; [split; discriminate | exact IH].
Qed.

Lemma find_some_existsb {A} (f : A -> bool) (l : list A) (x : A) :
  List.find f l = Some x -> existsb f l = true.
Proof.
  intros H. destruct (existsb f l) eqn:E; [reflexivity |].
  apply find_none_existsb in E. congruence.
Qed.

Lemma is_some_find {A} (f : A -> bool) (l : list A) :
  Py.is_some (List.find f l) = existsb f l.
Proof.
  destruct (List.find f l) eqn:E; simpl.
  - symmetry. eapply find_some_existsb; eauto.
  - symmetry. by apply find_none_existsb.
Qed.

Lemma has_poll_id_increment (db : DB) (oid pid : Z) :
  has_poll_id (increment_vote_count db oid) pid = has_poll_id db pid.
Proof. reflexivity. Qed.

Lemma map_id_increment (db : DB) (oid : Z) :
  map Option.id (options (increment_vote_count db oid)) = map Option.id (options db).
Proof.
  simpl. rewrite map_map. apply map_ext. intros o.
  destruct (Option.id o =? oid); reflexivity.
Qed.

Lemma has_option_id_increment (db : DB) (oid oid' : Z) :
  has_option_id (increment_vote_count db oid) oid' = has_option_id db oid'.
Proof.
  unfold has_option_id; simpl. induction (options db) as [|o l IH]; simpl; [done |].
  rewrite IH. f_equal. destruct (Option.id o =? oid); reflexivity.
Qed.

Lemma fold_max_ge (ids : list Z) : 0 <= fold_right Z.max 0 ids.
Proof. induction ids; simpl; lia. Qed.

Lemma next_id_gt (ids : list Z) (x : Z) : In x ids -> x < next_id ids.
Proof.
  unfold next_id. induction ids as [|y ids IH]; simpl; [tauto |].
  intros [-> | H]; [lia |]. specialize (IH H). lia.
Qed.

Lemma next_id_pos (ids : list Z) : 0 < next_id ids.
Proof. unfold next_id. pose proof (fold_max_ge ids). lia. Qed.

Lemma fold_max_snoc (ids : list Z) (x : Z) :
  0 <= x -> fold_right Z.max 0 (ids ++ [x]) = Z.max (fold_right Z.max 0 ids) x.
Proof. intros Hx. induction ids as [|y ids IH]; simpl; [lia |]. rewrite IH. lia. Qed.

Lemma next_id_snoc (ids : list Z) : next_id (ids ++ [next_id ids]) = next_id ids + 1.
Proof.
  unfold next_id. pose proof (fold_max_ge ids).
  rewrite fold_max_snoc; lia.
Qed.

Lemma find_poll_has_id (db : DB) (code : string) (p : Poll.t) :
  Ledger.find_poll db code = Some p ->
  has_poll_id db (Poll.id p) = true /\ In p (polls db) /\ Poll.poll_code p = code.
Proof.
  unfold Ledger.find_poll. intros H. apply find_some in H as [Hin Heq].
  apply String.eqb_eq in Heq. repeat split; auto.
  unfold has_poll_id. apply existsb_exists. exists p. split; [done | apply Z.eqb_refl].
Qed.

Lemma option_of_poll_has_id (db : DB) (oid pid : Z) :
  Ledger.option_of_poll db oid pid = true -> has_option_id db oid = true.
Proof.
  unfold Ledger.option_of_poll, has_option_id. rewrite !existsb_exists.
  intros (o & Hin & Ho). apply andb_true_iff in Ho as [Ho _]. eauto.
Qed.

Lemma insert_vote_ok (db : DB) (pid oid : Z) (ip tok : string) (now : Q) :
  has_poll_id db pid = true -> has_option_id db oid = true ->
  uq_vote_poll_ip db pid ip = true -> uq_vote_poll_token db pid tok = true ->
  insert_vote (increment_vote_count db oid) pid oid ip tok now
  = Some (next_id (map Vote.id (votes db)),
          Ledger.vote_applied db pid oid ip tok now).
Proof.
  intros Hp Ho Hi Ht. unfold insert_vote.
  rewrite has_poll_id_increment, has_option_id_increment, Hp, Ho.
  unfold uq_vote_poll_ip, uq_vote_poll_token in *. simpl votes.
  rewrite Hi, Ht. reflexivity.
Qed.

Lemma insert_options_eq (texts : list string) (db : DB) (pid : Z) :
  has_poll_id db pid = true ->
  insert_options db pid (map (fun opt_text => (opt_text, 0)) texts)
  = Some (mkDB (polls db)
               (options db
                ++ Ledger.number_options (next_id (map Option.id (options db)))
                                         pid texts)
               (votes db)).
Proof.
  revert db. induction texts as [|text rest IH]; intros db Hp; simpl.
  - rewrite app_nil_r. by destruct db.
  - unfold insert_option. rewrite Hp. rewrite IH by exact Hp. simpl.
    rewrite map_app; simpl. rewrite next_id_snoc.
    rewrite <- app_assoc. reflexivity.
Qed.

Lemma has_poll_id_next (db : DB) :
  has_poll_id db (next_id (map Poll.id (polls db))) = false.
Proof.
  unfold has_poll_id. apply not_true_is_false. rewrite existsb_exists.
  intros (p & Hin & He). apply Z.eqb_eq in He.
  pose proof (next_id_gt (map Poll.id (polls db)) (Poll.id p) (in_map _ _ _ Hin)).
  lia.
Qed.

Lemma has_option_id_next (db : DB) :
  has_option_id db (next_id (map Option.id (options db))) = false.
Proof.
  unfold has_option_id. apply not_true_is_false. rewrite existsb_exists.
  intros (o & Hin & He). apply Z.eqb_eq in He.
  pose proof (next_id_gt (map Option.id (options db)) (Option.id o)
                         (in_map _ _ _ Hin)).
  lia.
Qed.

Lemma find_snoc_fresh {A} (f : A -> bool) (l : list A) (x : A) :
  existsb f l = false -> f x = true -> List.find f (l ++ [x]) = Some x.
Proof.
  intros Hl Hx. induction l as [|y l IH]; simpl in *; [by rewrite Hx |].
  apply orb_false_iff in Hl as [-> Hl]. auto.
Qed.

Lemma flush_new_poll (db : DB) (question code : string) (texts : list string)
      (now : Q) :
  has_poll_code db code = false ->
  match insert_poll db question code now with
  | Some (pid, db1) =>
      match insert_options db1 pid (map (fun opt_text => (opt_text, 0)) texts) with
      | Some db2 => Some (pid, db2)
      | None => None
      end
  | None => None
  end
  = Some (next_id (map Poll.id (polls db)),
          Ledger.poll_created db question code texts now).
Proof.
  intros H. unfold insert_poll. rewrite H.
  rewrite insert_options_eq; [reflexivity |].
  unfold has_poll_id; simpl. rewrite existsb_app; simpl.
  rewrite Z.eqb_refl. by rewrite orb_true_r.
Qed.

Lemma refresh_new_poll (db : DB) (question code : string) (texts : list string)
      (now : Q) :
  List.find (fun p => Poll.id p =? next_id (map Poll.id (polls db)))
            (polls (Ledger.poll_created db question code texts now))
  = Some (Ledger.new_poll db question code now).
Proof.
  simpl. apply find_snoc_fresh; [apply has_poll_id_next | apply Z.eqb_refl].
Qed.

Lemma pick_code_fresh (db : DB) (codes : nat -> string) (n k k' : nat)
      (code : string) :
  Ledger.pick_code db codes k n = (Ok code, k') -> has_poll_code db code = false.
Proof.
  revert k. induction n as [|n IH]; intros k; simpl; [discriminate |].
  destruct (has_poll_code db (codes k)) eqn:E; [apply IH |].
  intros [= <- _]. exact E.
Qed.

End StorageFacts.

(** ** What one call does to the ledger *)

Section ServiceFacts.
Import Storage Session Ledger.
Context {RT : Py.Runtime}.

Lemma submit_vote_world now code oid ip tok db outage codes k :
  let r := PollService.submit_vote now code oid ip tok (open db outage codes k) in
  (classify (fst r), snd r)
  = (fst (vote_effect db now code oid ip tok outage),
     open (snd (vote_effect db now code oid ip tok outage)) outage codes k).
Proof.
  unfold vote_effect, find_poll, open, PollService.submit_vote,
    PollService.get_poll_by_code, PollService.query_vote_by_ip,
    PollService.query_vote_by_token, query_bound, bind; simpl.
  unfold reads at 1; simpl.
  destruct (List.find _ (polls db)) as [p|] eqn:Ep; simpl; [| reflexivity].
  destruct (fits_integer oid); simpl; [| reflexivity].
  unfold reads; simpl.
  unfold option_of_poll, uq_vote_poll_ip, uq_vote_poll_token.
  rewrite !negb_involutive.
  destruct (List.find _ (options db)) as [o|] eqn:Eo; simpl.
  2: { apply find_none_existsb in Eo. rewrite Eo. reflexivity. }
  rewrite (find_some_existsb _ _ _ Eo); simpl.
  destruct (List.find _ (votes db)) as [v|] eqn:Ei; simpl.
  { rewrite (find_some_existsb _ _ _ Ei). reflexivity. }
  apply find_none_existsb in Ei. rewrite Ei; simpl.
  destruct (List.find _ (votes db)) as [v|] eqn:Et; simpl.
  { rewrite (find_some_existsb _ _ _ Et). reflexivity. }
  apply find_none_existsb in Et. rewrite Et; simpl.
  unfold PollService.submit_vote_write, try_except, bind, execute_increment, add,
    commit, rollback, raise, set_txn; simpl.
  destruct (find_poll_has_id db code p Ep) as (Hp & Hin & _).
  assert (Ho : has_option_id db oid = true).
  { apply (option_of_poll_has_id db oid (Poll.id p)).
    eapply find_some_existsb; eauto. }
  assert (Hins := insert_vote_ok db (Poll.id p) oid ip tok now Hp Ho).
  unfold uq_vote_poll_ip, uq_vote_poll_token in Hins.
  rewrite Ei, Et in Hins. specialize (Hins eq_refl eq_refl).
  destruct outage as [[| |]|]; simpl; try reflexivity.
  - rewrite Hins; simpl. unfold refresh; simpl. reflexivity.
  - rewrite Hins; simpl. unfold refresh; simpl.
    destruct (List.find (fun p0 => Poll.id p0 =? Poll.id p) (polls db))
      as [p'|] eqn:Ef; simpl; [reflexivity |].
    apply find_none_existsb in Ef. unfold has_poll_id in Hp. congruence.
Qed.

Lemma submit_vote_run now code oid ip tok db outage codes k :
  let r := run (PollService.submit_vote now code oid ip tok) db outage codes k in
  (classify (fst r), snd r) = vote_effect db now code oid ip tok outage.
Proof.
  pose proof (submit_vote_world now code oid ip tok db outage codes k) as E.
  simpl in *. unfold run.
  destruct (PollService.submit_vote _ _ _ _ _ _) as [r w]. simpl in *.
  destruct (vote_effect _ _ _ _ _ _ _) as [out db']. simpl in *.
  by inversion E.
Qed.

Lemma clean_options_pure (mo : Z) (opts : list string) (w : World) :
  PollService.clean_options mo opts w = (cleaned mo opts, w).
Proof.
  induction opts as [|opt rest IH]; simpl; [reflexivity |].
  destruct (Py.is_empty (Py.strip opt)); [reflexivity |].
  destruct (Py.len (Py.strip opt) >? mo); [reflexivity |].
  unfold bind. rewrite IH. destruct (cleaned mo rest); reflexivity.
Qed.

Lemma generate_attempts_pure (n : nat) (w : World) :
  PollService.generate_attempts n w
  = (fst (pick_code (txn w) (codes w) (next_code w) n),
     mkWorld (committed w) (txn w) (new_objects w) (outage w) (codes w)
             (snd (pick_code (txn w) (codes w) (next_code w) n))).
Proof.
  revert w. induction n as [|n IH]; intros w; simpl.
  - unfold raise. by destruct w.
  - unfold bind, generate_poll_code, PollService.get_poll_by_code, reads; simpl.
    unfold has_poll_code.
    destruct (List.find _ (polls (txn w))) as [p|] eqn:E.
    + rewrite (find_some_existsb _ _ _ E). rewrite IH. reflexivity.
    + apply find_none_existsb in E. rewrite E. reflexivity.
Qed.

Lemma create_poll_world d now question opts mn mx mq mo db outage codes k :
  PollService.create_poll (S d) now question opts mn mx mq mo
                          (open db outage codes k)
  = let '(r, db', k') :=
      create_effect db now question opts mn mx mq mo outage codes k in
    (r, open db' outage codes k').
Proof.
  unfold create_effect. simpl PollService.create_poll.
  destruct (Py.is_empty question || Py.is_empty (Py.strip question));
    [reflexivity |].
  destruct (Py.len (Py.strip question) >? mq); [reflexivity |].
  destruct (bool_decide (opts = []) || (Z.of_nat (length opts) <? mn));
    [reflexivity |].
  destruct (Z.of_nat (length opts) >? mx); [reflexivity |].
  unfold bind at 1. rewrite clean_options_pure.
  destruct (cleaned mo opts) as [texts|e]; [| reflexivity].
  destruct (negb (length texts =? length (remove_dups texts))%nat); [reflexivity |].
  unfold bind at 1. unfold PollService._generate_unique_poll_code.
  rewrite generate_attempts_pure.
  unfold open; cbn [txn Session.codes next_code committed new_objects Session.outage fst snd].
  destruct (pick_code db codes k PollService.max_attempts) as [[code|e] k'] eqn:Ek;
    cbn [fst snd]; [| reflexivity].
  apply pick_code_fresh in Ek.
  unfold try_except, bind, add, commit, set_txn; simpl.
  destruct outage as [[| |]|]; simpl; try reflexivity;
    rewrite (flush_new_poll db (Py.strip question) code texts now Ek);
    unfold refresh; cbn [hd txn Session.outage]; rewrite ?refresh_new_poll;
    reflexivity.
Qed.

Lemma create_poll_run d now question opts mn mx mq mo db outage codes k :
  run (PollService.create_poll (S d) now question opts mn mx mq mo)
      db outage codes k
  = let '(r, db', _) :=
      create_effect db now question opts mn mx mq mo outage codes k in
    (r, db').
Proof.
  unfold run. rewrite create_poll_world.
  destruct (create_effect _ _ _ _ _ _ _ _ _ _ _) as [[r db'] k']. reflexivity.
Qed.

End ServiceFacts.

(** ** Ledger invariants *)

Section InvariantFacts.
Import Storage Session Ledger.

Lemma ascending_snoc (l : list Z) (x : Z) :
  ascending l -> Forall (fun a => a < x) l -> ascending (l ++ [x]).
Proof.
  induction l as [|a l IH]; simpl; [auto |].
  intros [Ha Hl] Hx. apply Forall_cons_iff in Hx as [Hax Hx]. split; [| auto].
  apply Forall_app. split; [exact Ha | by constructor].
Qed.

Lemma Forall_lt_next_id (ids : list Z) : Forall (fun a => a < next_id ids) ids.
Proof. apply List.Forall_forall. intros a Ha. by apply next_id_gt. Qed.

Lemma ascending_number_options (texts : list string) (ids : list Z)
      (first pid : Z) :
  ascending ids -> Forall (fun a => a < first) ids ->
  ascending (ids ++ map Option.id (number_options first pid texts)).
Proof.
  revert ids first. induction texts as [|t rest IH]; intros ids first Hasc Hlt; simpl.
  - by rewrite app_nil_r.
  - change (ids ++ first :: ?l) with (ids ++ [first] ++ l). rewrite app_assoc.
    apply IH; [by apply ascending_snoc |].
    apply Forall_app. split; [| constructor; [lia | constructor]].
    eapply Forall_impl; [exact Hlt |]. simpl. intros; lia.
Qed.

Lemma ascending_NoDup (l : list Z) : ascending l -> NoDup l.
Proof.
  induction l as [|a l IH]; simpl; [constructor |].
  intros [Ha Hl]. constructor; [| auto].
  intros Hin. rewrite List.Forall_forall in Ha.
  apply list_elem_of_In in Hin. specialize (Ha a Hin). lia.
Qed.

Lemma ascending_filter (f : Option.t -> bool) (l : list Option.t) :
  ascending (map Option.id l) -> ascending (map Option.id (List.filter f l)).
Proof.
  induction l as [|o l IH]; simpl; [auto |].
  intros [Ho Hl]. destruct (f o); simpl; [| auto]. split; [| auto].
  rewrite List.Forall_forall in *. intros x Hx. apply Ho.
  apply in_map_iff in Hx as (y & <- & Hy). apply in_map.
  by apply filter_In in Hy as [Hy _].
Qed.

Lemma order_by_id_ascending (l : list Option.t) :
  ascending (map Option.id l) -> order_by_id l = l.
Proof.
  induction l as [|o l IH]; simpl; [auto |].
  intros [Ho Hl]. unfold order_by_id in *. simpl. rewrite (IH Hl).
  destruct l as [|x l']; simpl; [reflexivity |].
  apply Forall_cons_iff in Ho as [Hox _]. simpl in Hox.
  destruct (Z.leb_spec (Option.id o) (Option.id x)); [reflexivity | lia].
Qed.

Lemma sum_fold_right (l : list Z) : Py.sum l = fold_right Z.add 0 l.
Proof.
  unfold Py.sum.
  assert (G : forall acc, fold_left Z.add l acc = acc + fold_right Z.add 0 l).
  { induction l as [|a l IH]; intros acc; simpl; [lia |]. rewrite IH. lia. }
  rewrite G. lia.
Qed.

Lemma counts_insert_by_id (o : Option.t) (l : list Option.t) :
  counts (insert_by_id o l) = Option.vote_count o + counts l.
Proof.
  unfold counts. induction l as [|x l IH]; simpl; [reflexivity |].
  destruct (Option.id o <=? Option.id x); simpl; [reflexivity |].
  rewrite IH. lia.
Qed.

Lemma counts_order_by_id (l : list Option.t) : counts (order_by_id l) = counts l.
Proof.
  induction l as [|x l IH]; [reflexivity |].
  change (order_by_id (x :: l)) with (insert_by_id x (order_by_id l)).
  rewrite counts_insert_by_id, IH. reflexivity.
Qed.

Lemma total_votes_eq (db : DB) (pid : Z) :
  total_votes db pid
  = counts (List.filter (fun o => Option.poll_id o =? pid) (options db)).
Proof.
  unfold total_votes, poll_options. rewrite sum_fold_right.
  apply counts_order_by_id.
Qed.

Lemma counts_app (l1 l2 : list Option.t) : counts (l1 ++ l2) = counts l1 + counts l2.
Proof.
  unfold counts. induction l1 as [|x l IH]; simpl; [reflexivity |].
  rewrite IH. lia.
Qed.

Lemma counts_increment (oid : Z) (l : list Option.t) :
  counts (options (increment_vote_count (mkDB [] l []) oid))
  = counts l + Z.of_nat (length (List.filter (fun o => Option.id o =? oid) l)).
Proof.
  unfold counts; simpl. induction l as [|o l IH]; simpl; [reflexivity |].
  rewrite IH. destruct (Option.id o =? oid); simpl; lia.
Qed.

Lemma filter_increment (db : DB) (oid pid : Z) :
  List.filter (fun o => Option.poll_id o =? pid)
              (options (increment_vote_count db oid))
  = options (increment_vote_count
               (mkDB [] (List.filter (fun o => Option.poll_id o =? pid) (options db)) [])
               oid).
Proof.
  simpl. induction (options db) as [|o l IH]; simpl; [reflexivity |].
  destruct (Option.id o =? oid) eqn:E1; simpl;
    destruct (Option.poll_id o =? pid) eqn:E2; simpl;
    rewrite ?E1, ?E2, ?IH; reflexivity.
Qed.

Lemma filter_comm {A} (f g : A -> bool) (l : list A) :
  List.filter f (List.filter g l) = List.filter g (List.filter f l).
Proof.
  induction l as [|x l IH]; simpl; [reflexivity |].
  destruct (g x) eqn:Eg, (f x) eqn:Ef; simpl; rewrite ?Eg, ?Ef, IH; reflexivity.
Qed.

Lemma filter_none {A} (f : A -> bool) (l : list A) :
  (forall x, In x l -> f x = false) -> List.filter f l = [].
Proof.
  induction l as [|y l IH]; simpl; [reflexivity |].
  intros H. rewrite (H y) by auto. auto.
Qed.

Lemma filter_all {A} (f : A -> bool) (l : list A) :
  (forall x, In x l -> f x = true) -> List.filter f l = l.
Proof.
  induction l as [|y l IH]; simpl; [reflexivity |].
  intros H. rewrite (H y) by auto. f_equal. auto.
Qed.

Lemma filter_id_unique (l : list Option.t) (o : Option.t) :
  ascending (map Option.id l) -> In o l ->
  List.filter (fun x => Option.id x =? Option.id o) l = [o].
Proof.
  induction l as [|a l IH]; simpl; [tauto |].
  intros [Ha Hl] [-> | Hin].
  - rewrite Z.eqb_refl. f_equal. apply filter_none.
    rewrite List.Forall_forall in Ha. intros x Hx.
    specialize (Ha (Option.id x) (in_map _ _ _ Hx)). apply Z.eqb_neq. lia.
  - rewrite List.Forall_forall in Ha.
    specialize (Ha (Option.id o) (in_map _ _ _ Hin)).
    destruct (Z.eqb_spec (Option.id a) (Option.id o)); [lia | auto].
Qed.

Lemma option_of_poll_In (db : DB) (oid pid : Z) :
  option_of_poll db oid pid = true ->
  exists o, In o (options db) /\ Option.id o = oid /\ Option.poll_id o = pid.
Proof.
  unfold option_of_poll. rewrite existsb_exists. intros (o & Hin & H).
  apply andb_true_iff in H as [H1 H2]. apply Z.eqb_eq in H1, H2. eauto.
Qed.

Lemma uq_check_not_in {B} (g : Vote.t -> B) (eqb : B -> B -> bool)
      (Heqb : forall a b, eqb a b = true <-> a = b)
      (vs : list Vote.t) (pid : Z) (x : B) :
  existsb (fun v => (Vote.poll_id v =? pid) && eqb (g v) x) vs = false ->
  ~ In (pid, x) (map (fun v => (Vote.poll_id v, g v)) vs).
Proof.
  intros H Hin. apply in_map_iff in Hin as (v & [= Hp Hx] & Hv).
  apply not_true_iff_false in H. apply H. apply existsb_exists.
  exists v. split; [done |]. apply andb_true_iff. split.
  - by apply Z.eqb_eq.
  - by apply Heqb.
Qed.

Lemma NoDup_snoc {A} (l : list A) (x : A) : NoDup l -> ~ In x l -> NoDup (l ++ [x]).
Proof.
  intros Hl Hx. apply NoDup_app. split; [done |]. split.
  - intros y Hy Hy'. apply list_elem_of_singleton in Hy'. subst.
    by apply list_elem_of_In in Hy.
  - apply NoDup_singleton.
Qed.

Lemma tally_vote_applied (db : DB) (pid oid : Z) (ip tok : string) (now : Q)
      (pid' : Z) :
  ascending (map Option.id (options db)) ->
  option_of_poll db oid pid = true ->
  tally db pid' -> tally (vote_applied db pid oid ip tok now) pid'.
Proof.
  intros Hasc Ho Ht. unfold tally in *. rewrite total_votes_eq in *.
  unfold vote_applied. cbn [options].
  rewrite filter_increment, counts_increment, Ht.
  unfold poll_votes; cbn [votes]. rewrite List.filter_app, length_app. simpl.
  destruct (option_of_poll_In _ _ _ Ho) as (o & Hin & <- & <-).
  rewrite filter_comm, (filter_id_unique _ o Hasc Hin). simpl.
  destruct (Option.poll_id o =? pid'); simpl; lia.
Qed.

Lemma wf_vote_applied (db : DB) (code : string) (p : Poll.t) (oid : Z)
      (ip tok : string) (now : Q) :
  wf db -> find_poll db code = Some p ->
  option_of_poll db oid (Poll.id p) = true ->
  uq_vote_poll_ip db (Poll.id p) ip = true ->
  uq_vote_poll_token db (Poll.id p) tok = true ->
  wf (vote_applied db (Poll.id p) oid ip tok now).
Proof.
  intros [] Hp Ho Hi Ht.
  destruct (find_poll_has_id db code p Hp) as (Hid & _ & _).
  constructor; cbn [vote_applied polls votes options]; try assumption.
  - by rewrite map_id_increment.
  - simpl. apply Forall_map. eapply Forall_impl; [exact wf_option_fk0 |].
    intros o. unfold has_poll_id; simpl. by destruct (Option.id o =? oid).
  - apply Forall_app. split; [exact wf_vote_fk0 |]. by constructor.
  - unfold uq_ip. cbn [votes vote_applied]. rewrite map_app. apply NoDup_snoc; [done |].
    apply (uq_check_not_in Vote.ip_address String.eqb String.eqb_eq).
    unfold uq_vote_poll_ip in Hi. by apply negb_true_iff in Hi.
  - unfold uq_token. cbn [votes vote_applied]. rewrite map_app.
    apply NoDup_snoc; [done |].
    apply (uq_check_not_in Vote.browser_token String.eqb String.eqb_eq).
    unfold uq_vote_poll_token in Ht. by apply negb_true_iff in Ht.
  - intros pid'. by apply tally_vote_applied.
Qed.

Lemma has_poll_id_created (db : DB) (question code : string)
      (texts : list string) (now : Q) (pid : Z) :
  has_poll_id (poll_created db question code texts now) pid
  = has_poll_id db pid || (next_id (map Poll.id (polls db)) =? pid).
Proof.
  unfold has_poll_id; simpl. rewrite existsb_app; simpl. by rewrite orb_false_r.
Qed.

Lemma number_options_poll_id (texts : list string) (first pid : Z) (o : Option.t) :
  In o (number_options first pid texts) ->
  Option.poll_id o = pid /\ Option.vote_count o = 0.
Proof.
  revert first. induction texts as [|t rest IH]; intros first; simpl; [tauto |].
  intros [<- | H]; [auto | eauto].
Qed.

Lemma counts_zero (l : list Option.t) :
  (forall o, In o l -> Option.vote_count o = 0) -> counts l = 0.
Proof.
  unfold counts. induction l as [|o l IH]; simpl; [reflexivity |].
  intros H. rewrite (H o) by auto. rewrite IH; auto.
Qed.

Lemma tally_poll_created (db : DB) (question code : string)
      (texts : list string) (now : Q) (pid : Z) :
  tally db pid -> tally (poll_created db question code texts now) pid.
Proof.
  unfold tally. rewrite !total_votes_eq. intros H.
  unfold poll_created, poll_votes; cbn [options votes].
  rewrite List.filter_app, counts_app, H.
  rewrite (counts_zero (List.filter _ (number_options _ _ _))); [unfold poll_votes; lia |].
  intros o Ho. apply filter_In in Ho as [Ho _].
  by apply number_options_poll_id in Ho as [_ ?].
Qed.

Lemma wf_poll_created (db : DB) (question code : string)
      (texts : list string) (now : Q) :
  wf db -> has_poll_code db code = false ->
  wf (poll_created db question code texts now).
Proof.
  intros [] Hc. constructor; try assumption.
  - cbn [poll_created polls]. rewrite map_app. simpl.
    apply ascending_snoc; [done | apply Forall_lt_next_id].
  - cbn [poll_created polls]. rewrite map_app. simpl. apply NoDup_snoc; [done |].
    intros Hin. apply in_map_iff in Hin as (p & Hp & Hin).
    apply not_true_iff_false in Hc. apply Hc. unfold has_poll_code.
    apply existsb_exists. exists p. split; [done | by apply String.eqb_eq].
  - cbn [poll_created options]. rewrite map_app.
    apply ascending_number_options; [done | apply Forall_lt_next_id].
  - cbn [poll_created options]. apply Forall_app. split.
    + eapply Forall_impl; [exact wf_option_fk0 |]. intros o Ho. simpl in Ho.
      rewrite has_poll_id_created, Ho. reflexivity.
    + apply List.Forall_forall. intros o Ho.
      apply number_options_poll_id in Ho as [-> _].
      rewrite has_poll_id_created, Z.eqb_refl. apply orb_true_r.
  - cbn [poll_created votes].
    eapply Forall_impl; [exact wf_vote_fk0 |]. intros v Hv. simpl in Hv.
    rewrite has_poll_id_created, Hv. reflexivity.
  - intros pid. by apply tally_poll_created.
Qed.

Lemma wf_empty : wf empty.
Proof.
  constructor; simpl; try constructor.
Qed.

(** The ledger after a vote request is the old one or the old one with
    the vote applied; the vote is applied when the call succeeds, and also
    when the backend fails after the commit. *)
Lemma vote_effect_cases db now code oid ip tok outage out db' :
  vote_effect db now code oid ip tok outage = (out, db') ->
  (exists e, out = Failed e /\ db' = db)
  \/ (exists p, ((out = Accepted /\ outage = None)
                 \/ (out = Failed (PollServiceError "Failed to submit vote")
                     /\ outage = Some AfterCommit))
                /\ fits_integer oid = true
                /\ find_poll db code = Some p
                /\ option_of_poll db oid (Poll.id p) = true
                /\ uq_vote_poll_ip db (Poll.id p) ip = true
                /\ uq_vote_poll_token db (Poll.id p) tok = true
                /\ db' = vote_applied db (Poll.id p) oid ip tok now).
Proof.
  unfold vote_effect.
  destruct (find_poll db code) as [p|] eqn:Ep; [| intros [= <- <-]; eauto].
  destruct (fits_integer oid) eqn:Ef; simpl; [| intros [= <- <-]; eauto].
  destruct (option_of_poll db oid (Poll.id p)) eqn:Eo; simpl;
    [| intros [= <- <-]; eauto].
  destruct (uq_vote_poll_ip db (Poll.id p) ip) eqn:Ei; simpl;
    [| intros [= <- <-]; eauto].
  destruct (uq_vote_poll_token db (Poll.id p) tok) eqn:Et; simpl;
    [| intros [= <- <-]; eauto].
  destruct outage as [[| |]|]; intros [= <- <-]; eauto 12.
Qed.

(** The ledger after a creation request is the old one or the old one
    with the new poll stored under a code that was free; the poll is stored
    when the call returns it, and also when the backend fails after the
    commit. *)
Lemma create_effect_cases db now question opts mn mx mq mo outage codes k r db' k' :
  create_effect db now question opts mn mx mq mo outage codes k = (r, db', k') ->
  (exists e, r = Raise e /\ db' = db)
  \/ (exists code texts,
        (r = Ok (new_poll db (Py.strip question) code now)
         \/ (r = Raise OperationalError /\ outage = Some AfterCommit))
        /\ cleaned mo opts = Ok texts
        /\ has_poll_code db code = false
        /\ db' = poll_created db (Py.strip question) code texts now).
Proof.
  unfold create_effect.
  destruct (_ || _); [intros [= <- <- <-]; eauto |].
  destruct (_ >? mq); [intros [= <- <- <-]; eauto |].
  destruct (_ || _); [intros [= <- <- <-]; eauto |].
  destruct (_ >? mx); [intros [= <- <- <-]; eauto |].
  destruct (cleaned mo opts) as [texts|e]; [| intros [= <- <- <-]; eauto].
  destruct (negb _); [intros [= <- <- <-]; eauto |].
  destruct (pick_code _ _ _ _) as [[code|e] k''] eqn:Ek;
    [| intros [= <- <- <-]; eauto].
  apply pick_code_fresh in Ek.
  destruct outage as [[| |]|]; intros [= <- <- <-]; eauto 10.
Qed.

End InvariantFacts.

Section ReachableFacts.
Import Storage Session Ledger.
Context {RT : Py.Runtime}.

Lemma submit_vote_run_cases now code oid ip tok db outage codes k r db' :
  run (PollService.submit_vote now code oid ip tok) db outage codes k = (r, db') ->
  vote_effect db now code oid ip tok outage = (classify r, db').
Proof.
  intros H. pose proof (submit_vote_run now code oid ip tok db outage codes k) as E.
  simpl in E. rewrite H in E. simpl in E. auto.
Qed.

Lemma Reachable_wf (db : DB) : Reachable db -> wf db.
Proof.
  induction 1 as [| db depth now q opts mn mx mq mo outage codes k r db' _ IH Hrun
                  | db now code oid ip tok outage codes k r db' _ IH Hrun].
  - apply wf_empty.
  - destruct depth as [|d].
    + unfold run in Hrun; simpl in Hrun. by inversion Hrun; subst.
    + rewrite create_poll_run in Hrun.
      destruct (create_effect _ _ _ _ _ _ _ _ _ _ _) as [[r0 db0] k0] eqn:E.
      inversion Hrun; subst.
      apply create_effect_cases in E as [(e & _ & ->) | (c & ts & _ & _ & Hc & ->)];
        [done | by apply wf_poll_created].
  - apply submit_vote_run_cases in Hrun.
    apply vote_effect_cases in Hrun
        as [(e & _ & ->) | (p & _ & _ & Hp & Ho & Hi & Ht & ->)];
      [done | by eapply wf_vote_applied].
Qed.

End ReachableFacts.

(** ** One vote per identity *)

Section VoteUniqueness.
Import Storage Session Ledger.
Local Open Scope session_scope.
Context {RT : Py.Runtime}.

Lemma NoDup_map_inj_in {A B} (f : A -> B) (l : list A) (a b : A) :
  NoDup (map f l) -> In a l -> In b l -> f a = f b -> a = b.
Proof.
  induction l as [|x l IH]; simpl; [tauto |].
  intros Hnd Ha Hb Hf. apply NoDup_cons in Hnd as [Hx Hnd].
  rewrite list_elem_of_In in Hx.
  destruct Ha as [-> | Ha], Hb as [-> | Hb]; auto.
  - exfalso. apply Hx. rewrite Hf. by apply in_map.
  - exfalso. apply Hx. rewrite <- Hf. by apply in_map.
Qed.

Lemma uq_ip_taken (db : DB) (pid : Z) (ip : string) (v : Vote.t) :
  In v (votes db) -> Vote.poll_id v = pid -> Vote.ip_address v = ip ->
  uq_vote_poll_ip db pid ip = false.
Proof.
  intros Hin Hp Hi. unfold uq_vote_poll_ip. apply negb_false_iff, existsb_exists.
  exists v. split; [done |]. apply andb_true_iff.
  split; [by apply Z.eqb_eq | by apply String.eqb_eq].
Qed.

Lemma uq_token_taken (db : DB) (pid : Z) (tok : string) (v : Vote.t) :
  In v (votes db) -> Vote.poll_id v = pid -> Vote.browser_token v = tok ->
  uq_vote_poll_token db pid tok = false.
Proof.
  intros Hin Hp Hi. unfold uq_vote_poll_token. apply negb_false_iff, existsb_exists.
  exists v. split; [done |]. apply andb_true_iff.
  split; [by apply Z.eqb_eq | by apply String.eqb_eq].
Qed.



Lemma insert_vote_taken (db : DB) (pid oid : Z) (ip tok : string) (now : Q)
      (v : Vote.t) :
  In v (votes db) -> Vote.poll_id v = pid ->
  Vote.ip_address v = ip \/ Vote.browser_token v = tok ->
  insert_vote db pid oid ip tok now = None.
Proof.
  intros Hin Hp [Hi | Ht]; unfold insert_vote.
  - rewrite (uq_ip_taken db pid ip v) by done.
    by rewrite andb_false_r.
  - rewrite (uq_token_taken db pid tok v) by done.
    by rewrite andb_false_r.
Qed.

Lemma insert_vote_keeps_uq (db : DB) (pid oid : Z) (ip tok : string) (now : Q)
      (key : Z) (db' : DB) :
  uq_ip db -> uq_token db ->
  insert_vote db pid oid ip tok now = Some (key, db') ->
  uq_ip db' /\ uq_token db'.
Proof.
  intros Hi Ht. unfold insert_vote.
  destruct (has_poll_id db pid && has_option_id db oid) eqn:E; simpl; [| discriminate].
  destruct (uq_vote_poll_ip db pid ip) eqn:Ei; simpl; [| discriminate].
  destruct (uq_vote_poll_token db pid tok) eqn:Et; [| discriminate].
  intros [= <- <-]. unfold uq_ip, uq_token; cbn [votes]. rewrite !map_app.
  split; (apply NoDup_snoc; [done |]).
  - apply (uq_check_not_in Vote.ip_address String.eqb String.eqb_eq).
    unfold uq_vote_poll_ip in Ei. by apply negb_true_iff in Ei.
  - apply (uq_check_not_in Vote.browser_token String.eqb String.eqb_eq).
    unfold uq_vote_poll_token in Et. by apply negb_true_iff in Et.
Qed.

(** C1. In every reachable ledger two vote rows of one poll that share the
    IP address or the browser token are the same row. A vote submitted for
    a poll in which the IP or the token already has a vote fails and leaves
    the ledger as it was. The storage layer enforces this by itself: the
    write transaction of [submit_vote], entered without the preceding
    checks (as by a request that raced past them), is refused by the
    constrained insert, answered with [DuplicateVoteError], and leaves the
    ledger unchanged; and every insert the vote table accepts keeps both
    uniqueness constraints. *)
Theorem C1_one_vote_per_identity (db : DB) (Hreach : Reachable db) :
  (forall v1 v2, In v1 (votes db) -> In v2 (votes db) ->
                 Vote.poll_id v1 = Vote.poll_id v2 ->
                 Vote.ip_address v1 = Vote.ip_address v2
                 \/ Vote.browser_token v1 = Vote.browser_token v2 ->
                 v1 = v2)
  /\ (forall now code oid ip tok outage codes k p v,
        find_poll db code = Some p -> In v (votes db) ->
        Vote.poll_id v = Poll.id p ->
        Vote.ip_address v = ip \/ Vote.browser_token v = tok ->
        exists e, run (PollService.submit_vote now code oid ip tok)
                      db outage codes k = (Raise e, db))
  /\ (forall now p oid ip tok codes k v,
        In v (votes db) -> Vote.poll_id v = Poll.id p ->
        Vote.ip_address v = ip \/ Vote.browser_token v = tok ->
        run (PollService.submit_vote_write now p oid ip tok) db None codes k
        = (Raise (DuplicateVoteError "You have already voted"), db))
  /\ (forall now pid oid ip tok key db',
        insert_vote db pid oid ip tok now = Some (key, db') ->
        uq_ip db' /\ uq_token db').
Proof.
  pose proof (Reachable_wf db Hreach) as Hwf.
  split; [| split; [| split]].
  - intros v1 v2 H1 H2 Hp [Hi | Ht].
    + apply (NoDup_map_inj_in _ _ _ _ (wf_uq_ip db Hwf) H1 H2). congruence.
    + apply (NoDup_map_inj_in _ _ _ _ (wf_uq_token db Hwf) H1 H2). congruence.
  - intros now code oid ip tok outage codes k p v Hp Hin Hv Hdup.
    pose proof (submit_vote_run now code oid ip tok db outage codes k) as E.
    simpl in E.
    destruct (run _ db outage codes k) as [r db'] eqn:Er. simpl in E.
    unfold vote_effect in E. rewrite Hp in E.
    destruct (fits_integer oid); simpl in E.
    2: { inversion E; subst. destruct r; [discriminate | eauto]. }
    assert (Hchk : uq_vote_poll_ip db (Poll.id p) ip
                   && uq_vote_poll_token db (Poll.id p) tok = false).
    { destruct Hdup as [Hi | Ht].
      - by rewrite (uq_ip_taken db (Poll.id p) ip v).
      - rewrite (uq_token_taken db (Poll.id p) tok v) by done.
        apply andb_false_r. }
    destruct (option_of_poll db oid (Poll.id p)); simpl in E.
    + apply andb_false_iff in Hchk as [H | H]; rewrite H in E; simpl in E.
      * inversion E; subst. destruct r; [discriminate | eauto].
      * destruct (uq_vote_poll_ip db (Poll.id p) ip); simpl in E;
          inversion E; subst; destruct r; try discriminate; eauto.
    + inversion E; subst. destruct r; [discriminate | eauto].
  - intros now p oid ip tok codes k v Hin Hp Hdup.
    unfold run, PollService.submit_vote_write, try_except, bind,
      execute_increment, add, commit, rollback, raise, open, set_txn; simpl.
    by rewrite (insert_vote_taken (increment_vote_count db oid) (Poll.id p)
                                  oid ip tok now v).
  - intros now pid oid ip tok key db'.
    apply insert_vote_keeps_uq; [apply (wf_uq_ip db Hwf) | apply (wf_uq_token db Hwf)].
Qed.

End VoteUniqueness.

Section VoteUniquenessExample.
Import Storage Session Ledger.

Lemma example_db1_reachable : Reachable (RT := Exact.runtime) Example.db1.
Proof.
  apply (reach_create_poll (RT := Exact.runtime) empty 1000 0%Q " Pick one " [" A"; "B "]%string
                           2 10 500 200 None Example.codes 0%nat
                           (fst Example.created) Example.db1 reach_empty).
  vm_compute; reflexivity.
Defined.

Lemma example_db2_reachable : Reachable (RT := Exact.runtime) Example.db2.
Proof.
  apply (reach_submit_vote (RT := Exact.runtime) Example.db1 1%Q "AB12CD34" 1 "10.0.0.1" "token-x"
                           None Example.codes 1%nat
                           (fst Example.vote_x) Example.db2 example_db1_reachable).
  vm_compute; reflexivity.
Defined.

Lemma example_db3_reachable : Reachable (RT := Exact.runtime) Example.db3.
Proof.
  apply (reach_submit_vote (RT := Exact.runtime) Example.db2 2%Q "AB12CD34" 2 "10.0.0.2" "token-y"
                           None Example.codes 1%nat
                           (fst Example.vote_y) Example.db3 example_db2_reachable).
  vm_compute; reflexivity.
Defined.

Lemma C1_one_vote_per_identity_witness :
  Reachable (RT := Exact.runtime) Example.db2
  /\ exists e,
      run (PollService.submit_vote (RT := Exact.runtime) 5%Q "AB12CD34" 2
                                   "10.0.0.1" "token-z")
          Example.db2 None Example.codes 1 = (Raise e, Example.db2).
Proof.
  split; [exact example_db2_reachable |].
  destruct (C1_one_vote_per_identity (RT := Exact.runtime) Example.db2
                                     example_db2_reachable) as (_ & H & _).
  apply (H 5%Q "AB12CD34"%string 2 "10.0.0.1"%string "token-z"%string None
           Example.codes 1%nat
           (Poll.mk 1 "Pick one" "AB12CD34" 0%Q)
           (Vote.mk 1 1 1 "10.0.0.1" "token-x" 1%Q)).
  - vm_compute; reflexivity.
  - vm_compute; auto.
  - reflexivity.
  - left; reflexivity.
Defined.

End VoteUniquenessExample.

(** ** Tally, atomicity and frame of a vote *)

Section TallyFacts.
Import Storage Session Ledger.
Context {RT : Py.Runtime}.

Lemma increment_untouched (oid : Z) (l : list Option.t) :
  (forall x, In x l -> Option.id x <> oid) ->
  options (increment_vote_count (mkDB [] l []) oid) = l.
Proof.
  simpl. induction l as [|x l IH]; simpl; [reflexivity |].
  intros H. rewrite IH by auto.
  destruct (Z.eqb_spec (Option.id x) oid) as [E|E]; [| reflexivity].
  exfalso. apply (H x); auto.
Qed.

Lemma increment_as_insert (l : list Option.t) (i : nat) (o : Option.t) :
  ascending (map Option.id l) -> l !! i = Some o ->
  options (increment_vote_count (mkDB [] l []) (Option.id o)) = <[i := bump o]> l.
Proof.
  revert i. induction l as [|a l IH]; intros i Hasc Hi; [discriminate |].
  destruct Hasc as [Ha Hl]. rewrite List.Forall_forall in Ha.
  destruct i as [|i]; simpl in Hi.
  - inversion Hi; subst a. simpl. rewrite Z.eqb_refl. f_equal.
    apply (increment_untouched (Option.id o) l). intros x Hx.
    specialize (Ha (Option.id x) (in_map _ _ _ Hx)). lia.
  - assert (Hin : In o l).
    { apply list_elem_of_In. eapply list_elem_of_lookup_2; eauto. }
    specialize (Ha (Option.id o) (in_map _ _ _ Hin)).
    specialize (IH i Hl Hi). simpl in *. rewrite IH.
    destruct (Z.eqb_spec (Option.id a) (Option.id o)); [lia | reflexivity].
Qed.

Lemma counts_vote_applied (db : DB) (pid oid : Z) (ip tok : string) (now : Q) :
  ascending (map Option.id (options db)) ->
  option_of_poll db oid pid = true ->
  counts (options (vote_applied db pid oid ip tok now)) = counts (options db) + 1.
Proof.
  intros Hasc Ho. destruct (option_of_poll_In _ _ _ Ho) as (o & Hin & <- & _).
  unfold vote_applied; cbn [options].
  change (options (increment_vote_count db (Option.id o)))
    with (options (increment_vote_count (mkDB [] (options db) []) (Option.id o))).
  rewrite counts_increment, (filter_id_unique _ o Hasc Hin). simpl. lia.
Qed.

Lemma option_fk_not_next (db : DB) (o : Option.t) :
  wf db -> In o (options db) ->
  (Option.poll_id o =? next_id (map Poll.id (polls db))) = false.
Proof.
  intros Hwf Hin. pose proof (wf_option_fk db Hwf) as Hfk.
  rewrite List.Forall_forall in Hfk. specialize (Hfk o Hin).
  apply Z.eqb_neq. intros E. rewrite E, has_poll_id_next in Hfk. discriminate.
Qed.

Lemma vote_fk_not_next (db : DB) (v : Vote.t) :
  wf db -> In v (votes db) ->
  (Vote.poll_id v =? next_id (map Poll.id (polls db))) = false.
Proof.
  intros Hwf Hin. pose proof (wf_vote_fk db Hwf) as Hfk.
  rewrite List.Forall_forall in Hfk. specialize (Hfk v Hin).
  apply Z.eqb_neq. intros E. rewrite E, has_poll_id_next in Hfk. discriminate.
Qed.

Lemma poll_options_created (db : DB) (question code : string)
      (texts : list string) (now : Q) :
  wf db ->
  poll_options (poll_created db question code texts now)
               (next_id (map Poll.id (polls db)))
  = number_options (next_id (map Option.id (options db)))
                   (next_id (map Poll.id (polls db))) texts.
Proof.
  intros Hwf. unfold poll_options, poll_created; cbn [options].
  rewrite List.filter_app.
  rewrite filter_none by (intros o Ho; by apply option_fk_not_next).
  rewrite filter_all.
  2: { intros o Ho. apply number_options_poll_id in Ho as [-> _]. apply Z.eqb_refl. }
  simpl. apply order_by_id_ascending.
  apply (ascending_number_options texts [] _ _); [exact I | constructor].
Qed.

Lemma poll_votes_created (db : DB) (question code : string)
      (texts : list string) (now : Q) :
  wf db ->
  poll_votes (poll_created db question code texts now)
             (next_id (map Poll.id (polls db))) = [].
Proof.
  intros Hwf. unfold poll_votes; cbn [poll_created votes].
  apply filter_none. intros v Hv. by apply vote_fk_not_next.
Qed.

Lemma classify_raise {A} (r : result A) (e : exn) :
  classify r = Failed e <-> r = Raise e.
Proof. destruct r; simpl; split; intros H; inversion H; reflexivity. Qed.

Lemma classify_ok {A} (r : result A) :
  classify r = Accepted <-> exists a, r = Ok a.
Proof.
  destruct r; simpl; split; intros H; eauto; try discriminate.
  destruct H; discriminate.
Qed.

Lemma create_poll_run_cases depth now q opts mn mx mq mo db outage codes k r db' :
  run (PollService.create_poll depth now q opts mn mx mq mo) db outage codes k
  = (r, db') ->
  (exists e, r = Raise e /\ db' = db)
  \/ (exists code texts,
        (r = Ok (new_poll db (Py.strip q) code now)
         \/ (r = Raise OperationalError /\ outage = Some AfterCommit))
        /\ cleaned mo opts = Ok texts
        /\ has_poll_code db code = false
        /\ db' = poll_created db (Py.strip q) code texts now).
Proof.
  destruct depth as [|d].
  - unfold run; simpl. intros [= <- <-]. eauto.
  - rewrite create_poll_run.
    destruct (create_effect _ _ _ _ _ _ _ _ _ _ _) as [[r0 db0] k0] eqn:E.
    intros [= <- <-]. eapply create_effect_cases; eauto.
Qed.

(** C2. In every reachable ledger and for every poll, the vote counts of
    the poll's options add up to the number of vote rows of the poll. A
    poll that [create_poll] has just stored has every count at 0 and no
    vote. Whatever [submit_vote] returns or raises, the ledger afterwards
    is either the ledger before, or the ledger before with the vote row
    appended and the count of the chosen option raised by one: both or
    neither. Both are stored when the call returns, and also when the
    backend fails after the commit, which is reported as
    [PollServiceError]; every other failure leaves the ledger as it was. *)
Theorem C2_tally_invariant (db : DB) (Hreach : Reachable db) :
  (forall pid, total_votes db pid = Z.of_nat (length (poll_votes db pid)))
  /\ (forall depth now q opts mn mx mq mo outage codes k p db',
        run (PollService.create_poll depth now q opts mn mx mq mo)
            db outage codes k = (Ok p, db') ->
        Forall (fun o => Option.vote_count o = 0) (poll_options db' (Poll.id p))
        /\ poll_votes db' (Poll.id p) = []
        /\ total_votes db' (Poll.id p) = 0)
  /\ (forall now code oid ip tok outage codes k r db',
        run (PollService.submit_vote now code oid ip tok) db outage codes k
        = (r, db') ->
        ((exists e, r = Raise e) /\ db' = db)
        \/ (((exists d, r = Ok d)
             \/ (r = Raise (PollServiceError "Failed to submit vote")
                 /\ outage = Some AfterCommit))
            /\ exists p,
                find_poll db code = Some p
                /\ votes db' = votes db
                     ++ [Vote.mk (next_id (map Vote.id (votes db))) (Poll.id p)
                                 oid ip tok now]
                /\ options db' = options (increment_vote_count db oid)
                /\ counts (options db') = counts (options db) + 1
                /\ polls db' = polls db)).
Proof.
  pose proof (Reachable_wf db Hreach) as Hwf.
  split; [exact (wf_tally db Hwf) | split].
  - intros depth now q opts mn mx mq mo outage codes k p db' Hrun.
    apply create_poll_run_cases in Hrun
        as [(e & He & _) | (code & texts & [Hr | [Hr _]] & _ & Hc & ->)];
      try discriminate.
    inversion Hr; subst p. cbn [new_poll Poll.id].
    assert (T : tally (poll_created db (Py.strip q) code texts now)
                      (next_id (map Poll.id (polls db)))).
    { apply (wf_tally _ (wf_poll_created db _ code texts now Hwf Hc)). }
    unfold tally in T. rewrite poll_votes_created in T by done.
    rewrite poll_options_created, poll_votes_created by done.
    split; [| split; [reflexivity | exact T]].
    apply List.Forall_forall. intros o Ho.
    by apply number_options_poll_id in Ho as [_ ?].
  - intros now code oid ip tok outage codes k r db' Hrun.
    apply submit_vote_run_cases in Hrun.
    apply vote_effect_cases in Hrun
        as [(e & He & ->) | (p & Hacc & _ & Hp & Ho & _ & _ & ->)].
    + left. split; [| reflexivity]. destruct r; [discriminate | eauto].
    + right. split.
      { destruct Hacc as [[Hr _] | [Hr Ho']].
        - left. by apply classify_ok.
        - right. split; [by apply classify_raise | exact Ho']. }
      exists p. split; [exact Hp |]. split; [reflexivity |].
      split; [reflexivity |]. split; [| reflexivity].
      apply counts_vote_applied; [apply (wf_option_ids db Hwf) | exact Ho].
Qed.


Lemma filter_insert_outside {A} (f : A -> bool) (l : list A) (i : nat) (x y : A) :
  l !! i = Some x -> f x = false -> f y = false ->
  List.filter f (<[i := y]> l) = List.filter f l.
Proof.
  revert i. induction l as [|a l IH]; intros i Hi Hx Hy; [discriminate |].
  destruct i as [|i]; simpl in *.
  - inversion Hi; subst a. by rewrite Hx, Hy.
  - destruct (f a); [f_equal |]; eauto.
Qed.

(** C10. A successful [submit_vote] rewrites exactly one row of the
    options table, the voted option, whose count goes up by one while its
    id, poll and text stay; every other option row, the polls table and
    all earlier vote rows are as before, one vote row is appended, and the
    options and votes of every other poll are the same. *)
Theorem C10_vote_frame (db : DB) (Hreach : Reachable db)
        now code oid ip tok outage codes k d db'
        (Hrun : run (PollService.submit_vote now code oid ip tok)
                    db outage codes k = (Ok d, db')) :
  exists p i o,
    find_poll db code = Some p
    /\ options db !! i = Some o
    /\ Option.id o = oid /\ Option.poll_id o = Poll.id p
    /\ options db' = <[i := bump o]> (options db)
    /\ (forall j, j <> i -> options db' !! j = options db !! j)
    /\ polls db' = polls db
    /\ votes db' = votes db
                   ++ [Vote.mk (next_id (map Vote.id (votes db))) (Poll.id p)
                               oid ip tok now]
    /\ (forall pid', pid' <> Poll.id p ->
                     poll_options db' pid' = poll_options db pid'
                     /\ poll_votes db' pid' = poll_votes db pid').
Proof.
  pose proof (Reachable_wf db Hreach) as Hwf.
  apply submit_vote_run_cases in Hrun.
  apply vote_effect_cases in Hrun
      as [(e & He & _) | (p & _ & _ & Hp & Ho & _ & _ & ->)]; [discriminate |].
  destruct (option_of_poll_In _ _ _ Ho) as (o & Hin & Hid & Hpid).
  apply list_elem_of_In, list_elem_of_lookup in Hin as [i Hi].
  assert (Hopts : options (vote_applied db (Poll.id p) oid ip tok now)
                  = <[i := bump o]> (options db)).
  { rewrite <- Hid. apply (increment_as_insert _ _ _ (wf_option_ids db Hwf) Hi). }
  exists p, i, o. repeat (split; [done |]).
  split; [| split; [reflexivity | split; [reflexivity |]]].
  - intros j Hj. rewrite Hopts. by apply list_lookup_insert_ne.
  - intros pid' Hne. split.
    + unfold poll_options. rewrite Hopts. f_equal.
      apply (filter_insert_outside _ _ _ o); [done | |]; simpl;
        rewrite Hpid; apply Z.eqb_neq; congruence.
    + unfold poll_votes; cbn [vote_applied votes]. rewrite List.filter_app. simpl.
      destruct (Z.eqb_spec (Poll.id p) pid'); [congruence | apply app_nil_r].
Qed.

End TallyFacts.

Section TallyExamples.
Import Storage Session Ledger.

Lemma C2_tally_invariant_witness :
  Reachable (RT := Exact.runtime) Example.db3
  /\ total_votes Example.db3 1 = Z.of_nat (length (poll_votes Example.db3 1)).
Proof.
  split; [exact example_db3_reachable |].
  apply (C2_tally_invariant (RT := Exact.runtime) Example.db3 example_db3_reachable).
Defined.


Lemma C10_vote_frame_witness :
  Reachable (RT := Exact.runtime) Example.db2
  /\ run (PollService.submit_vote (RT := Exact.runtime) 2%Q "AB12CD34" 2
                                  "10.0.0.2" "token-y")
         Example.db2 None Example.codes 1 = (fst Example.vote_y, Example.db3)
  /\ polls Example.db3 = polls Example.db2.
Proof.
  split; [exact example_db2_reachable |].
  assert (Hrun : run (PollService.submit_vote (RT := Exact.runtime) 2%Q "AB12CD34" 2
                                              "10.0.0.2" "token-y")
                     Example.db2 None Example.codes 1
                 = (Ok (match fst Example.vote_y with
                        | Ok d => d
                        | Raise _ => Py.JNone
                        end), Example.db3))
    by (vm_compute; reflexivity).
  split; [vm_compute; reflexivity |].
  destruct (C10_vote_frame (RT := Exact.runtime) Example.db2 example_db2_reachable
                           _ _ _ _ _ _ _ _ _ _ Hrun)
    as (p & i & o & _ & _ & _ & _ & _ & _ & H & _).
  exact H.
Defined.

End TallyExamples.

(** ** Poll creation *)

Section CreationFacts.
Import Storage Session Ledger.

Lemma cleaned_ok (mo : Z) (opts texts : list string) :
  cleaned mo opts = Ok texts ->
  texts = map Py.strip opts
  /\ Forall (fun t => Py.is_empty t = false /\ Py.len t <= mo) texts.
Proof.
  revert texts. induction opts as [|opt rest IH]; intros texts; simpl.
  - intros [= <-]. split; [reflexivity | constructor].
  - destruct (Py.is_empty (Py.strip opt)) eqn:Ee; [discriminate |].
    destruct (Z.gtb_spec (Py.len (Py.strip opt)) mo); [discriminate |].
    destruct (cleaned mo rest) as [l|e]; [| discriminate].
    intros [= <-]. destruct (IH l eq_refl) as [-> Hall].
    split; [reflexivity | constructor; auto].
Qed.

Lemma cleaned_raise (mo : Z) (opts : list string) (e : exn) :
  cleaned mo opts = Raise e -> exists msg, e = ValidationError msg.
Proof.
  induction opts as [|opt rest IH]; simpl; [discriminate |].
  destruct (Py.is_empty (Py.strip opt)); [intros [= <-]; eauto |].
  destruct (Py.len (Py.strip opt) >? mo); [intros [= <-]; eauto |].
  destruct (cleaned mo rest) as [l|e']; [discriminate |].
  intros [= <-]. auto.
Qed.

Lemma cleaned_valid (mo : Z) (opts : list string) :
  Forall (fun opt => Py.is_empty (Py.strip opt) = false
                     /\ Py.len (Py.strip opt) <= mo) opts ->
  cleaned mo opts = Ok (map Py.strip opts).
Proof.
  induction 1 as [|opt rest [He Hl] _ IH]; simpl; [reflexivity |].
  rewrite He. destruct (Z.gtb_spec (Py.len (Py.strip opt)) mo); [lia |].
  by rewrite IH.
Qed.

Lemma remove_dups_length_le (l : list string) :
  (length (remove_dups l) <= length l)%nat.
Proof.
  induction l as [|x l IH]; simpl; [lia |].
  destruct (decide_rel elem_of x l); simpl; lia.
Qed.

Lemma remove_dups_length_NoDup (l : list string) :
  length (remove_dups l) = length l <-> NoDup l.
Proof.
  induction l as [|x l IH]; simpl.
  - split; [constructor | reflexivity].
  - pose proof (remove_dups_length_le l).
    destruct (decide_rel elem_of x l) as [Hin | Hnin]; simpl.
    + split; [lia |]. intros Hnd. apply NoDup_cons in Hnd as [Hx _].
      contradiction.
    + split.
      * intros H'. apply NoDup_cons. split; [done |]. apply IH. lia.
      * intros Hnd. apply NoDup_cons in Hnd as [_ Hnd]. f_equal. by apply IH.
Qed.

Lemma pick_code_raise (db : DB) (codes : nat -> string) (n k k' : nat) (e : exn) :
  pick_code db codes k n = (Raise e, k') ->
  e = ValidationError "Unable to generate unique poll code"
  /\ k' = (k + n)%nat
  /\ forall i, (i < n)%nat -> has_poll_code db (codes (k + i)%nat) = true.
Proof.
  revert k. induction n as [|n IH]; intros k; simpl.
  - intros [= <- <-]. repeat split; [lia | intros; lia].
  - destruct (has_poll_code db (codes k)) eqn:E; [| discriminate].
    intros H. destruct (IH _ H) as (-> & -> & Hall).
    repeat split; [lia |]. intros [|i] Hi.
    + by rewrite Nat.add_0_r.
    + replace (k + S i)%nat with (S k + i)%nat by lia. apply Hall. lia.
Qed.

Lemma create_effect_invalid db now q opts mn mx mq mo outage codes k :
  Z.of_nat (length opts) < mn \/ mx < Z.of_nat (length opts)
  \/ ~ NoDup (map Py.strip opts) ->
  exists msg, create_effect db now q opts mn mx mq mo outage codes k
              = (Raise (ValidationError msg), db, k).
Proof.
  intros Hbad. unfold create_effect.
  destruct (_ || _); [eauto |].
  destruct (_ >? mq); [eauto |].
  destruct (bool_decide (opts = []) || (Z.of_nat (length opts) <? mn)) eqn:E1;
    [eauto |].
  destruct (Z.gtb_spec (Z.of_nat (length opts)) mx) as [|Hmx]; [eauto |].
  apply orb_false_iff in E1 as [_ Hmn]. apply Z.ltb_ge in Hmn.
  destruct Hbad as [? | [? | Hdup]]; [lia | lia |].
  destruct (cleaned mo opts) as [texts|e] eqn:Ec.
  - apply cleaned_ok in Ec as [-> _].
    destruct (Nat.eqb_spec (length (map Py.strip opts))
                           (length (remove_dups (map Py.strip opts)))) as [El|];
      simpl; [| eauto].
    exfalso. apply Hdup. by apply remove_dups_length_NoDup.
  - apply cleaned_raise in Ec as [msg ->]. eauto.
Qed.

(** C7. A creation request with fewer than [min_options] options, more
    than [max_options], or two options equal after trimming fails with
    [ValidationError]; the session is left as it was opened and the ledger
    is unchanged, so no poll or option row is created. *)
Theorem C7_invalid_creation_rejected
        d now q opts mn mx mq mo db outage codes k
        (Hbad : Z.of_nat (length opts) < mn \/ mx < Z.of_nat (length opts)
                \/ ~ NoDup (map Py.strip opts)) :
  exists msg,
    PollService.create_poll (S d) now q opts mn mx mq mo (open db outage codes k)
    = (Raise (ValidationError msg), open db outage codes k)
    /\ run (PollService.create_poll (S d) now q opts mn mx mq mo)
           db outage codes k
       = (Raise (ValidationError msg), db).
Proof.
  destruct (create_effect_invalid db now q opts mn mx mq mo outage codes k Hbad)
    as [msg E].
  exists msg. rewrite create_poll_run, create_poll_world, E. auto.
Qed.

Lemma C7_invalid_creation_rejected_witness :
  exists msg,
    PollService.create_poll 1 0%Q "Pick one" ["A"; " A "]%string 2 10 500 200
                            (open Example.db2 None Example.codes 0)
    = (Raise (ValidationError msg), open Example.db2 None Example.codes 0)
    /\ run (PollService.create_poll 1 0%Q "Pick one" ["A"; " A "]%string
                                    2 10 500 200)
           Example.db2 None Example.codes 0
       = (Raise (ValidationError msg), Example.db2).
Proof.
  apply (C7_invalid_creation_rejected 0 0%Q "Pick one" ["A"; " A "]%string
                                      2 10 500 200 Example.db2 None
                                      Example.codes 0).
  right; right. vm_compute. intros H.
  apply NoDup_cons in H as [H _]. apply H. left.
Defined.

Lemma number_options_texts (texts : list string) (first pid : Z) :
  map Option.option_text (number_options first pid texts) = texts.
Proof.
  revert first. induction texts as [|t rest IH]; intros first; simpl; [reflexivity |].
  by rewrite IH.
Qed.

Lemma pick_code_free (db : DB) (codes : nat -> string) (n k i : nat) :
  (i < n)%nat -> has_poll_code db (codes (k + i)%nat) = false ->
  exists code k', pick_code db codes k n = (Ok code, k').
Proof.
  intros Hi Hfree.
  destruct (pick_code db codes k n) as [[code|e] k'] eqn:E; [eauto |].
  apply pick_code_raise in E as (_ & _ & Hall).
  rewrite (Hall i Hi) in Hfree. discriminate.
Qed.

Lemma is_empty_strip (s : string) : Py.is_empty s = true -> Py.is_empty (Py.strip s) = true.
Proof. destruct s; [reflexivity | discriminate]. Qed.

(** Past validation, the outcome of a creation request is decided by the
    code-picking loop, the commit and the read that follows it. *)
Lemma create_effect_valid db now q opts mn mx mq mo outage codes k :
  valid_request q opts mn mx mq mo ->
  create_effect db now q opts mn mx mq mo outage codes k
  = match pick_code db codes k PollService.max_attempts with
    | (Raise e, k') => (Raise e, db, k')
    | (Ok code, k') =>
        match outage with
        | Some AtCommit => (Raise OperationalError, db, k')
        | Some AfterCommit =>
            (Raise OperationalError,
             poll_created db (Py.strip q) code (map Py.strip opts) now, k')
        | _ => (Ok (new_poll db (Py.strip q) code now),
                poll_created db (Py.strip q) code (map Py.strip opts) now, k')
        end
    end.
Proof.
  intros (Hq & Hqlen & Hne & [Hmn Hmx] & Hopts & Hnd). unfold create_effect.
  destruct (Py.is_empty q) eqn:Eq.
  { apply is_empty_strip in Eq. congruence. }
  rewrite Hq. cbn [orb].
  destruct (Z.gtb_spec (Py.len (Py.strip q)) mq); [lia |].
  rewrite bool_decide_eq_false_2 by done. cbn [orb].
  destruct (Z.ltb_spec (Z.of_nat (length opts)) mn); [lia |].
  destruct (Z.gtb_spec (Z.of_nat (length opts)) mx); [lia |].
  rewrite (cleaned_valid mo opts Hopts).
  apply remove_dups_length_NoDup in Hnd. rewrite Hnd, Nat.eqb_refl. cbn [negb].
  reflexivity.
Qed.

(** C8. Whenever [create_poll] returns a poll from a reachable ledger, the
    poll's options, read back in the order of [Poll.options], carry the
    input texts trimmed, in the input's order and as many as the input has,
    each with a count of 0; the poll is found under its code with the
    trimmed question. And it does return a poll for every valid request (a
    question that is non-empty after trimming and within the length bound;
    a non-empty option list with a count within the bounds; options
    non-empty after trimming, within the length bound and pairwise distinct
    after trimming), provided one of the ten candidate codes is free and
    the backend is up at the commit and at the read that follows it. When
    the backend fails at that read, [create_poll] raises the backend's
    error although the poll is stored, with the same texts in the same
    order. *)
Theorem C8_created_options_preserved
        (db : DB) (RT : Py.Runtime) (Hreach : Reachable db)
        depth now q opts mn mx mq mo outage codes k :
  (forall p db',
      run (PollService.create_poll depth now q opts mn mx mq mo)
          db outage codes k = (Ok p, db') ->
      map Option.option_text (poll_options db' (Poll.id p)) = map Py.strip opts
      /\ length (poll_options db' (Poll.id p)) = length opts
      /\ Forall (fun o => Option.vote_count o = 0
                          /\ Option.poll_id o = Poll.id p)
                (poll_options db' (Poll.id p))
      /\ Poll.question p = Py.strip q
      /\ find_poll db' (Poll.poll_code p) = Some p)
  /\ (depth <> O ->
      valid_request q opts mn mx mq mo ->
      (exists i, (i < PollService.max_attempts)%nat
                 /\ has_poll_code db (codes (k + i)%nat) = false) ->
      outage <> Some AtCommit -> outage <> Some AfterCommit ->
      exists p db',
        run (PollService.create_poll depth now q opts mn mx mq mo)
            db outage codes k = (Ok p, db'))
  /\ (depth <> O ->
      valid_request q opts mn mx mq mo ->
      (exists i, (i < PollService.max_attempts)%nat
                 /\ has_poll_code db (codes (k + i)%nat) = false) ->
      outage = Some AfterCommit ->
      exists code db',
        run (PollService.create_poll depth now q opts mn mx mq mo)
            db outage codes k = (Raise OperationalError, db')
        /\ find_poll db' code = Some (new_poll db (Py.strip q) code now)
        /\ map Option.option_text
               (poll_options db' (Poll.id (new_poll db (Py.strip q) code now)))
           = map Py.strip opts).
Proof.
  pose proof (Reachable_wf db Hreach) as Hwf. split; [| split].
  - intros p db' Hrun.
    apply create_poll_run_cases in Hrun
        as [(e & He & _) | (code & texts & [Hr | [Hr _]] & Hc & Hfree & ->)];
      try discriminate.
    inversion Hr; subst p. cbn [new_poll Poll.id Poll.question Poll.poll_code].
    apply cleaned_ok in Hc as [Ht _].
    rewrite poll_options_created by done.
    rewrite number_options_texts.
    split; [exact Ht |]. split.
    { rewrite <- (length_map Option.option_text), number_options_texts, Ht.
      apply length_map. }
    split.
    { apply List.Forall_forall. intros o Ho.
      apply number_options_poll_id in Ho. tauto. }
    split; [reflexivity |].
    unfold find_poll; cbn [poll_created polls].
    apply find_snoc_fresh; [exact Hfree | apply String.eqb_refl].
  - intros Hd Hvalid (i & Hi & Hfree) Hout Hout'.
    destruct depth as [|d]; [done |].
    rewrite create_poll_run, (create_effect_valid _ _ _ _ _ _ _ _ _ _ _ Hvalid).
    destruct (pick_code_free db codes _ k i Hi Hfree) as (code & k' & ->).
    destruct outage as [[| |]|]; [eauto | done | done | eauto].
  - intros Hd Hvalid (i & Hi & Hfree) ->.
    destruct depth as [|d]; [done |].
    rewrite create_poll_run, (create_effect_valid _ _ _ _ _ _ _ _ _ _ _ Hvalid).
    destruct (pick_code_free db codes _ k i Hi Hfree) as (code & k' & E).
    rewrite E. apply pick_code_fresh in E.
    exists code, (poll_created db (Py.strip q) code (map Py.strip opts) now).
    split; [reflexivity |]. split.
    + unfold find_poll; cbn [poll_created polls].
      apply find_snoc_fresh; [exact E | apply String.eqb_refl].
    + cbn [new_poll Poll.id]. rewrite poll_options_created by done.
      apply number_options_texts.
Qed.

Lemma C8_created_options_preserved_witness :
  Reachable (RT := Exact.runtime) Example.db2
  /\ exists p db',
      run (PollService.create_poll 5 7%Q "  Lunch?" [" soup "; "salad"; "none  "]%string
                                   2 10 500 200)
          Example.db2 None (fun _ => "ZZ99ZZ99"%string) 0 = (Ok p, db')
      /\ map Option.option_text (poll_options db' (Poll.id p))
         = ["soup"; "salad"; "none"]%string.
Proof.
  split; [exact example_db2_reachable |].
  destruct (C8_created_options_preserved
              Example.db2 Exact.runtime example_db2_reachable
              5%nat 7%Q "  Lunch?"%string [" soup "; "salad"; "none  "]%string
              2 10 500 200 None (fun _ => "ZZ99ZZ99"%string) 0%nat)
    as (Hshape & Htotal & _).
  destruct Htotal as (p & db' & Hrun).
  - discriminate.
  - unfold valid_request. split; [reflexivity |].
    split; [vm_compute; discriminate |]. split; [discriminate |].
    split; [vm_compute; split; discriminate |].
    split; [repeat constructor; vm_compute; discriminate |].
    vm_compute. repeat constructor; rewrite ?list_elem_of_In; simpl;
      intuition discriminate.
  - exists 0%nat. split; [unfold PollService.max_attempts; lia | reflexivity].
  - discriminate.
  - discriminate.
  - exists p, db'. split; [exact Hrun |].
    destruct (Hshape p db' Hrun) as [H _]. exact H.
Defined.

End CreationFacts.

(** ** Poll-code generation and how its failure is reported *)

Section CodeGeneration.
Import Storage Session Ledger.
Local Open Scope string_scope.

Lemma pick_code_all_taken (db : DB) (codes : nat -> string) (n k : nat) :
  all_taken db codes k n ->
  pick_code db codes k n
  = (Raise (ValidationError "Unable to generate unique poll code"), (k + n)%nat).
Proof.
  revert k. induction n as [|n IH]; intros k Hall; simpl.
  - by rewrite Nat.add_0_r.
  - pose proof (Hall 0%nat ltac:(lia)) as H0. rewrite Nat.add_0_r in H0.
    rewrite H0, IH; [f_equal; lia |].
    intros i Hi. replace (S k + i)%nat with (k + S i)%nat by lia.
    apply Hall. lia.
Qed.

Lemma pick_code_first_free (db : DB) (codes : nat -> string) (n k i : nat) :
  (i < n)%nat -> all_taken db codes k i ->
  has_poll_code db (codes (k + i)%nat) = false ->
  pick_code db codes k n = (Ok (codes (k + i)%nat), S (k + i)).
Proof.
  revert k i. induction n as [|n IH]; intros k i Hi Hall Hfree; [lia |].
  simpl. destruct i as [|i].
  - rewrite Nat.add_0_r in *. by rewrite Hfree.
  - pose proof (Hall 0%nat ltac:(lia)) as H0. rewrite Nat.add_0_r in H0.
    rewrite H0. replace (k + S i)%nat with (S k + i)%nat in * by lia.
    apply IH; [lia | | done].
    intros j Hj. replace (S k + j)%nat with (k + S j)%nat by lia.
    apply Hall. lia.
Qed.

Lemma generate_unique_eq db outage codes k :
  PollService._generate_unique_poll_code (open db outage codes k)
  = (fst (pick_code db codes k PollService.max_attempts),
     open db outage codes (snd (pick_code db codes k PollService.max_attempts))).
Proof.
  unfold PollService._generate_unique_poll_code.
  rewrite generate_attempts_pure. reflexivity.
Qed.

(** C9 (as amended). [_generate_unique_poll_code] draws at most ten
    candidates: it returns the first one that no poll carries, and when all
    ten are taken it raises [ValidationError("Unable to generate unique poll
    code")] after exactly ten draws. For a valid request the create route
    reports that error through its validation branch: the message is
    flashed and the form is rendered again with the question and options
    given, the ledger unchanged. *)
Theorem C9_code_generation_bounded
        (db : DB) (outage : option stage) (codes : nat -> string) (k : nat)
        (cfg : App.Config) (env : App.Env) (st : App.State)
        (req : App.CreateRequest) :
  (forall i, (i < 10)%nat -> all_taken db codes k i ->
             has_poll_code db (codes (k + i)%nat) = false ->
             PollService._generate_unique_poll_code (open db outage codes k)
             = (Ok (codes (k + i)%nat), open db outage codes (S (k + i))))
  /\ (all_taken db codes k 10 ->
      PollService._generate_unique_poll_code (open db outage codes k)
      = (Raise (ValidationError "Unable to generate unique poll code"),
         open db outage codes (k + 10)))
  /\ (let ip := App.or_default (App.cr_remote_addr req) "127.0.0.1" in
      let question := Py.strip (App.form_get (App.cr_form req) "question" "") in
      let options := App.form_options (App.cr_form req) in
      fst (RateLimiter.is_allowed (App.rate_limiter st) (App.time_now env) ip)
      = true ->
      App.recursion_limit env <> O ->
      valid_request question options (App.MIN_OPTIONS cfg) (App.MAX_OPTIONS cfg)
                    (App.MAX_QUESTION_LENGTH cfg) (App.MAX_OPTION_LENGTH cfg) ->
      all_taken (App.ledger st) (App.poll_codes env) (App.code_index st) 10 ->
      App.create_poll cfg env st req
      = (App.CreatePage "Unable to generate unique poll code"
                        (Some (question, options)),
         App.mkState
           (snd (RateLimiter.is_allowed (App.rate_limiter st) (App.time_now env) ip))
           (App.ledger st) (App.code_index st + 10))).
Proof.
  split; [| split].
  - intros i Hi Hall Hfree. rewrite generate_unique_eq.
    by rewrite (pick_code_first_free db codes PollService.max_attempts k i Hi Hall Hfree).
  - intros Hall. rewrite generate_unique_eq.
    by rewrite (pick_code_all_taken db codes PollService.max_attempts k Hall).
  - intros ip question options Hallowed Hdepth Hvalid Hall.
    unfold App.create_poll. fold ip question options.
    destruct (RateLimiter.is_allowed _ _ ip) as [allowed rl]. simpl in Hallowed.
    subst allowed. cbn [negb snd].
    destruct (App.recursion_limit env) as [|d]; [done |].
    rewrite create_poll_world, (create_effect_valid _ _ _ _ _ _ _ _ _ _ _ Hvalid).
    rewrite (pick_code_all_taken _ _ PollService.max_attempts _ Hall). reflexivity.
Qed.

Lemma example_all_taken :
  all_taken (App.ledger Example.state1) (App.poll_codes Example.colliding_env)
            (App.code_index Example.state1) 10.
Proof. intros i _. reflexivity. Qed.

Lemma C9_code_generation_bounded_witness :
  App.create_poll App.default_config Example.colliding_env Example.state1
                  Example.lunch_request
  = (App.CreatePage "Unable to generate unique poll code"
                    (Some ("Lunch?", ["soup"; "salad"])),
     App.mkState
       (snd (RateLimiter.is_allowed (RateLimiter.init 10 60) 100%Q "10.0.0.9"))
       Example.db1 11).
Proof.
  apply (C9_code_generation_bounded
           Example.db1 None Example.codes 1 App.default_config
           Example.colliding_env Example.state1 Example.lunch_request).
  - vm_compute; reflexivity.
  - discriminate.
  - unfold valid_request. split; [reflexivity |].
    split; [vm_compute; discriminate |]. split; [discriminate |].
    split; [vm_compute; split; discriminate |].
    split; [repeat constructor; vm_compute; discriminate |].
    vm_compute. repeat constructor; rewrite ?list_elem_of_In; simpl;
      intuition discriminate.
  - exact example_all_taken.
Defined.

(** C9 (as stated) fails on how the error is surfaced. With every
    candidate code taken, the create route answers a valid request through
    the validation branch (the service's message, the form echoed), not
    with the generic failure page. *)
Lemma C9_surfaced_as_validation_counterexample :
  all_taken (App.ledger Example.state1) (App.poll_codes Example.colliding_env)
            (App.code_index Example.state1) 10
  /\ fst (App.create_poll App.default_config Example.colliding_env
                          Example.state1 Example.lunch_request)
     = App.CreatePage "Unable to generate unique poll code"
                      (Some ("Lunch?", ["soup"; "salad"]))
  /\ fst (App.create_poll App.default_config Example.colliding_env
                          Example.state1 Example.lunch_request)
     <> App.CreatePage "An error occurred. Please try again." None.
Proof.
  split; [exact example_all_taken |].
  assert (E : fst (App.create_poll App.default_config Example.colliding_env
                                   Example.state1 Example.lunch_request)
              = App.CreatePage "Unable to generate unique poll code"
                               (Some ("Lunch?", ["soup"; "salad"])))
    by (vm_compute; reflexivity).
  split; [exact E |]. rewrite E. discriminate.
Qed.

End CodeGeneration.

(** ** Result snapshots *)

Section ResultFacts.
Import Storage Session Ledger.
Local Open Scope string_scope.
Context {RT : Py.Runtime}.

Lemma get_results_world (code : string) (w : World) :
  PollService.get_results code w
  = (match find_poll (txn w) code with
     | Some p => Ok (snapshot (txn w) code p)
     | None => Raise (PollNotFoundError "Poll not found")
     end, w).
Proof.
  unfold PollService.get_results, PollService.get_poll_by_code, bind, reads,
    find_poll; simpl.
  destruct (List.find _ (polls (txn w))); reflexivity.
Qed.

Lemma get_results_run (code : string) db outage codes k :
  run (PollService.get_results code) db outage codes k
  = (match find_poll db code with
     | Some p => Ok (snapshot db code p)
     | None => Raise (PollNotFoundError "Poll not found")
     end, db).
Proof. unfold run. rewrite get_results_world. reflexivity. Qed.

(** The percentage entry the claim describes. *)
Lemma percentage_entry (total : Z) (o : Option.t) :
  Py.get (PollService.option_data total o) "percentage"
  = Some (if (total >? 0)%Z
          then Py.JFloat (Py.round_ndigits
                            (Py.fmul (Py.truediv (Option.vote_count o) total) 100) 1)
          else Py.JInt 0).
Proof.
  unfold PollService.option_data, PollService.percentage. simpl.
  destruct (total >? 0)%Z; reflexivity.
Qed.

(** C5. For a poll found under its code, [get_results] reports as
    [total_votes] the sum of the vote counts of the poll's options and, for
    each option in turn, its count and the percentage
    [round(count / total_votes * 100, 1)] when [total_votes > 0], and the
    integer 0, with no division, when [total_votes] is 0. Each percentage
    depends on the option's own count and the total only; nothing adjusts
    them to add up to 100: with exact arithmetic a three-way tie reports
    33.3 three times. *)
Theorem C5_percentages (db : DB) (code : string) (p : Poll.t)
        outage codes k (Hp : find_poll db code = Some p) :
  let opts := poll_options db (Poll.id p) in
  let total := Py.sum (map Option.vote_count opts) in
  (exists d entries,
      run (PollService.get_results code) db outage codes k = (Ok d, db)
      /\ Py.get d "total_votes" = Some (Py.JInt total)
      /\ Py.get d "options" = Some (Py.JList entries)
      /\ length entries = length opts
      /\ forall i o, opts !! i = Some o ->
           exists entry,
             entries !! i = Some entry
             /\ Py.get entry "id" = Some (Py.JInt (Option.id o))
             /\ Py.get entry "vote_count" = Some (Py.JInt (Option.vote_count o))
             /\ Py.get entry "percentage"
                = Some (if (total >? 0)%Z
                        then Py.JFloat
                               (Py.round_ndigits
                                  (Py.fmul (Py.truediv (Option.vote_count o) total)
                                           100) 1)
                        else Py.JInt 0))
  /\ (exists d, Example.tie_results = Ok d
                /\ Example.percentages d
                   = [Py.JFloat 33.3%Q; Py.JFloat 33.3%Q; Py.JFloat 33.3%Q]
                /\ ~ (33.3 + 33.3 + 33.3 == 100)%Q).
Proof.
  intros opts total. split.
  - exists (snapshot db code p),
           (map (PollService.option_data total) opts).
    rewrite get_results_run, Hp.
    split; [reflexivity |]. split; [reflexivity |]. split; [reflexivity |].
    split; [apply length_map |].
    intros i o Hi. exists (PollService.option_data total o).
    split; [by rewrite list_lookup_fmap, Hi |].
    split; [reflexivity |]. split; [reflexivity |]. apply percentage_entry.
  - eexists. split; [vm_compute; reflexivity |].
    split; [vm_compute; reflexivity |]. intros H. vm_compute in H. discriminate.
Qed.

Lemma poll_options_table_order (db : DB) (pid : Z) :
  wf db ->
  poll_options db pid = List.filter (fun o => Option.poll_id o =? pid)%Z (options db).
Proof.
  intros Hwf. unfold poll_options. apply order_by_id_ascending.
  apply ascending_filter, (wf_option_ids db Hwf).
Qed.

Lemma find_poll_vote_applied (db : DB) (pid oid : Z) (ip tok : string) (now : Q)
      (code : string) :
  find_poll (vote_applied db pid oid ip tok now) code = find_poll db code.
Proof. reflexivity. Qed.

(** C6. For a poll found under its code, [get_results] returns a dict
    with exactly the keys poll_code, question, total_votes, options and
    created_at, whose options list has one dict with exactly the keys id,
    option_text, vote_count and percentage per option of the poll, in
    ascending id order, which in a reachable ledger is the order in which
    the options were created. When the vote route answers 200 it emits one
    [vote_update] to the poll's room, and the payload it emits, the
    [results] of its response and what the results route then returns for
    the resulting ledger are one and the same snapshot. And the route does
    answer 200, with the vote stored, for a request that the rate limiter
    lets through, for an option of an existing poll, from an identity that
    has not voted in it, while the backend is up. *)
Theorem C6_snapshot_shape_and_agreement :
  (forall db code p outage codes k,
      find_poll db code = Some p ->
      run (PollService.get_results code) db outage codes k
      = (Ok (snapshot db code p), db)
      /\ Permutation (Py.keys (snapshot db code p))
                     ["poll_code"; "question"; "total_votes"; "created_at";
                      "options"]
      /\ (exists entries,
             Py.get (snapshot db code p) "options" = Some (Py.JList entries)
             /\ Forall (fun entry =>
                          Py.keys entry
                          = ["id"; "option_text"; "vote_count"; "percentage"])
                       entries
             /\ map (fun entry => Py.get entry "id") entries
                = map (fun o => Some (Py.JInt (Option.id o)))
                      (poll_options db (Poll.id p)))
      /\ (Reachable db ->
          poll_options db (Poll.id p)
          = List.filter (fun o => Option.poll_id o =? Poll.id p)%Z (options db)))
  /\ (forall env st code req resp emits st',
        App.submit_vote env st code req = (resp, emits, st') ->
        App.status resp = 200 ->
        exists snap p,
          emits = [App.mkEmit "vote_update" snap (Py.upper code)]
          /\ App.body resp
             = App.Json (Py.JDict [("success", Py.JBool true);
                                   ("results", snap)])
          /\ App.get_results env st' code = (snap, 200)
          /\ find_poll (App.ledger st') (Py.upper code) = Some p
          /\ snap = snapshot (App.ledger st') (Py.upper code) p)
  /\ (forall env st code req oid p,
        let ip := App.or_default (App.vr_remote_addr req) "127.0.0.1" in
        let tok := App.or_default (App.vr_cookie_browser_token req)
                                  (App.fresh_browser_token env) in
        App.vr_option_id req = App.OptionId oid ->
        fst (RateLimiter.is_allowed (App.rate_limiter st) (App.time_now env) ip)
        = true ->
        find_poll (App.ledger st) (Py.upper code) = Some p ->
        fits_integer oid = true ->
        option_of_poll (App.ledger st) oid (Poll.id p) = true ->
        uq_vote_poll_ip (App.ledger st) (Poll.id p) ip = true ->
        uq_vote_poll_token (App.ledger st) (Poll.id p) tok = true ->
        App.backend_outage env = None ->
        exists resp emits st',
          App.submit_vote env st code req = (resp, emits, st')
          /\ App.status resp = 200
          /\ App.ledger st'
             = vote_applied (App.ledger st) (Poll.id p) oid ip tok
                            (App.utc_now env)).
Proof.
  split; [| split].
  - intros db code p outage codes k Hp.
    split; [by rewrite get_results_run, Hp |].
    split.
    { simpl. apply perm_skip, perm_skip, perm_skip, perm_swap. }
    split.
    { eexists. split; [reflexivity |]. split.
      - apply Forall_map. apply List.Forall_forall. intros o _. reflexivity.
      - rewrite map_map. reflexivity. }
    intros Hreach. apply poll_options_table_order. by apply Reachable_wf.
  - intros env st code req resp emits st' Hroute Hok.
    unfold App.submit_vote in Hroute.
    destruct (App.vr_option_id req) as [| |oid| |].
    1, 2, 4, 5: inversion Hroute; subst; simpl in Hok; discriminate.
    destruct (RateLimiter.is_allowed _ _ _) as [[|] rl]; cbn [negb] in Hroute.
    2: inversion Hroute; subst; simpl in Hok; discriminate.
    unfold bind in Hroute.
    pose proof (submit_vote_world (App.utc_now env) (Py.upper code) oid
                  (App.or_default (App.vr_remote_addr req) "127.0.0.1")
                  (App.or_default (App.vr_cookie_browser_token req)
                                  (App.fresh_browser_token env))
                  (App.ledger st) (App.backend_outage env) (App.poll_codes env)
                  (App.code_index st)) as E.
    cbv zeta in E.
    destruct (PollService.submit_vote _ _ _ _ _ _) as [r w]. simpl in E.
    destruct (vote_effect _ _ _ _ _ _ _) as [out db'] eqn:Eeff. simpl in E.
    inversion E as [[Hr Hw]]. subst w.
    destruct r as [d|e].
    2: { destruct e; inversion Hroute; subst; simpl in Hok; discriminate. }
    simpl in Hr. subst out.
    apply vote_effect_cases in Eeff
        as [(e & He & _) | (p & _ & _ & Hp & _ & _ & _ & ->)]; [discriminate |].
    rewrite get_results_world in Hroute. cbn [txn open committed next_code] in Hroute.
    rewrite find_poll_vote_applied, Hp in Hroute.
    inversion Hroute; subst. cbn [App.ledger].
    eexists _, p. split; [reflexivity |]. split; [reflexivity |].
    split; [| split; [by rewrite find_poll_vote_applied | reflexivity]].
    unfold App.get_results. cbn [App.ledger App.code_index].
    rewrite get_results_run, find_poll_vote_applied, Hp. reflexivity.
  - intros env st code req oid p ip tok Hoid Hallowed Hp Hfit Ho Hi Ht Hout.
    unfold App.submit_vote. rewrite Hoid. fold ip tok.
    destruct (RateLimiter.is_allowed _ _ ip) as [allowed rl].
    cbn [fst] in Hallowed. subst allowed. cbn [negb]. unfold bind.
    rewrite Hout.
    pose proof (submit_vote_world (App.utc_now env) (Py.upper code) oid ip tok
                  (App.ledger st) None (App.poll_codes env)
                  (App.code_index st)) as E.
    cbv zeta in E. unfold vote_effect in E.
    rewrite Hp, Hfit, Ho, Hi, Ht in E. cbn [negb fst snd] in E.
    destruct (PollService.submit_vote _ _ _ _ _ _) as [r w]. cbn [fst snd] in E.
    inversion E as [[Hr Hw]]. subst w.
    apply classify_ok in Hr as [d ->]. cbv beta iota.
    rewrite get_results_world. cbn [txn open committed next_code].
    rewrite find_poll_vote_applied, Hp.
    eexists _, _, _. split; [reflexivity |]. split; reflexivity.
Qed.

End ResultFacts.

Section ResultExamples.
Import Storage Session Ledger.
Local Open Scope string_scope.

(** The end-to-end scenario: X votes A, X tries B, Y votes B. *)
Example end_to_end :
  fst (run (PollService.get_results (RT := Exact.runtime) "AB12CD34")
           Example.db2 None Example.codes 1)
  = Ok (snapshot (RT := Exact.runtime) Example.db2 "AB12CD34"
                 (Poll.mk 1 "Pick one" "AB12CD34" 0%Q))
  /\ Example.percentages (snapshot (RT := Exact.runtime) Example.db2 "AB12CD34"
                                   (Poll.mk 1 "Pick one" "AB12CD34" 0%Q))
     = [Py.JFloat 100%Q; Py.JFloat 0%Q]
  /\ run (PollService.submit_vote (RT := Exact.runtime) 3%Q "AB12CD34" 2
                                  "10.0.0.1" "token-x")
         Example.db2 None Example.codes 1
     = (Raise (DuplicateVoteError "You have already voted from this IP address"),
        Example.db2)
  /\ Example.percentages (snapshot (RT := Exact.runtime) Example.db3 "AB12CD34"
                                   (Poll.mk 1 "Pick one" "AB12CD34" 0%Q))
     = [Py.JFloat 50%Q; Py.JFloat 50%Q]
  /\ total_votes Example.db3 1 = 2.
Proof. repeat split; vm_compute; reflexivity. Qed.

Lemma C5_percentages_witness :
  find_poll Example.db3 "AB12CD34" = Some (Poll.mk 1 "Pick one" "AB12CD34" 0%Q)
  /\ exists d,
      run (PollService.get_results (RT := Exact.runtime) "AB12CD34")
          Example.db3 None Example.codes 1 = (Ok d, Example.db3)
      /\ Py.get d "total_votes" = Some (Py.JInt 2).
Proof.
  assert (Hp : find_poll Example.db3 "AB12CD34"
               = Some (Poll.mk 1 "Pick one" "AB12CD34" 0%Q))
    by (vm_compute; reflexivity).
  split; [exact Hp |].
  destruct (C5_percentages (RT := Exact.runtime) Example.db3 "AB12CD34" _
                           None Example.codes 1%nat Hp)
    as [(d & entries & Hrun & Htotal & _) _].
  exists d. split; [exact Hrun | exact Htotal].
Defined.

(** The example vote, as the route sees it. *)
Lemma scenario_voted :
  App.submit_vote (RT := Exact.runtime) Scenario.env Example.state1 "ab12cd34"
                  Scenario.vote_request
  = (fst (fst Scenario.voted), snd (fst Scenario.voted), snd Scenario.voted).
Proof.
  unfold Scenario.voted.
  destruct (App.submit_vote _ _ _ _) as [[resp emits] st']. reflexivity.
Defined.

Lemma C6_snapshot_shape_and_agreement_witness :
  App.status (fst (fst Scenario.voted)) = 200
  /\ exists snap p,
      snd (fst Scenario.voted) = [App.mkEmit "vote_update" snap "AB12CD34"]
      /\ App.body (fst (fst Scenario.voted))
         = App.Json (Py.JDict [("success", Py.JBool true); ("results", snap)])
      /\ App.get_results (RT := Exact.runtime) Scenario.env (snd Scenario.voted)
                         "ab12cd34" = (snap, 200)
      /\ snap = snapshot (RT := Exact.runtime) (App.ledger (snd Scenario.voted))
                         "AB12CD34" p
      /\ Py.get snap "total_votes" = Some (Py.JInt 1).
Proof.
  assert (Hok : App.status (fst (fst Scenario.voted)) = 200)
    by (vm_compute; reflexivity).
  split; [exact Hok |].
  destruct (C6_snapshot_shape_and_agreement (RT := Exact.runtime)) as (_ & H & _).
  destruct (H Scenario.env Example.state1 "ab12cd34" Scenario.vote_request
              _ _ _ scenario_voted Hok) as (snap & p & He & Hb & Hg & Hp & Hs).
  exists snap, p. split; [exact He |]. split; [exact Hb |].
  split; [exact Hg |]. split; [exact Hs |].
  assert (E : find_poll (App.ledger (snd Scenario.voted)) "AB12CD34"
              = Some (Poll.mk 1 "Pick one" "AB12CD34" 0%Q))
    by (vm_compute; reflexivity).
  change (Py.upper "ab12cd34") with "AB12CD34" in Hp.
  rewrite E in Hp. inversion Hp; subst p. rewrite Hs.
  vm_compute. reflexivity.
Defined.


End ResultExamples.

(** * Further properties *)

(** ** Rate limiter: remaining budget and call sequences *)

Section LimiterFacts.
Import RateLimiter Limits.
Local Open Scope string_scope.
Local Open Scope list_scope.

Lemma pruned_in_window (rl : t) (now : Q) (ip : string) :
  pruned rl now ip = in_window (window_seconds rl) now (history rl ip).
Proof. reflexivity. Qed.

Lemma get_remaining_eq (rl : t) (now : Q) (ip : string) :
  get_remaining rl now ip
  = match _requests rl !! ip with
    | None => max_requests rl
    | Some _ => Z.max 0 (max_requests rl - Z.of_nat (length (pruned rl now ip)))
    end.
Proof.
  unfold get_remaining, pruned, history.
  destruct (_requests rl !! ip); reflexivity.
Qed.

Lemma pruned_unknown (rl : t) (now : Q) (ip : string) :
  _requests rl !! ip = None -> pruned rl now ip = [].
Proof. intros H. unfold pruned, history. by rewrite H. Qed.

(** X1. The remaining budget that [get_rate_limit_info] reports is positive
    exactly when [check_rate_limit], asked at the same instant, lets the
    request through. *)
Theorem X1_remaining_positive_iff_allowed (F : Type) (rl : t) (now : Q) (ip : string) :
  Py.get (get_rate_limit_info (F := F) rl now ip) "remaining"
  = Some (Py.JInt (get_remaining rl now ip))
  /\ (0 < get_remaining rl now ip <-> fst (check_rate_limit rl now ip) = true).
Proof.
  split; [reflexivity |].
  unfold check_rate_limit. rewrite is_allowed_eq, get_remaining_eq.
  destruct (_requests rl !! ip) as [reqs|] eqn:E.
  - destruct (Z.geb_spec (Z.of_nat (length (pruned rl now ip))) (max_requests rl));
      cbn [fst]; split; intros H'; try reflexivity; try discriminate; try lia.
  - rewrite (pruned_unknown rl now ip E). change (Z.of_nat (length [])) with 0.
    destruct (Z.geb_spec 0 (max_requests rl)); cbn [fst]; split; intros H';
      try reflexivity; try discriminate; try lia.
Qed.

Lemma in_window_app (w : Z) (now : Q) (l1 l2 : list Q) :
  in_window w now (l1 ++ l2) = in_window w now l1 ++ in_window w now l2.
Proof. apply List.filter_app. Qed.

Lemma in_window_later (w : Z) (t1 t2 : Q) (l : list Q) :
  (t1 <= t2)%Q -> in_window w t2 (in_window w t1 l) = in_window w t2 l.
Proof.
  intros H. unfold in_window. induction l as [|x l IH]; simpl; [reflexivity |].
  destruct (Qgtb x (t1 - inject_Z w)) eqn:E1; simpl; rewrite IH; [reflexivity |].
  destruct (Qgtb x (t2 - inject_Z w)) eqn:E2; [| reflexivity].
  apply Qgtb_lt in E2. apply Qgtb_false in E1. lra.
Qed.

Lemma in_window_self (w : Z) (now : Q) :
  (0 < w)%Z -> in_window w now [now] = [now].
Proof.
  intros H. unfold in_window; simpl.
  destruct (Qgtb now (now - inject_Z w)) eqn:E; [reflexivity |].
  apply Qgtb_false in E.
  assert (0 < inject_Z w)%Q by (unfold Qlt; simpl; lia). lra.
Qed.

Lemma pruned_after (rl : t) (ip : string) (l : list Q) (now : Q) :
  pruned (with_requests rl (<[ip := l]> (_requests rl))) now ip
  = in_window (window_seconds rl) now l.
Proof. unfold pruned. rewrite history_after. reflexivity. Qed.

Lemma get_remaining_after (rl : t) (ip : string) (l : list Q) (now : Q) :
  get_remaining (with_requests rl (<[ip := l]> (_requests rl))) now ip
  = Z.max 0 (max_requests rl
             - Z.of_nat (length (in_window (window_seconds rl) now l))).
Proof.
  rewrite get_remaining_eq, pruned_after. simpl. by rewrite lookup_insert_eq.
Qed.

Lemma in_window_pruned (rl : t) (now : Q) (ip : string) :
  in_window (window_seconds rl) now (pruned rl now ip) = pruned rl now ip.
Proof. rewrite pruned_in_window. apply in_window_later. lra. Qed.

(** X2. With a positive window, a call that [is_allowed] lets through
    lowers the remaining budget of that identity, read at the same instant,
    by exactly one; after a refused call the remaining budget is 0. *)
Theorem X2_remaining_after_call (rl : t) (now : Q) (ip : string)
        (Hw : (0 < window_seconds rl)%Z) :
  (fst (is_allowed rl now ip) = true ->
   get_remaining (snd (is_allowed rl now ip)) now ip = (get_remaining rl now ip - 1)%Z)
  /\ (fst (is_allowed rl now ip) = false ->
      get_remaining (snd (is_allowed rl now ip)) now ip = 0%Z).
Proof.
  rewrite is_allowed_eq.
  destruct (Z.geb_spec (Z.of_nat (length (pruned rl now ip))) (max_requests rl))
    as [Hfull | Hfree]; cbn [fst snd]; split; intros H; try discriminate.
  - rewrite get_remaining_after, in_window_pruned. lia.
  - rewrite get_remaining_after, in_window_app, in_window_self by done.
    rewrite in_window_pruned, length_app. simpl length. rewrite get_remaining_eq.
    destruct (_requests rl !! ip) eqn:E; [lia |].
    rewrite (pruned_unknown rl now ip E) in *. simpl in *. lia.
Qed.

Lemma X2_remaining_after_call_witness :
  get_remaining (snd (is_allowed (init 3 60) 5%Q "10.0.0.1")) 5%Q "10.0.0.1" = 2%Z.
Proof.
  apply (X2_remaining_after_call (init 3 60) 5%Q "10.0.0.1"); [reflexivity |].
  vm_compute; reflexivity.
Defined.

Lemma calls_cons (rl : t) (ip : string) (now : Q) (rest : list Q) :
  calls rl ip (now :: rest)
  = (fst (is_allowed rl now ip) :: fst (calls (snd (is_allowed rl now ip)) ip rest),
     snd (calls (snd (is_allowed rl now ip)) ip rest)).
Proof.
  simpl. destruct (is_allowed rl now ip) as [b rl1]. simpl.
  destruct (calls rl1 ip rest); reflexivity.
Qed.

Lemma granted_cons (rl : t) (ip : string) (now : Q) (rest : list Q) :
  granted rl ip (now :: rest)
  = (if fst (is_allowed rl now ip) then [now] else [])
    ++ granted (snd (is_allowed rl now ip)) ip rest.
Proof. simpl. destruct (is_allowed rl now ip); reflexivity. Qed.

Lemma is_allowed_history (rl : t) (now : Q) (ip : string) :
  history (snd (is_allowed rl now ip)) ip
  = pruned rl now ip ++ (if fst (is_allowed rl now ip) then [now] else [])
  /\ window_seconds (snd (is_allowed rl now ip)) = window_seconds rl
  /\ max_requests (snd (is_allowed rl now ip)) = max_requests rl.
Proof.
  rewrite is_allowed_eq.
  destruct (Z.of_nat (length (pruned rl now ip)) >=? max_requests rl)%Z;
    cbn [fst snd]; rewrite history_after; repeat split; by rewrite ?app_nil_r.
Qed.

Lemma calls_keeps_limits (times : list Q) (rl : t) (ip : string) :
  window_seconds (snd (calls rl ip times)) = window_seconds rl
  /\ max_requests (snd (calls rl ip times)) = max_requests rl.
Proof.
  revert rl. induction times as [|now rest IH]; intros rl; [auto |].
  rewrite calls_cons. cbn [snd].
  destruct (IH (snd (is_allowed rl now ip))) as [-> ->].
  by destruct (is_allowed_history rl now ip) as (_ & -> & ->).
Qed.

(** After a run of calls on a clock that never goes back, the history of
    the identity is what the window ending at the last call holds of the
    earlier history and of the calls let through. *)
Lemma calls_history (times : list Q) (rl : t) (ip : string) :
  (0 < window_seconds rl)%Z -> nondecreasing times -> times <> [] ->
  history (snd (calls rl ip times)) ip
  = in_window (window_seconds rl) (List.last times 0%Q)
              (history rl ip ++ granted rl ip times).
Proof.
  revert rl. induction times as [|now rest IH]; intros rl Hw Hmono Hne; [done |].
  clear Hne. rewrite calls_cons, granted_cons. cbn [snd].
  destruct (is_allowed_history rl now ip) as (Hh & Hwin & _).
  destruct rest as [|next rest'].
  - cbn [calls granted snd List.last]. rewrite Hh, app_nil_r, !in_window_app.
    rewrite <- pruned_in_window. f_equal.
    destruct (fst (is_allowed rl now ip)); [by rewrite in_window_self | reflexivity].
  - destruct Hmono as [Hle Hrest].
    assert (Hlast : (now <= List.last (next :: rest') 0)%Q).
    { rewrite List.Forall_forall in Hle. apply Hle.
      change (In (List.last (next :: rest') 0%Q) (next :: rest')).
      clear. generalize next. induction rest' as [|a l IHl]; intros n; simpl; [auto |].
      right. apply IHl. }
    rewrite IH; [| by rewrite Hwin | done | done].
    change (List.last (now :: next :: rest') 0%Q) with (List.last (next :: rest') 0%Q).
    rewrite Hwin, Hh, !in_window_app, pruned_in_window.
    rewrite in_window_later by exact Hlast. by rewrite <- !app_assoc.
Qed.

Lemma is_allowed_keeps_bound (rl : t) (now : Q) (ip : string) :
  (Z.of_nat (length (history rl ip)) <= Z.max 0 (max_requests rl))%Z ->
  (Z.of_nat (length (history (snd (is_allowed rl now ip)) ip))
   <= Z.max 0 (max_requests rl))%Z.
Proof.
  intros H.
  assert (Hp : (length (pruned rl now ip) <= length (history rl ip))%nat)
    by apply List.filter_length_le.
  rewrite is_allowed_eq.
  destruct (Z.geb_spec (Z.of_nat (length (pruned rl now ip))) (max_requests rl));
    cbn [snd]; rewrite history_after, ?length_app; simpl; lia.
Qed.

Lemma calls_keep_bound (times : list Q) (rl : t) (ip : string) :
  (Z.of_nat (length (history rl ip)) <= Z.max 0 (max_requests rl))%Z ->
  (Z.of_nat (length (history (snd (calls rl ip times)) ip))
   <= Z.max 0 (max_requests rl))%Z.
Proof.
  revert rl. induction times as [|now rest IH]; intros rl H; [exact H |].
  rewrite calls_cons. cbn [snd].
  destruct (is_allowed_history rl now ip) as (_ & _ & Hm).
  rewrite <- Hm. apply IH. rewrite Hm. by apply is_allowed_keeps_bound.
Qed.

Lemma granted_answers (times : list Q) (rl : t) (ip : string) :
  granted rl ip times
  = map snd (List.filter fst (combine (fst (calls rl ip times)) times)).
Proof.
  revert rl. induction times as [|now rest IH]; intros rl; [reflexivity |].
  rewrite calls_cons, granted_cons. cbn [fst combine List.filter].
  destruct (fst (is_allowed rl now ip)); simpl; by rewrite IH.
Qed.

(** X3. Sliding window over a run of calls. Start from a fresh limiter
    with a positive window and let one identity call at times that never go
    back. Then the history kept for the identity is exactly the times of the
    calls let through that lie in the window ending at the last call, and
    there are at most [max_requests] of them: no window ever holds more
    accepted requests than the limit. *)
Theorem X3_sliding_window_bound (m w : Z) (ip : string) (times : list Q)
        (Hw : (0 < w)%Z) (Hmono : nondecreasing times) (Hne : times <> []) :
  let accepted := map snd (List.filter fst
                             (combine (fst (calls (init m w) ip times)) times)) in
  history (snd (calls (init m w) ip times)) ip
  = in_window w (List.last times 0%Q) accepted
  /\ (Z.of_nat (length (in_window w (List.last times 0%Q) accepted))
      <= Z.max 0 m)%Z.
Proof.
  intros accepted. unfold accepted. rewrite <- granted_answers.
  pose proof (calls_history times (init m w) ip Hw Hmono Hne) as H.
  change (history (init m w) ip) with (@nil Q) in H. simpl app in H.
  change (window_seconds (init m w)) with w in H.
  split; [exact H |]. rewrite <- H.
  apply (calls_keep_bound times (init m w) ip).
  change (history (init m w) ip) with (@nil Q).
  change (max_requests (init m w)) with m. simpl length. lia.
Qed.

Lemma X3_sliding_window_bound_witness :
  history (snd (calls (init 3 60) "10.0.0.1" [0; 10; 20; 30; 61]%Q)) "10.0.0.1"
  = [10; 20; 61]%Q.
Proof.
  destruct (X3_sliding_window_bound 3 60 "10.0.0.1" [0; 10; 20; 30; 61]%Q)
    as [H _].
  - reflexivity.
  - simpl. repeat split; repeat constructor; unfold Qle; simpl; lia.
  - discriminate.
  - rewrite H. vm_compute. reflexivity.
Defined.

End LimiterFacts.

(** ** Integrity of reachable ledgers *)

Section IntegrityFacts.
Import Storage Session Ledger Integrity.
Context {RT : Py.Runtime}.

Lemma votes_for_vote_applied (db : DB) (pid oid : Z) (ip tok : string) (now : Q)
      (x : Z) :
  votes_for (vote_applied db pid oid ip tok now) x
  = (votes_for db x + (if (oid =? x)%Z then 1 else 0))%nat.
Proof.
  unfold votes_for; cbn [vote_applied votes].
  rewrite List.filter_app, length_app. simpl.
  destruct (oid =? x); reflexivity.
Qed.

Lemma option_of_poll_increment (db : DB) (oid x pid : Z) (vs : list Vote.t) :
  option_of_poll (mkDB (polls db) (options (increment_vote_count db oid)) vs) x pid
  = option_of_poll db x pid.
Proof.
  unfold option_of_poll; simpl. induction (options db) as [|o l IH]; simpl; [done |].
  rewrite IH. f_equal. destruct (Option.id o =? oid); reflexivity.
Qed.

Lemma number_options_id_ge (texts : list string) (first pid : Z) (o : Option.t) :
  In o (number_options first pid texts) -> first <= Option.id o.
Proof.
  revert first. induction texts as [|t rest IH]; intros first; simpl; [tauto |].
  intros [<- | H]; [simpl; lia |]. specialize (IH _ H). lia.
Qed.

Lemma poll_options_ascending (db : DB) (pid : Z) :
  ascending (map Option.id (options db)) ->
  poll_options db pid = List.filter (fun o => Option.poll_id o =? pid) (options db).
Proof.
  intros H. unfold poll_options. apply order_by_id_ascending.
  by apply ascending_filter.
Qed.

Lemma poll_options_vote_applied (db : DB) (pid oid : Z) (ip tok : string) (now : Q)
      (pid' : Z) :
  ascending (map Option.id (options db)) ->
  map Option.option_text (poll_options (vote_applied db pid oid ip tok now) pid')
  = map Option.option_text (poll_options db pid').
Proof.
  intros Hasc. rewrite !poll_options_ascending; [| done |].
  2: { cbn [vote_applied options]. by rewrite map_id_increment. }
  cbn [vote_applied options]. rewrite filter_increment. simpl.
  rewrite map_map. apply map_ext. intros o.
  destruct (Option.id o =? oid); reflexivity.
Qed.

Lemma poll_options_created_other (db : DB) (question code : string)
      (texts : list string) (now : Q) (pid : Z) :
  pid <> next_id (map Poll.id (polls db)) ->
  poll_options (poll_created db question code texts now) pid = poll_options db pid.
Proof.
  intros Hne. unfold poll_options; cbn [poll_created options].
  rewrite List.filter_app.
  rewrite (filter_none _ (number_options _ _ _)); [by rewrite app_nil_r |].
  intros o Ho. apply number_options_poll_id in Ho as [-> _].
  apply Z.eqb_neq. congruence.
Qed.

Lemma create_effect_cases_strong
      db now question opts mn mx mq mo outage codes k r db' k' :
  create_effect db now question opts mn mx mq mo outage codes k = (r, db', k') ->
  (exists e, r = Raise e /\ db' = db)
  \/ (exists code texts,
        (r = Ok (new_poll db (Py.strip question) code now)
         \/ (r = Raise OperationalError /\ outage = Some AfterCommit))
        /\ Py.is_empty (Py.strip question) = false
        /\ opts <> []
        /\ cleaned mo opts = Ok texts
        /\ NoDup texts
        /\ has_poll_code db code = false
        /\ db' = poll_created db (Py.strip question) code texts now).
Proof.
  unfold create_effect.
  destruct (Py.is_empty question || Py.is_empty (Py.strip question)) eqn:Eq;
    [intros [= <- <- <-]; eauto |].
  destruct (_ >? mq); [intros [= <- <- <-]; eauto |].
  destruct (bool_decide (opts = []) || _) eqn:Eo; [intros [= <- <- <-]; eauto |].
  destruct (_ >? mx); [intros [= <- <- <-]; eauto |].
  destruct (cleaned mo opts) as [texts|e]; [| intros [= <- <- <-]; eauto].
  destruct (Nat.eqb_spec (length texts) (length (remove_dups texts))) as [El|];
    cbn [negb]; [| intros [= <- <- <-]; eauto].
  destruct (pick_code _ _ _ _) as [[code|e] k''] eqn:Ek;
    [| intros [= <- <- <-]; eauto].
  apply pick_code_fresh in Ek.
  apply orb_false_iff in Eq as [_ Eq]. apply orb_false_iff in Eo as [Eo _].
  apply bool_decide_eq_false in Eo.
  assert (NoDup texts) by (by apply remove_dups_length_NoDup).
  destruct outage as [[| |]|]; intros [= <- <- <-]; eauto 14.
Qed.

Lemma integrity_empty : integrity empty.
Proof.
  constructor; try (by constructor).
  intros pid. split; constructor.
Qed.

Lemma integrity_vote_applied (db : DB) (code : string) (p : Poll.t) (oid : Z)
      (ip tok : string) (now : Q) :
  wf db -> integrity db -> find_poll db code = Some p ->
  option_of_poll db oid (Poll.id p) = true ->
  integrity (vote_applied db (Poll.id p) oid ip tok now).
Proof.
  intros Hwf [Ht Hr Hp Hx] Hfind Ho.
  pose proof (wf_option_ids db Hwf) as Hasc.
  constructor.
  - unfold option_tally. cbn [vote_applied options]. simpl. apply Forall_map.
    eapply Forall_impl; [exact Ht |]. intros o Hcount. simpl in Hcount.
    destruct (Z.eqb_spec (Option.id o) oid) as [E|E]; cbn [Option.id Option.vote_count];
      rewrite votes_for_vote_applied, Hcount.
    + rewrite E, Z.eqb_refl. lia.
    + destruct (Z.eqb_spec oid (Option.id o)); [congruence | lia].
  - unfold vote_refs. cbn [vote_applied votes]. apply Forall_app. split.
    + eapply Forall_impl; [exact Hr |]. intros v Hv. simpl in Hv.
      unfold vote_applied. by rewrite option_of_poll_increment.
    + constructor; [| constructor]. cbn [Vote.option_id Vote.poll_id].
      unfold vote_applied. by rewrite option_of_poll_increment.
  - unfold polls_ok. cbn [vote_applied polls].
    eapply Forall_impl; [exact Hp |]. intros q [Hq Hne]. split; [exact Hq |].
    intros E. apply Hne.
    apply (f_equal (map Option.option_text)) in E.
    rewrite poll_options_vote_applied in E by done.
    destruct (poll_options db (Poll.id q)); [reflexivity | discriminate].
  - intros pid'. destruct (Hx pid') as [Hnd Hall].
    rewrite poll_options_vote_applied by done. split; [exact Hnd |].
    apply Forall_map with (f := Option.option_text)
                          (P := fun t => Py.is_empty t = false).
    rewrite poll_options_vote_applied by done.
    by apply Forall_map.
Qed.

Lemma votes_for_fresh (db : DB) (x : Z) :
  vote_refs db -> next_id (map Option.id (options db)) <= x -> votes_for db x = 0%nat.
Proof.
  intros Hr Hx. unfold votes_for. rewrite filter_none; [reflexivity |].
  intros v Hv. unfold vote_refs in Hr. rewrite List.Forall_forall in Hr.
  destruct (option_of_poll_In _ _ _ (Hr v Hv)) as (o & Ho & Hid & _).
  pose proof (next_id_gt (map Option.id (options db)) (Option.id o)
                         (in_map _ _ _ Ho)).
  apply Z.eqb_neq. lia.
Qed.

Lemma option_of_poll_created (db : DB) (question code : string)
      (texts : list string) (now : Q) (x pid : Z) :
  option_of_poll db x pid = true ->
  option_of_poll (poll_created db question code texts now) x pid = true.
Proof.
  unfold option_of_poll; cbn [poll_created options]. rewrite existsb_app.
  intros ->. reflexivity.
Qed.

Lemma integrity_poll_created (db : DB) (question code : string)
      (texts : list string) (now : Q) :
  wf db -> integrity db ->
  Py.is_empty question = false -> texts <> [] -> NoDup texts ->
  Forall (fun t => Py.is_empty t = false) texts ->
  integrity (poll_created db question code texts now).
Proof.
  intros Hwf [Ht Hr Hp Hx] Hq Hne Hnd Htexts.
  constructor.
  - unfold option_tally. cbn [poll_created options]. apply Forall_app. split.
    + exact Ht.
    + apply List.Forall_forall. intros o Ho.
      destruct (number_options_poll_id _ _ _ _ Ho) as [_ ->].
      apply number_options_id_ge in Ho.
      change (votes_for (poll_created db question code texts now) (Option.id o))
        with (votes_for db (Option.id o)).
      by rewrite votes_for_fresh.
  - unfold vote_refs. cbn [poll_created votes].
    eapply Forall_impl; [exact Hr |]. intros v Hv. by apply option_of_poll_created.
  - unfold polls_ok. cbn [poll_created polls]. apply Forall_app. split.
    + unfold polls_ok in Hp. rewrite List.Forall_forall in *. intros p Hin.
      destruct (Hp p Hin) as [Hpq Hpo]. split; [exact Hpq |].
      rewrite poll_options_created_other; [exact Hpo |].
      pose proof (next_id_gt (map Poll.id (polls db)) (Poll.id p)
                             (in_map _ _ _ Hin)). lia.
    + constructor; [| constructor]. split; [exact Hq |].
      cbn [new_poll Poll.id]. rewrite poll_options_created by done.
      destruct texts; [done | discriminate].
  - intros pid.
    destruct (Z.eq_dec pid (next_id (map Poll.id (polls db)))) as [-> | Hne'].
    + rewrite poll_options_created by done. rewrite number_options_texts.
      split; [exact Hnd |].
      apply Forall_map with (f := Option.option_text)
                            (P := fun t => Py.is_empty t = false).
      by rewrite number_options_texts.
    + rewrite poll_options_created_other by done. apply Hx.
Qed.

Lemma Reachable_integrity (db : DB) : Reachable db -> integrity db.
Proof.
  induction 1 as [| db depth now q opts mn mx mq mo outage codes k r db' Hreach IH Hrun
                  | db now code oid ip tok outage codes k r db' Hreach IH Hrun].
  - apply integrity_empty.
  - pose proof (Reachable_wf db Hreach) as Hwf.
    destruct depth as [|d].
    + unfold run in Hrun; simpl in Hrun. by inversion Hrun; subst.
    + rewrite create_poll_run in Hrun.
      destruct (create_effect _ _ _ _ _ _ _ _ _ _ _) as [[r0 db0] k0] eqn:E.
      inversion Hrun; subst.
      apply create_effect_cases_strong in E
          as [(e & _ & ->) | (c & ts & _ & Hq & Hne & Hc & Hnd & _ & ->)]; [done |].
      apply cleaned_ok in Hc as [-> Hall].
      apply integrity_poll_created; try done.
      * by destruct opts.
      * eapply Forall_impl; [exact Hall |]. by intros t [? _].
  - pose proof (Reachable_wf db Hreach) as Hwf.
    apply submit_vote_run_cases in Hrun.
    apply vote_effect_cases in Hrun
        as [(e & _ & ->) | (p & _ & _ & Hp & Ho & _ & _ & ->)];
      [done | by eapply integrity_vote_applied].
Qed.

(** X4. In every reachable ledger the vote count of each option equals
    the number of vote rows that reference that option; in particular no
    count is negative. *)
Theorem X4_option_tally (db : DB) (Hreach : Reachable db)
        (o : Option.t) (Ho : In o (options db)) :
  Option.vote_count o
  = Z.of_nat (length (List.filter (fun v => Vote.option_id v =? Option.id o)
                                  (votes db)))
  /\ 0 <= Option.vote_count o.
Proof.
  pose proof (int_tally db (Reachable_integrity db Hreach)) as H.
  unfold option_tally in H. rewrite List.Forall_forall in H.
  specialize (H o Ho). unfold votes_for in H. split; [exact H | lia].
Qed.

(** X5. Referential integrity of reachable ledgers: the option a vote
    names exists and belongs to the poll the vote names, that poll exists,
    every option belongs to an existing poll, and poll ids, option ids and
    poll codes are never repeated. *)
Theorem X5_references_resolve (db : DB) (Hreach : Reachable db) :
  (forall v, In v (votes db) ->
             has_poll_id db (Vote.poll_id v) = true
             /\ exists o, In o (options db)
                          /\ Option.id o = Vote.option_id v
                          /\ Option.poll_id o = Vote.poll_id v)
  /\ (forall o, In o (options db) -> has_poll_id db (Option.poll_id o) = true)
  /\ NoDup (map Poll.id (polls db))
  /\ NoDup (map Option.id (options db))
  /\ NoDup (map Poll.poll_code (polls db)).
Proof.
  pose proof (Reachable_wf db Hreach) as Hwf.
  pose proof (int_refs db (Reachable_integrity db Hreach)) as Hr.
  unfold vote_refs in Hr. rewrite List.Forall_forall in Hr.
  pose proof (wf_vote_fk db Hwf) as Hv. rewrite List.Forall_forall in Hv.
  pose proof (wf_option_fk db Hwf) as Hofk. rewrite List.Forall_forall in Hofk.
  split; [| split; [exact Hofk | split; [| split]]].
  - intros v Hin. split; [by apply Hv |].
    by apply option_of_poll_In, Hr.
  - apply ascending_NoDup, (wf_poll_ids db Hwf).
  - apply ascending_NoDup, (wf_option_ids db Hwf).
  - apply (wf_poll_codes db Hwf).
Qed.

(** X6. Every poll of a reachable ledger has a non-empty question and at
    least one option, and the texts of its options are non-empty and
    pairwise distinct. *)
Theorem X6_polls_well_formed (db : DB) (Hreach : Reachable db)
        (p : Poll.t) (Hp : In p (polls db)) :
  Py.is_empty (Poll.question p) = false
  /\ poll_options db (Poll.id p) <> []
  /\ NoDup (map Option.option_text (poll_options db (Poll.id p)))
  /\ Forall (fun o => Py.is_empty (Option.option_text o) = false)
            (poll_options db (Poll.id p)).
Proof.
  pose proof (Reachable_integrity db Hreach) as Hint.
  pose proof (int_polls db Hint) as Hpolls.
  unfold polls_ok in Hpolls. rewrite List.Forall_forall in Hpolls.
  destruct (Hpolls p Hp) as [Hq Hne].
  destruct (int_texts db Hint (Poll.id p)) as [Hnd Hall]. auto.
Qed.

End IntegrityFacts.

Section IntegrityExamples.
Import Storage Session Ledger Integrity.

Lemma X4_option_tally_witness :
  Reachable (RT := Exact.runtime) Example.db3
  /\ In (Option.mk 2 1 "B" 1) (options Example.db3)
  /\ 0 <= Option.vote_count (Option.mk 2 1 "B" 1).
Proof.
  assert (Hin : In (Option.mk 2 1 "B" 1) (options Example.db3))
    by (vm_compute; auto).
  split; [exact example_db3_reachable |]. split; [exact Hin |].
  apply (X4_option_tally (RT := Exact.runtime) Example.db3 example_db3_reachable
                         _ Hin).
Defined.

Lemma X5_references_resolve_witness :
  Reachable (RT := Exact.runtime) Example.db3
  /\ NoDup (map Option.id (options Example.db3)).
Proof.
  split; [exact example_db3_reachable |].
  apply (X5_references_resolve (RT := Exact.runtime) Example.db3
                               example_db3_reachable).
Defined.

Lemma X6_polls_well_formed_witness :
  Reachable (RT := Exact.runtime) Example.db3
  /\ In (Poll.mk 1 "Pick one" "AB12CD34" 0%Q) (polls Example.db3)
  /\ poll_options Example.db3 1 <> [].
Proof.
  assert (Hin : In (Poll.mk 1 "Pick one" "AB12CD34" 0%Q) (polls Example.db3))
    by (vm_compute; auto).
  split; [exact example_db3_reachable |]. split; [exact Hin |].
  apply (X6_polls_well_formed (RT := Exact.runtime) Example.db3
                              example_db3_reachable _ Hin).
Defined.

End IntegrityExamples.

(** ** The service: pre-check, lookup, return value, failure kinds *)

Section ServiceExtras.
Import Storage Session Ledger.
Local Open Scope string_scope.
Local Open Scope list_scope.
Context {RT : Py.Runtime}.

Lemma validate_vote_run code ip tok db outage codes k :
  run (PollService.validate_vote code ip tok) db outage codes k
  = (Ok (match find_poll db code with
         | None => (false, Some "Poll not found")
         | Some p =>
             if negb (uq_vote_poll_ip db (Poll.id p) ip)
             then (false, Some "You have already voted from this IP address")
             else if negb (uq_vote_poll_token db (Poll.id p) tok)
                  then (false, Some "You have already voted")
                  else (true, None)
         end), db).
Proof.
  unfold run, open, PollService.validate_vote, PollService.get_poll_by_code,
    PollService.query_vote_by_ip, PollService.query_vote_by_token, bind, reads,
    find_poll, ret; simpl.
  destruct (List.find _ (polls db)) as [p|]; simpl; [| reflexivity].
  unfold uq_vote_poll_ip, uq_vote_poll_token. rewrite !negb_involutive.
  destruct (List.find _ (votes db)) as [v|] eqn:Ei; simpl.
  { by rewrite (find_some_existsb _ _ _ Ei). }
  apply find_none_existsb in Ei. rewrite Ei.
  destruct (List.find _ (votes db)) as [v|] eqn:Et; simpl.
  { by rewrite (find_some_existsb _ _ _ Et). }
  apply find_none_existsb in Et. by rewrite Et.
Qed.

(** [validate_vote] against [submit_vote], for an id that can be bound. *)
Lemma validate_vote_precheck now code oid ip tok db outage codes k :
  exists valid msg,
    run (PollService.validate_vote code ip tok) db outage codes k
    = (Ok (valid, msg), db)
    /\ (valid = true <-> msg = None)
    /\ (valid = false ->
        exists e, run (PollService.submit_vote now code oid ip tok)
                      db outage codes k = (Raise e, db))
    /\ (forall p m, find_poll db code = Some p ->
                    fits_integer oid = true ->
                    option_of_poll db oid (Poll.id p) = true ->
                    msg = Some m ->
                    run (PollService.submit_vote now code oid ip tok)
                        db outage codes k = (Raise (DuplicateVoteError m), db))
    /\ (forall p, valid = true -> find_poll db code = Some p ->
                  fits_integer oid = true ->
                  option_of_poll db oid (Poll.id p) = true -> outage = None ->
                  exists d, run (PollService.submit_vote now code oid ip tok)
                                db outage codes k
                            = (Ok d, vote_applied db (Poll.id p) oid ip tok now)).
Proof.
  rewrite validate_vote_run.
  pose proof (submit_vote_run now code oid ip tok db outage codes k) as E.
  cbv zeta in E.
  destruct (run (PollService.submit_vote now code oid ip tok) db outage codes k)
    as [r db'] eqn:Er. cbn [fst snd] in E. unfold vote_effect in E.
  destruct (find_poll db code) as [p|] eqn:Ep.
  2: { exists false, (Some "Poll not found"). inversion E as [[Hr Hdb]].
       apply classify_raise in Hr. subst.
       split; [reflexivity |]. split; [split; discriminate |].
       split; [eauto |]. split; [intros p m [=] | intros p [=]]. }
  destruct (uq_vote_poll_ip db (Poll.id p) ip) eqn:Ei; cbn [negb].
  2: { exists false, (Some "You have already voted from this IP address").
       split; [reflexivity |]. split; [split; discriminate |].
       destruct (fits_integer oid) eqn:Ef; cbn [negb] in E;
         [destruct (option_of_poll db oid (Poll.id p)) eqn:Eo; cbn [negb] in E |];
         inversion E as [[Hr Hdb]]; apply classify_raise in Hr; subst;
         (split; [eauto |]); (split; [| intros p' [=]]);
         intros p' m [= <-] Hf' Ho' [= <-]; [reflexivity | congruence | congruence]. }
  destruct (uq_vote_poll_token db (Poll.id p) tok) eqn:Et; cbn [negb].
  2: { exists false, (Some "You have already voted").
       split; [reflexivity |]. split; [split; discriminate |].
       destruct (fits_integer oid) eqn:Ef; cbn [negb] in E;
         [destruct (option_of_poll db oid (Poll.id p)) eqn:Eo; cbn [negb] in E |];
         inversion E as [[Hr Hdb]]; apply classify_raise in Hr; subst;
         (split; [eauto |]); (split; [| intros p' [=]]);
         intros p' m [= <-] Hf' Ho' [= <-]; [reflexivity | congruence | congruence]. }
  exists true, None. split; [reflexivity |]. split; [done |].
  split; [discriminate |]. split; [intros p' m _ _ _ [=] |].
  intros p' _ [= <-] Hf Ho ->. rewrite Hf, Ho in E. cbn [negb] in E.
  inversion E as [[Hr Hdb]]. apply classify_ok in Hr as [d ->]. eauto.
Qed.

(** X7. [validate_vote] is a faithful pre-check of [submit_vote]. It only
    reads. When it answers invalid, [submit_vote] with the same poll code and
    identity fails and leaves the ledger unchanged, and for an option of the
    poll, given by an id that can be bound, it fails with
    [DuplicateVoteError] carrying the very message [validate_vote]
    returned; when it answers valid, [submit_vote] for any such option of
    the poll is accepted unless the backend is down. For an id that cannot
    be bound, [submit_vote] raises [OverflowError] whatever [validate_vote]
    answered. *)
Theorem X7_validate_vote_agrees now code oid ip tok db outage codes k :
  exists valid msg,
    run (PollService.validate_vote code ip tok) db outage codes k
    = (Ok (valid, msg), db)
    /\ (valid = true <-> msg = None)
    /\ (valid = false ->
        exists e, run (PollService.submit_vote now code oid ip tok)
                      db outage codes k = (Raise e, db))
    /\ (forall p m, find_poll db code = Some p ->
                    fits_integer oid = true ->
                    option_of_poll db oid (Poll.id p) = true ->
                    msg = Some m ->
                    run (PollService.submit_vote now code oid ip tok)
                        db outage codes k = (Raise (DuplicateVoteError m), db))
    /\ (forall p, valid = true -> find_poll db code = Some p ->
                  fits_integer oid = true ->
                  option_of_poll db oid (Poll.id p) = true -> outage = None ->
                  exists d, run (PollService.submit_vote now code oid ip tok)
                                db outage codes k
                            = (Ok d, vote_applied db (Poll.id p) oid ip tok now))
    /\ (forall p, find_poll db code = Some p -> fits_integer oid = false ->
                  run (PollService.submit_vote now code oid ip tok)
                      db outage codes k = (Raise OverflowError, db)).
Proof.
  destruct (validate_vote_precheck now code oid ip tok db outage codes k)
    as (valid & msg & Hrun & Hiff & Hinvalid & Hdup & Hvalid).
  exists valid, msg.
  split; [exact Hrun |]. split; [exact Hiff |]. split; [exact Hinvalid |].
  split; [exact Hdup |]. split; [exact Hvalid |].
  intros p Hp Hfit.
  pose proof (submit_vote_run now code oid ip tok db outage codes k) as E.
  cbv zeta in E. unfold vote_effect in E. rewrite Hp, Hfit in E. cbn [negb] in E.
  destruct (run (PollService.submit_vote now code oid ip tok) db outage codes k)
    as [r db']. cbn [fst snd] in E.
  inversion E as [[Hr Hdb]]. apply classify_raise in Hr. by subst.
Qed.

Lemma get_poll_or_404_run code db outage codes k :
  run (PollService.get_poll_or_404 code) db outage codes k
  = (match find_poll db code with
     | Some p => Ok p
     | None => Raise (PollNotFoundError
                        ("Poll with code '" +:+ code +:+ "' not found"))
     end, db).
Proof.
  unfold run, open, PollService.get_poll_or_404, PollService.get_poll_by_code,
    bind, reads, find_poll; simpl.
  destruct (List.find _ (polls db)); reflexivity.
Qed.

Lemma find_poll_created_other (db : DB) (question code c : string)
      (texts : list string) (now : Q) :
  c <> code ->
  find_poll (poll_created db question code texts now) c = find_poll db c.
Proof.
  intros Hne. unfold find_poll; cbn [poll_created polls].
  induction (polls db) as [|p l IH]; simpl.
  - destruct (String.eqb_spec code c); [congruence | reflexivity].
  - destruct (String.eqb (Poll.poll_code p) c); [reflexivity | exact IH].
Qed.

(** X8. Create, then look up. A poll returned by [create_poll] is found
    by [get_poll_or_404] under its code in the resulting ledger, while before
    the call that code was unknown and the lookup failed with
    [PollNotFoundError]; the lookup of every other code gives what it gave
    before. The lookup never changes the ledger. *)
Theorem X8_create_then_lookup
        depth now q opts mn mx mq mo db outage codes k p db'
        (Hrun : run (PollService.create_poll depth now q opts mn mx mq mo)
                    db outage codes k = (Ok p, db')) :
  (forall outage' codes' k',
      run (PollService.get_poll_or_404 (Poll.poll_code p)) db' outage' codes' k'
      = (Ok p, db'))
  /\ (forall outage' codes' k',
        run (PollService.get_poll_or_404 (Poll.poll_code p)) db outage' codes' k'
        = (Raise (PollNotFoundError ("Poll with code '" +:+ Poll.poll_code p
                                     +:+ "' not found")), db))
  /\ (forall c outage' codes' k',
        c <> Poll.poll_code p ->
        fst (run (PollService.get_poll_or_404 c) db' outage' codes' k')
        = fst (run (PollService.get_poll_or_404 c) db outage' codes' k')).
Proof.
  apply create_poll_run_cases in Hrun
      as [(e & He & _) | (code & texts & [Hr | [Hr _]] & _ & Hfree & ->)];
    try discriminate.
  inversion Hr; subst p. cbn [new_poll Poll.poll_code].
  split; [| split].
  - intros. rewrite get_poll_or_404_run.
    unfold find_poll; cbn [poll_created polls].
    erewrite find_snoc_fresh; [reflexivity | exact Hfree | apply String.eqb_refl].
  - intros. rewrite get_poll_or_404_run. unfold find_poll.
    unfold has_poll_code in Hfree. apply find_none_existsb in Hfree.
    by rewrite Hfree.
  - intros c outage' codes' k' Hne. rewrite !get_poll_or_404_run. cbn [fst].
    by rewrite find_poll_created_other.
Qed.

Lemma find_by_id_unique (l : list Poll.t) (p : Poll.t) :
  ascending (map Poll.id l) -> In p l ->
  List.find (fun q => Poll.id q =? Poll.id p)%Z l = Some p.
Proof.
  induction l as [|a l IH]; simpl; [tauto |].
  intros [Ha Hl] [-> | Hin]; [by rewrite Z.eqb_refl |].
  rewrite List.Forall_forall in Ha.
  specialize (Ha (Poll.id p) (in_map _ _ _ Hin)).
  destruct (Z.eqb_spec (Poll.id a) (Poll.id p)); [lia | auto].
Qed.

(** What an accepted vote returns, in a ledger whose poll ids are not
    repeated. *)
Lemma submit_vote_value now code oid ip tok db codes k p :
  ascending (map Poll.id (polls db)) ->
  find_poll db code = Some p ->
  fits_integer oid = true ->
  option_of_poll db oid (Poll.id p) = true ->
  uq_vote_poll_ip db (Poll.id p) ip = true ->
  uq_vote_poll_token db (Poll.id p) tok = true ->
  run (PollService.submit_vote now code oid ip tok) db None codes k
  = (Ok (Py.JDict
           [("success", Py.JBool true);
            ("poll", poll_to_dict (vote_applied db (Poll.id p) oid ip tok now) p);
            ("voted_option_id", Py.JInt oid)]),
     vote_applied db (Poll.id p) oid ip tok now).
Proof.
  intros Hasc Hp Hf Ho Hi Ht.
  destruct (find_poll_has_id db code p Hp) as (Hpid & Hin & _).
  unfold find_poll in Hp.
  unfold run, open, PollService.submit_vote, PollService.get_poll_by_code,
    PollService.query_vote_by_ip, PollService.query_vote_by_token, query_bound,
    bind, reads; simpl.
  rewrite Hp. simpl. rewrite Hf. simpl.
  unfold option_of_poll in Ho. rewrite <- is_some_find in Ho. rewrite Ho. simpl.
  unfold uq_vote_poll_ip in Hi. apply negb_true_iff in Hi.
  rewrite <- is_some_find in Hi. rewrite Hi. simpl.
  unfold uq_vote_poll_token in Ht. apply negb_true_iff in Ht.
  rewrite <- is_some_find in Ht. rewrite Ht. simpl.
  unfold PollService.submit_vote_write, try_except, bind, execute_increment, add,
    commit, set_txn; simpl.
  rewrite (insert_vote_ok db (Poll.id p) oid ip tok now); simpl.
  - unfold refresh; simpl. rewrite (find_by_id_unique _ p Hasc Hin). reflexivity.
  - exact Hpid.
  - apply (option_of_poll_has_id db oid (Poll.id p)).
    unfold option_of_poll. by rewrite <- is_some_find.
  - unfold uq_vote_poll_ip. apply negb_true_iff. by rewrite <- is_some_find.
  - unfold uq_vote_poll_token. apply negb_true_iff. by rewrite <- is_some_find.
Qed.

(** X9. What an accepted vote returns. In a reachable ledger a successful
    [submit_vote] returns [success = True], the option id it was given, and
    the dict of the poll as committed: its [total_votes] is one more than
    before the vote and equals the number of the poll's vote rows. *)
Theorem X9_vote_return_value (db : DB) (Hreach : Reachable db)
        now code oid ip tok outage codes k d db'
        (Hrun : run (PollService.submit_vote now code oid ip tok)
                    db outage codes k = (Ok d, db')) :
  exists p poll_dict,
    find_poll db code = Some p
    /\ d = Py.JDict [("success", Py.JBool true); ("poll", poll_dict);
                     ("voted_option_id", Py.JInt oid)]
    /\ poll_dict = poll_to_dict db' p
    /\ Py.get poll_dict "total_votes"
       = Some (Py.JInt (total_votes db (Poll.id p) + 1))
    /\ total_votes db' (Poll.id p) = Z.of_nat (length (poll_votes db' (Poll.id p))).
Proof.
  pose proof (Reachable_wf db Hreach) as Hwf.
  pose proof Hrun as Hrun'.
  apply submit_vote_run_cases in Hrun'.
  apply vote_effect_cases in Hrun'
      as [(e & He & _)
         | (p & [[_ ->] | [He _]] & Hf & Hp & Ho & Hi & Ht & ->)];
    try discriminate.
  rewrite (submit_vote_value now code oid ip tok db codes k p
             (wf_poll_ids db Hwf) Hp Hf Ho Hi Ht) in Hrun.
  inversion Hrun as [[Hd]]. clear Hrun.
  pose proof (wf_vote_applied db code p oid ip tok now Hwf Hp Ho Hi Ht) as Hwf'.
  pose proof (wf_tally _ Hwf' (Poll.id p)) as T'.
  pose proof (wf_tally _ Hwf (Poll.id p)) as T.
  unfold tally in *.
  exists p, (poll_to_dict (vote_applied db (Poll.id p) oid ip tok now) p).
  split; [done |]. split; [reflexivity |]. split; [reflexivity |].
  split; [| exact T'].
  cbn [poll_to_dict Py.get Py.assoc String.eqb Ascii.eqb Bool.eqb].
  rewrite T', T. unfold poll_votes; cbn [vote_applied votes].
  rewrite List.filter_app, length_app. cbn [List.filter Vote.poll_id].
  rewrite Z.eqb_refl. simpl length. do 2 f_equal. lia.
Qed.

(** X10. The kinds of failure of [submit_vote]. What it raises is an
    exception of the service's own hierarchy, with one exception: for an
    existing poll and an option id outside the signed 64-bit range the
    lookup raises [OverflowError], which escapes as it is. An integrity
    violation or a backend failure of the write transaction (at the update,
    at the commit or after it) never escapes unwrapped. *)
Theorem X10_vote_failure_kinds
        now code oid ip tok db outage codes k e
        (Hrun : fst (run (PollService.submit_vote now code oid ip tok)
                         db outage codes k) = Raise e) :
  (fits_integer oid = true \/ find_poll db code = None ->
   is_poll_service_error e = true)
  /\ (is_poll_service_error e = false ->
      e = OverflowError /\ fits_integer oid = false
      /\ exists p, find_poll db code = Some p)
  /\ e <> IntegrityError /\ e <> OperationalError.
Proof.
  pose proof (submit_vote_run now code oid ip tok db outage codes k) as E.
  cbv zeta in E. rewrite Hrun in E. cbn [classify] in E.
  unfold vote_effect in E.
  destruct (find_poll db code) as [p|].
  2: { inversion E; subst. repeat split; try discriminate; reflexivity. }
  destruct (fits_integer oid); cbn [negb] in E.
  2: { inversion E; subst. split; [intros [? | ?]; discriminate |].
       split; [eauto |]. split; discriminate. }
  assert (H : is_poll_service_error e = true
              /\ e <> IntegrityError /\ e <> OperationalError).
  { destruct (negb _); [by inversion E |].
    destruct (negb _); [by inversion E |].
    destruct (negb _); [by inversion E |].
    destruct outage as [[| |]|]; by inversion E. }
  destruct H as (H1 & H2 & H3). rewrite H1.
  split; [reflexivity |]. split; [discriminate | auto].
Qed.

(** X11. [create_poll] fails only with [ValidationError], or with the
    backend's own error when the commit or the read that follows it is hit
    by an outage. Its retry after
    an integrity violation is never taken in a session opened on the ledger,
    so the outcome does not depend on the recursion depth left and neither
    [IntegrityError] nor [RecursionError] is ever raised. *)
Theorem X11_create_failures
        d d' now q opts mn mx mq mo db outage codes k :
  PollService.create_poll (S d) now q opts mn mx mq mo (open db outage codes k)
  = PollService.create_poll (S d') now q opts mn mx mq mo (open db outage codes k)
  /\ (forall e,
        fst (run (PollService.create_poll (S d) now q opts mn mx mq mo)
                 db outage codes k) = Raise e ->
        (exists msg, e = ValidationError msg)
        \/ (e = OperationalError
            /\ (outage = Some AtCommit \/ outage = Some AfterCommit))).
Proof.
  split; [by rewrite !create_poll_world |].
  intros e. rewrite create_poll_run. unfold create_effect.
  destruct (_ || _); [intros [= <-]; eauto |].
  destruct (_ >? mq)%Z; [intros [= <-]; eauto |].
  destruct (_ || _); [intros [= <-]; eauto |].
  destruct (_ >? mx)%Z; [intros [= <-]; eauto |].
  destruct (cleaned mo opts) as [texts|e'] eqn:Ec.
  2: { intros [= <-]. left. by eapply cleaned_raise. }
  destruct (negb _); [intros [= <-]; eauto |].
  destruct (pick_code _ _ _ _) as [[code|e'] k'] eqn:Ek.
  - destruct outage as [[| |]|]; cbn [fst]; intros [=]; subst; auto.
  - cbn [fst]. intros [= <-]. apply pick_code_raise in Ek as (-> & _). eauto.
Qed.

End ServiceExtras.

(** ** The vote route *)

Section VoteRouteFacts.
Import Storage Session Ledger Routes.
Local Open Scope string_scope.
Local Open Scope list_scope.
Context {RT : Py.Runtime}.

(** The vote route, once the option id is read and the limiter has let
    the request through, case by case on what the vote does. *)
Lemma vote_route_cases env st code req oid :
  App.vr_option_id req = App.OptionId oid ->
  fst (RateLimiter.is_allowed (App.rate_limiter st) (App.time_now env)
                              (voter_ip req)) = true ->
  let rl := snd (RateLimiter.is_allowed (App.rate_limiter st) (App.time_now env)
                                        (voter_ip req)) in
  let eff := vote_effect (App.ledger st) (App.utc_now env) (Py.upper code) oid
                         (voter_ip req) (voter_token env req)
                         (App.backend_outage env) in
  match fst eff with
  | Accepted =>
      exists p,
        find_poll (App.ledger st) (Py.upper code) = Some p
        /\ App.submit_vote env st code req
           = (App.mkVoteResponse
                (App.Json
                   (Py.JDict [("success", Py.JBool true);
                              ("results", snapshot (snd eff) (Py.upper code) p)]))
                200
                (match App.vr_cookie_browser_token req with
                 | None => Some (voter_token env req)
                 | Some _ => None
                 end),
              [App.mkEmit "vote_update" (snapshot (snd eff) (Py.upper code) p)
                          (Py.upper code)],
              App.mkState rl (snd eff) (App.code_index st))
  | Failed e =>
      App.submit_vote env st code req
      = (vote_error e, [], App.mkState rl (snd eff) (App.code_index st))
  end.
Proof.
  intros Hoid Hallowed rl eff. subst rl.
  unfold App.submit_vote. rewrite Hoid. fold (voter_ip req) (voter_token env req).
  destruct (RateLimiter.is_allowed _ _ (voter_ip req)) as [allowed rl].
  cbn [fst snd] in *. subst allowed. cbn [negb].
  unfold bind.
  pose proof (submit_vote_world (App.utc_now env) (Py.upper code) oid
                (voter_ip req) (voter_token env req)
                (App.ledger st) (App.backend_outage env) (App.poll_codes env)
                (App.code_index st)) as E.
  cbv zeta in E. subst eff.
  destruct (PollService.submit_vote _ _ _ _ _ _) as [r w]. cbn [fst snd] in E.
  destruct (vote_effect _ _ _ _ _ _ _) as [out db'] eqn:Eeff. cbn [fst snd] in *.
  inversion E as [[Hr Hw]]. subst w. clear E.
  destruct r as [d|e]; cbn [classify] in *; subst out.
  - apply vote_effect_cases in Eeff
        as [(e & He & _) | (p & _ & _ & Hp & _ & _ & _ & ->)]; [discriminate |].
    exists p. split; [exact Hp |].
    rewrite get_results_world. cbn [txn open committed next_code].
    rewrite find_poll_vote_applied, Hp. reflexivity.
  - cbn [committed next_code open]. destruct e; reflexivity.
Qed.

(** The exceptions a vote can end with, and where each one comes from. *)
Lemma vote_effect_failures db now code oid ip tok outage e db' :
  vote_effect db now code oid ip tok outage = (Failed e, db') ->
  (exists msg, e = PollNotFoundError msg)
  \/ (exists msg, e = ValidationError msg)
  \/ (exists msg, e = DuplicateVoteError msg)
  \/ (e = PollServiceError "Failed to submit vote" /\ outage <> None)
  \/ (e = OverflowError /\ fits_integer oid = false).
Proof.
  unfold vote_effect.
  destruct (find_poll db code) as [p|]; [| intros [= <- _]; eauto].
  destruct (fits_integer oid); cbn [negb]; [| intros [= <- _]; auto 10].
  destruct (negb _); [intros [= <- _]; eauto |].
  destruct (negb _); [intros [= <- _]; eauto 6 |].
  destruct (negb _); [intros [= <- _]; eauto 6 |].
  destruct outage as [[| |]|]; intros [= <- _];
    right; right; right; left; (split; [done | discriminate]).
Qed.

(** The ledger after a vote that failed. *)
Lemma vote_effect_failed_ledger db now code oid ip tok outage e db' :
  vote_effect db now code oid ip tok outage = (Failed e, db') ->
  db' = db
  \/ (outage = Some AfterCommit
      /\ e = PollServiceError "Failed to submit vote"
      /\ length (votes db') = S (length (votes db))).
Proof.
  intros H. apply vote_effect_cases in H
      as [(e' & _ & ->) | (p & [[[=] _] | [[= ->] ->]] & _ & _ & _ & _ & _ & ->)];
    [by left |].
  right. split; [reflexivity |]. split; [reflexivity |].
  cbn [vote_applied votes]. rewrite length_app. simpl. lia.
Qed.

(** X12. What the vote route answers. The status is one of 200, 400, 404,
    409, 429 and 500. Unless it is 200, nothing is broadcast and no cookie
    is set; the ledger is unchanged, except that a 500 caused by a backend
    failure after the commit leaves the vote stored; the body is the JSON
    document with [success = False], or the error page of the application
    when the exception left the route. With 200 exactly one [vote_update]
    goes out and the ledger has one more vote row. A request whose option id
    is missing or not a number is answered 400, and one whose body cannot be
    read (or whose option id overflows [int()]) is answered with the error
    page and 500, both before the rate limiter is asked, so they cost no
    budget; 429 means the limiter refused; a 500 comes from such a body,
    from an option id that the backend cannot bind, or from a backend
    outage. *)
Theorem X12_vote_route_outcomes env st code req resp emits st'
        (Hroute : App.submit_vote env st code req = (resp, emits, st')) :
  In (App.status resp) [200; 400; 404; 409; 429; 500]%Z
  /\ (App.status resp <> 200%Z -> emits = [] /\ App.set_cookie resp = None)
  /\ (App.status resp <> 200%Z ->
      App.ledger st' = App.ledger st
      \/ (App.status resp = 500%Z
          /\ App.backend_outage env = Some AfterCommit
          /\ length (votes (App.ledger st'))
             = S (length (votes (App.ledger st)))))
  /\ (App.status resp <> 200%Z ->
      resp = App.handle_exception
      \/ exists doc, App.body resp = App.Json doc
                     /\ Py.get doc "success" = Some (Py.JBool false))
  /\ (App.status resp = 200%Z ->
      length emits = 1%nat
      /\ (exists doc, App.body resp = App.Json doc
                      /\ Py.get doc "success" = Some (Py.JBool true))
      /\ length (votes (App.ledger st')) = S (length (votes (App.ledger st))))
  /\ (match App.vr_option_id req with
      | App.OptionId _ => True
      | App.NoOptionId | App.NotAnInt => st' = st /\ App.status resp = 400%Z
      | App.BadBody | App.IntOverflow =>
          st' = st /\ resp = App.handle_exception
      end)
  /\ (App.status resp = 429%Z ->
      fst (RateLimiter.is_allowed (App.rate_limiter st) (App.time_now env)
                                  (voter_ip req)) = false)
  /\ (App.status resp = 500%Z ->
      App.vr_option_id req = App.BadBody
      \/ App.vr_option_id req = App.IntOverflow
      \/ (exists oid, App.vr_option_id req = App.OptionId oid
                      /\ fits_integer oid = false)
      \/ App.backend_outage env <> None).
Proof.
  destruct (App.vr_option_id req) as [| |oid| |] eqn:Hoid.
  1, 2, 4, 5: unfold App.submit_vote in Hroute; rewrite Hoid in Hroute;
    inversion Hroute; subst; cbn;
    (split; [tauto |]); (split; [auto |]); (split; [auto |]);
    (split; [intros _; first [by left | right; eexists; split; reflexivity] |]);
    (split; [discriminate |]); (split; [auto |]);
    (split; [discriminate |]); intros; try discriminate; auto.
  destruct (fst (RateLimiter.is_allowed (App.rate_limiter st) (App.time_now env)
                                        (voter_ip req))) eqn:Hallowed.
  - pose proof (vote_route_cases env st code req oid Hoid Hallowed) as H.
    cbv zeta in H.
    destruct (vote_effect _ _ _ _ _ _ _) as [[|e] db'] eqn:Eeff; cbn [fst snd] in H.
    + destruct H as (p & Hp & Hr). rewrite Hr in Hroute.
      inversion Hroute; subst; clear Hroute. cbn.
      apply vote_effect_cases in Eeff
          as [(e & He & _) | (p' & _ & _ & _ & _ & _ & _ & ->)]; [discriminate |].
      cbn [vote_applied votes]. rewrite length_app, Nat.add_comm.
      (split; [tauto |]); (split; [done |]); (split; [done |]);
      (split; [done |]); (split; [eauto 6 |]); (split; [done |]);
      split; discriminate.
    + rewrite H in Hroute.
      inversion Hroute; subst; clear Hroute. cbn [App.ledger].
      pose proof (vote_effect_failed_ledger _ _ _ _ _ _ _ _ _ Eeff) as Hdb.
      apply vote_effect_failures in Eeff
          as [[msg ->] | [[msg ->] | [[msg ->] | [[-> Hout] | [-> Hfit]]]]];
        cbn;
        (split; [tauto |]); (split; [auto |]);
        (split; [intros _;
                 destruct Hdb as [-> | (Ho & He & Hl)];
                 [by left | try discriminate; right; auto] |]);
        (split; [intros _; right; eexists; split; reflexivity |]);
        (split; [discriminate |]); (split; [exact I |]);
        (split; [discriminate |]); intros; try discriminate; eauto 10.
  - unfold App.submit_vote in Hroute. rewrite Hoid in Hroute.
    fold (voter_ip req) in Hroute.
    destruct (RateLimiter.is_allowed _ _ (voter_ip req)) as [allowed rl].
    cbn [fst] in Hallowed. subst allowed. cbn [negb] in Hroute.
    inversion Hroute; subst; clear Hroute. cbn.
    (split; [tauto |]); (split; [auto |]); (split; [auto |]);
    (split; [intros _; right; eexists; split; reflexivity |]);
    (split; [discriminate |]); (split; [exact I |]);
    (split; [reflexivity |]); discriminate.
Qed.


(** X14. Both writing routes keep the ledger among the reachable ones, so
    every invariant of reachable ledgers holds for the ledger of the running
    application. *)
Theorem X14_routes_keep_reachable (st : App.State)
        (Hreach : Reachable (App.ledger st)) :
  (forall env code req,
      Reachable (App.ledger (snd (App.submit_vote env st code req))))
  /\ (forall cfg env req,
        Reachable (App.ledger (snd (App.create_poll cfg env st req)))).
Proof.
  split.
  - intros env code req.
    destruct (App.vr_option_id req) as [| |oid| |] eqn:Hoid.
    1, 2, 4, 5: unfold App.submit_vote; rewrite Hoid; exact Hreach.
    destruct (fst (RateLimiter.is_allowed (App.rate_limiter st) (App.time_now env)
                                          (voter_ip req))) eqn:Hallowed.
    + pose proof (vote_route_cases env st code req oid Hoid Hallowed) as H.
      cbv zeta in H.
      pose proof (submit_vote_run (App.utc_now env) (Py.upper code) oid
                    (voter_ip req) (voter_token env req) (App.ledger st)
                    (App.backend_outage env) (App.poll_codes env)
                    (App.code_index st)) as E.
      cbv zeta in E.
      destruct (run (PollService.submit_vote _ _ _ _ _) _ _ _ _) as [r dbr] eqn:Er.
      cbn [fst snd] in E.
      destruct (vote_effect _ _ _ _ _ _ _) as [[|e] db'] eqn:Eeff;
        cbn [fst snd] in H.
      * destruct H as (p & _ & ->). cbn [snd App.ledger].
        inversion E; subst. eapply reach_submit_vote; [exact Hreach | exact Er].
      * rewrite H. cbn [snd App.ledger].
        inversion E; subst. eapply reach_submit_vote; [exact Hreach | exact Er].
    + unfold App.submit_vote. rewrite Hoid. fold (voter_ip req).
      destruct (RateLimiter.is_allowed _ _ (voter_ip req)) as [allowed rl].
      cbn [fst] in Hallowed. subst allowed. exact Hreach.
  - intros cfg env req. unfold App.create_poll.
    destruct (RateLimiter.is_allowed _ _ _) as [[|] rl]; cbn [negb]; [| exact Hreach].
    destruct (PollService.create_poll _ _ _ _ _ _ _ _ _) as [r w] eqn:Ec.
    assert (Hrun : run (PollService.create_poll
                          (App.recursion_limit env) (App.utc_now env)
                          (Py.strip (App.form_get (App.cr_form req) "question" ""))
                          (App.form_options (App.cr_form req))
                          (App.MIN_OPTIONS cfg) (App.MAX_OPTIONS cfg)
                          (App.MAX_QUESTION_LENGTH cfg) (App.MAX_OPTION_LENGTH cfg))
                       (App.ledger st) (App.backend_outage env) (App.poll_codes env)
                       (App.code_index st) = (r, committed w)).
    { unfold run. by rewrite Ec. }
    assert (Hr : Reachable (committed w)) by (eapply reach_create_poll; eauto).
    destruct r as [poll|e]; [exact Hr |]. destruct e; exact Hr.
Qed.

End VoteRouteFacts.

(** ** The poll page and the share page *)

Section PageFacts.
Import Storage Session Ledger Routes Pages.
Local Open Scope string_scope.
Local Open Scope list_scope.
Context {RT : Py.Runtime}.

Lemma view_poll_eq env st code cookie :
  Views.view_poll env st code cookie = rendered env (App.ledger st) code cookie.
Proof.
  unfold Views.view_poll, Views.view_poll_body, rendered, run, open, bind,
    PollService.get_poll_by_code, PollService.query_vote_by_token, reads, ret,
    token_vote, find_poll; simpl.
  destruct (List.find _ (polls (App.ledger st))) as [p|]; simpl; [| reflexivity].
  destruct (Views.truthy cookie); simpl.
  - destruct (List.find _ (votes (App.ledger st))) as [v|]; simpl;
      rewrite get_results_world; unfold find_poll; simpl;
      destruct (List.find _ (polls (App.ledger st))); reflexivity.
  - rewrite get_results_world; unfold find_poll; simpl.
    destruct (List.find _ (polls (App.ledger st))); reflexivity.
Qed.

Lemma share_poll_eq env st code host :
  Views.share_poll env st code host
  = match find_poll (App.ledger st) (Py.upper code) with
    | Some p => Views.SharePage p (host +:+ "poll/" +:+ Poll.poll_code p)
    | None => Views.NotFound code
    end.
Proof.
  unfold Views.share_poll, run, open, PollService.get_poll_by_code, reads,
    find_poll; simpl.
  destruct (List.find _ (polls (App.ledger st))); reflexivity.
Qed.

(** X15. The poll page needs the code as stored. [view_poll] shows the
    poll only when the poll is found under the upper-cased code and also
    under the code exactly as it came in the URL, because it passes the
    latter on to [get_results]; when only the upper-cased code resolves it
    answers with the 404 page, although [share_poll] shows the share page for
    the same URL code. *)
Theorem X15_view_needs_stored_code env st code cookie host :
  ((exists p results has_voted voted cookie_set,
       Views.view_poll env st code cookie
       = Views.PollPage p results has_voted voted cookie_set)
   <-> (exists p p2, find_poll (App.ledger st) (Py.upper code) = Some p
                     /\ find_poll (App.ledger st) code = Some p2))
  /\ (forall p, find_poll (App.ledger st) (Py.upper code) = Some p ->
                find_poll (App.ledger st) code = None ->
                Views.view_poll env st code cookie = Views.NotFound code
                /\ Views.share_poll env st code host
                   = Views.SharePage p (host +:+ "poll/" +:+ Poll.poll_code p)).
Proof.
  rewrite view_poll_eq, share_poll_eq. unfold rendered.
  destruct (find_poll (App.ledger st) (Py.upper code)) as [p|];
    destruct (find_poll (App.ledger st) code) as [p2|]; split.
  - split; eauto 10.
  - intros p' _ [=].
  - split; [intros (? & ? & ? & ? & ? & [=]) | intros (? & ? & _ & [=])].
  - intros p' [= <-] _. auto.
  - split; [intros (? & ? & ? & ? & ? & [=]) | intros (? & ? & [=] & _)].
  - intros p' [=].
  - split; [intros (? & ? & ? & ? & ? & [=]) | intros (? & ? & [=] & _)].
  - intros p' [=].
Qed.

End PageFacts.

(** ** Trimming *)

Section StripFacts.
Local Open Scope string_scope.

Lemma lstrip_head (s : string) :
  Py.lstrip s = EmptyString
  \/ exists c r, Py.lstrip s = String c r /\ Py.is_space c = false.
Proof.
  induction s as [|c r IH]; simpl; [auto |].
  destruct (Py.is_space c) eqn:E; [exact IH | right; eauto].
Qed.

Lemma rstrip_head (c : ascii) (r : string) :
  Py.is_space c = false -> exists r', Py.rstrip (String c r) = String c r'.
Proof.
  intros H. simpl. destruct (Py.rstrip r); [rewrite H |]; eauto.
Qed.

Lemma rstrip_idempotent (s : string) : Py.rstrip (Py.rstrip s) = Py.rstrip s.
Proof.
  induction s as [|c r IH]; [reflexivity |].
  simpl. destruct (Py.rstrip r) as [|c' k] eqn:E.
  - destruct (Py.is_space c) eqn:Ec; [reflexivity |]. simpl. by rewrite Ec.
  - change (Py.rstrip (String c (String c' k)))
      with (match Py.rstrip (String c' k) with
            | EmptyString => if Py.is_space c then EmptyString
                             else String c EmptyString
            | kept => String c kept
            end).
    by rewrite IH.
Qed.

Lemma strip_idempotent (s : string) : Py.strip (Py.strip s) = Py.strip s.
Proof.
  unfold Py.strip.
  destruct (lstrip_head s) as [-> | (c & r & -> & Hc)]; [reflexivity |].
  destruct (rstrip_head c r Hc) as [r' E]. rewrite E.
  simpl Py.lstrip. rewrite Hc. rewrite <- E. apply rstrip_idempotent.
Qed.

Lemma form_options_stripped (form : list (string * string)) :
  Forall (fun v => Py.strip v = v /\ Py.is_empty v = false) (App.form_options form).
Proof.
  induction form as [|[key v] rest IH]; simpl; [constructor |].
  destruct (Py.startswith key "option_"); [| exact IH].
  destruct (Py.is_empty (Py.strip v)) eqn:E; [exact IH |].
  constructor; [| exact IH]. split; [apply strip_idempotent | exact E].
Qed.

End StripFacts.

(** ** From a vote to the poll page, from a new poll to its pages *)

Section JourneyFacts.
Import Storage Session Ledger Routes Pages.
Local Open Scope string_scope.
Local Open Scope list_scope.
Context {RT : Py.Runtime}.

Lemma find_app_none {A} (f : A -> bool) (l l' : list A) :
  existsb f l = false -> List.find f (l ++ l') = List.find f l'.
Proof.
  induction l as [|x l IH]; simpl; [reflexivity |].
  intros H. apply orb_false_iff in H as [-> H]. auto.
Qed.

(** All that a 200 from the vote route tells. *)
Lemma vote_route_accepted env st code req resp emits st' :
  App.submit_vote env st code req = (resp, emits, st') ->
  App.status resp = 200%Z ->
  exists p oid,
    App.vr_option_id req = App.OptionId oid
    /\ find_poll (App.ledger st) (Py.upper code) = Some p
    /\ fits_integer oid = true
    /\ option_of_poll (App.ledger st) oid (Poll.id p) = true
    /\ uq_vote_poll_ip (App.ledger st) (Poll.id p) (voter_ip req) = true
    /\ uq_vote_poll_token (App.ledger st) (Poll.id p) (voter_token env req) = true
    /\ App.ledger st'
       = vote_applied (App.ledger st) (Poll.id p) oid (voter_ip req)
                      (voter_token env req) (App.utc_now env).
Proof.
  intros Hroute Hok.
  destruct (App.vr_option_id req) as [| |oid| |] eqn:Hoid.
  1, 2, 4, 5: unfold App.submit_vote in Hroute; rewrite Hoid in Hroute;
        inversion Hroute; subst; discriminate.
  destruct (fst (RateLimiter.is_allowed (App.rate_limiter st) (App.time_now env)
                                        (voter_ip req))) eqn:Hallowed.
  2: { unfold App.submit_vote in Hroute. rewrite Hoid in Hroute.
       fold (voter_ip req) in Hroute.
       destruct (RateLimiter.is_allowed _ _ (voter_ip req)) as [allowed rl].
       cbn [fst] in Hallowed. subst allowed. cbn [negb] in Hroute.
       inversion Hroute; subst; discriminate. }
  pose proof (vote_route_cases env st code req oid Hoid Hallowed) as H.
  cbv zeta in H.
  destruct (vote_effect _ _ _ _ _ _ _) as [[|e] db'] eqn:Eeff; cbn [fst snd] in H.
  2: { rewrite H in Hroute.
       inversion Hroute; subst; clear Hroute.
       apply vote_effect_failures in Eeff
           as [[msg ->] | [[msg ->] | [[msg ->] | [[-> Hout] | [-> Hfit]]]]];
         discriminate. }
  destruct H as (p & Hp & Hr). rewrite Hr in Hroute.
  inversion Hroute; subst; clear Hroute Hr. cbn [App.ledger].
  apply vote_effect_cases in Eeff
      as [(e & He & _) | (p' & _ & Hf & Hp' & Ho & Hi & Ht & ->)]; [discriminate |].
  rewrite Hp in Hp'. inversion Hp'; subst p'.
  exists p, oid. auto 10.
Qed.

(** X16. Vote, then open the poll page. After the vote route has answered
    200 for a request recorded under a non-empty browser token, the poll page
    asked for with that token in the cookie, under any stored spelling of the
    poll code, shows [has_voted = True] with the option that was voted for,
    and sets no new cookie. *)
Theorem X16_vote_then_view env st code req resp emits st'
        (Hroute : App.submit_vote env st code req = (resp, emits, st'))
        (Hok : App.status resp = 200%Z)
        (Htok : Py.is_empty (voter_token env req) = false) :
  exists p oid,
    App.vr_option_id req = App.OptionId oid
    /\ forall env2 code2 p2,
        Py.upper code2 = Py.upper code ->
        find_poll (App.ledger st') code2 = Some p2 ->
        Views.view_poll env2 st' code2 (Some (voter_token env req))
        = Views.PollPage p (snapshot (App.ledger st') code2 p2) true (Some oid) None.
Proof.
  destruct (vote_route_accepted env st code req resp emits st' Hroute Hok)
    as (p & oid & Hoid & Hp & _ & Ho & Hi & Ht & Hdb).
  exists p, oid. split; [exact Hoid |].
  intros env2 code2 p2 Hcode Hp2.
  rewrite view_poll_eq. unfold rendered. rewrite Hcode, Hp2.
  assert (Hf : find_poll (App.ledger st') (Py.upper code) = Some p)
    by (rewrite Hdb; exact Hp).
  rewrite Hf.
  assert (Hv : token_vote (App.ledger st') (Poll.id p) (Some (voter_token env req))
               = Some (Vote.mk (next_id (map Vote.id (votes (App.ledger st))))
                               (Poll.id p) oid (voter_ip req) (voter_token env req)
                               (App.utc_now env))).
  { unfold token_vote, Views.truthy. rewrite Htok. cbn [negb default].
    rewrite Hdb. cbn [vote_applied votes].
    rewrite find_app_none.
    - simpl. by rewrite Z.eqb_refl, String.eqb_refl.
    - unfold uq_vote_poll_token in Ht. by apply negb_true_iff in Ht. }
  rewrite Hv. unfold Views.truthy. rewrite Htok. reflexivity.
Qed.

Lemma pick_code_index (db : DB) (codes : nat -> string) (n k k' : nat)
      (code : string) :
  pick_code db codes k n = (Ok code, k') -> exists i, code = codes i.
Proof.
  revert k. induction n as [|n IH]; intros k; simpl; [discriminate |].
  destruct (has_poll_code db (codes k)); [apply IH |].
  intros [= <- _]. eauto.
Qed.

Lemma create_route_eq cfg env st req d :
  fst (RateLimiter.is_allowed (App.rate_limiter st) (App.time_now env)
         (App.or_default (App.cr_remote_addr req) "127.0.0.1")) = true ->
  App.recursion_limit env = S d ->
  App.create_poll cfg env st req
  = let '(r, db', k') :=
      create_effect (App.ledger st) (App.utc_now env)
                    (CreateRoute.question req) (CreateRoute.options req)
                    (App.MIN_OPTIONS cfg) (App.MAX_OPTIONS cfg)
                    (App.MAX_QUESTION_LENGTH cfg) (App.MAX_OPTION_LENGTH cfg)
                    (App.backend_outage env) (App.poll_codes env)
                    (App.code_index st) in
    (CreateRoute.answer req r,
     App.mkState
       (snd (RateLimiter.is_allowed (App.rate_limiter st) (App.time_now env)
               (App.or_default (App.cr_remote_addr req) "127.0.0.1")))
       db' k').
Proof.
  intros Hallowed Hd. unfold App.create_poll.
  destruct (RateLimiter.is_allowed _ _ _) as [allowed rl].
  cbn [fst snd] in *. subst allowed. cbn [negb]. rewrite Hd.
  fold (CreateRoute.question req) (CreateRoute.options req).
  rewrite create_poll_world.
  destruct (create_effect _ _ _ _ _ _ _ _ _ _ _) as [[r db'] k'].
  cbn [committed next_code open]. destruct r as [poll|e]; [reflexivity |].
  destruct e; reflexivity.
Qed.

(** What a redirect from the create route tells. *)
Lemma create_route_redirect cfg env st req c st' :
  App.create_poll cfg env st req = (App.RedirectToShare c, st') ->
  exists texts i,
    c = App.poll_codes env i
    /\ cleaned (App.MAX_OPTION_LENGTH cfg) (CreateRoute.options req) = Ok texts
    /\ has_poll_code (App.ledger st) c = false
    /\ App.ledger st'
       = poll_created (App.ledger st) (Py.strip (CreateRoute.question req)) c
                      texts (App.utc_now env).
Proof.
  intros Hroute.
  destruct (fst (RateLimiter.is_allowed (App.rate_limiter st) (App.time_now env)
                   (App.or_default (App.cr_remote_addr req) "127.0.0.1")))
    eqn:Hallowed.
  2: { unfold App.create_poll in Hroute.
       destruct (RateLimiter.is_allowed _ _ _) as [allowed rl].
       cbn [fst] in Hallowed. subst allowed. discriminate. }
  destruct (App.recursion_limit env) as [|d] eqn:Hd.
  { unfold App.create_poll in Hroute.
    destruct (RateLimiter.is_allowed _ _ _) as [allowed rl].
    cbn [fst] in Hallowed. subst allowed. rewrite Hd in Hroute. discriminate. }
  rewrite (create_route_eq cfg env st req d Hallowed Hd) in Hroute.
  unfold create_effect in Hroute.
  destruct (_ || _); [discriminate |].
  destruct (_ >? _)%Z; [discriminate |].
  destruct (_ || _); [discriminate |].
  destruct (_ >? _)%Z; [discriminate |].
  destruct (cleaned _ _) as [texts|e] eqn:Ec; [| destruct e; discriminate].
  destruct (negb _); [discriminate |].
  destruct (pick_code _ _ _ _) as [[code|e] k'] eqn:Ek; [| destruct e; discriminate].
  destruct (pick_code_index _ _ _ _ _ _ Ek) as [i Hi].
  apply pick_code_fresh in Ek.
  destruct (App.backend_outage env) as [[| |]|]; try discriminate;
    inversion Hroute; subst; cbn [new_poll Poll.poll_code App.ledger]; eauto 10.
Qed.

(** X17. The redirect of the create route leads to a poll. When the create
    route redirects to the share page of a code, and the code generator
    yields codes that [upper] leaves as they are, then in the resulting
    state the share page of that code shows the new poll under a URL ending
    in the code, and the poll page shows it with no vote cast, a total of 0
    and every option at 0 percent. *)
Theorem X17_redirect_resolves cfg env st req c st'
        (Hreach : Reachable (App.ledger st))
        (Hroute : App.create_poll cfg env st req = (App.RedirectToShare c, st'))
        (Hupper : forall i, Py.upper (App.poll_codes env i) = App.poll_codes env i) :
  exists p,
    Poll.poll_code p = c
    /\ find_poll (App.ledger st') c = Some p
    /\ (forall env2 host,
           Views.share_poll env2 st' c host
           = Views.SharePage p (host +:+ "poll/" +:+ c))
    /\ (forall env2 cookie,
           Views.view_poll env2 st' c cookie
           = Views.PollPage p (snapshot (App.ledger st') c p) false None
                            (if Views.truthy cookie then None
                             else Some (App.fresh_browser_token env2)))
    /\ Py.get (snapshot (App.ledger st') c p) "total_votes" = Some (Py.JInt 0)
    /\ Forall (fun entry => Py.get entry "percentage" = Some (Py.JInt 0))
              (Py.items (default Py.JNone
                                 (Py.get (snapshot (App.ledger st') c p) "options"))).
Proof.
  pose proof (Reachable_wf _ Hreach) as Hwf.
  destruct (create_route_redirect cfg env st req c st' Hroute)
    as (texts & i & Hc & _ & Hfree & Hdb).
  set (p := new_poll (App.ledger st) (Py.strip (CreateRoute.question req)) c
                     (App.utc_now env)).
  assert (Hfind : find_poll (App.ledger st') c = Some p).
  { rewrite Hdb. unfold find_poll; cbn [poll_created polls].
    erewrite find_snoc_fresh; [reflexivity | exact Hfree | apply String.eqb_refl]. }
  assert (Hup : Py.upper c = c) by (rewrite Hc; apply Hupper).
  assert (Hnovote : forall cookie, token_vote (App.ledger st') (Poll.id p) cookie = None).
  { intros cookie. unfold token_vote. destruct (Views.truthy cookie); [| reflexivity].
    rewrite Hdb. cbn [poll_created votes]. apply find_none_existsb.
    apply not_true_is_false. rewrite existsb_exists. intros (v & Hv & Hm).
    apply andb_true_iff in Hm as [Hm _].
    cbn [p new_poll Poll.id] in Hm. rewrite (vote_fk_not_next _ v Hwf Hv) in Hm.
    discriminate. }
  assert (Htotal : total_votes (App.ledger st') (Poll.id p) = 0%Z).
  { pose proof (wf_tally _ (wf_poll_created _ (Py.strip (CreateRoute.question req))
                                            c texts (App.utc_now env) Hwf Hfree)
                         (Poll.id p)) as T.
    unfold tally in T. rewrite <- Hdb in T. rewrite T, Hdb.
    cbn [p new_poll Poll.id]. by rewrite poll_votes_created. }
  exists p. split; [reflexivity |]. split; [exact Hfind |].
  split; [| split; [| split]].
  - intros env2 host. rewrite share_poll_eq, Hup, Hfind. reflexivity.
  - intros env2 cookie. rewrite view_poll_eq. unfold rendered.
    rewrite Hup, Hfind, Hnovote. reflexivity.
  - unfold snapshot. rewrite Htotal. reflexivity.
  - unfold snapshot. rewrite Htotal. cbn. apply Forall_map.
    apply List.Forall_forall. intros o _.
    rewrite percentage_entry. reflexivity.
Qed.

End JourneyFacts.

(** ** The create route and its form *)

Section CreateRouteFacts.
Import Storage Session Ledger.
Local Open Scope string_scope.
Local Open Scope list_scope.
Context {RT : Py.Runtime}.

(** On texts that are already trimmed and not empty, cleaning changes
    nothing and can fail on the length only. *)
Lemma cleaned_stripped (mo : Z) (opts : list string) :
  Forall (fun v => Py.strip v = v /\ Py.is_empty v = false) opts ->
  cleaned mo opts = Ok opts
  \/ cleaned mo opts
     = Raise (ValidationError ("Each option must be " +:+ Py.fmt mo
                               +:+ " characters or less")).
Proof.
  induction 1 as [|opt rest [Hs He] _ IH]; simpl; [by left |].
  rewrite Hs, He. destruct (Py.len opt >? mo)%Z; [by right |].
  destruct IH as [-> | ->]; [by left | by right].
Qed.

(** Whatever the service raises for options read off a form, it is not the
    complaint about an empty option. *)
Lemma create_effect_form db now q form mn mx mq mo outage codes k msg db' k' :
  create_effect db now q (App.form_options form) mn mx mq mo outage codes k
  = (Raise (ValidationError msg), db', k') ->
  msg <> "Options cannot be empty".
Proof.
  unfold create_effect.
  destruct (_ || _); [intros [= <- _ _]; discriminate |].
  destruct (_ >? mq)%Z; [intros [= <- _ _]; discriminate |].
  destruct (_ || _); [intros [= <- _ _]; discriminate |].
  destruct (_ >? mx)%Z; [intros [= <- _ _]; discriminate |].
  destruct (cleaned_stripped mo _ (form_options_stripped form)) as [-> | ->];
    [| intros [= <- _ _]; discriminate].
  destruct (negb _); [intros [= <- _ _]; discriminate |].
  destruct (pick_code _ _ _ _) as [[code|e] k''] eqn:Ek.
  - destruct outage as [[| |]|]; discriminate.
  - apply pick_code_raise in Ek as (-> & _ & _). intros [= <- _ _]. discriminate.
Qed.

(** X18. The create route and the form. The route never flashes
    [Options cannot be empty]: blank [option_*] fields are skipped before the
    service sees them. When it redirects, from a reachable ledger, the poll
    under the new code has as question the trimmed [question] field and as
    options, in order, exactly the trimmed non-blank [option_*] fields of the
    form, each with no vote. When it renders the create page instead, the
    ledger is unchanged, with one exception: when the backend fails after
    the commit, the page with the generic error is rendered although the
    poll is stored, with that question and those options. *)
Theorem X18_create_route_form cfg env st req resp st'
        (Hreach : Reachable (App.ledger st))
        (Hroute : App.create_poll cfg env st req = (resp, st')) :
  (forall echo, resp <> App.CreatePage "Options cannot be empty" echo)
  /\ (forall c, resp = App.RedirectToShare c ->
        exists p,
          find_poll (App.ledger st') c = Some p
          /\ Poll.question p = CreateRoute.question req
          /\ map Option.option_text (poll_options (App.ledger st') (Poll.id p))
             = CreateRoute.options req
          /\ Forall (fun o => Option.vote_count o = 0%Z)
                    (poll_options (App.ledger st') (Poll.id p)))
  /\ (forall msg echo, resp = App.CreatePage msg echo ->
        App.ledger st' = App.ledger st
        \/ (App.backend_outage env = Some AfterCommit
            /\ msg = "An error occurred. Please try again." /\ echo = None
            /\ exists c p,
                has_poll_code (App.ledger st) c = false
                /\ find_poll (App.ledger st') c = Some p
                /\ Poll.question p = CreateRoute.question req
                /\ map Option.option_text
                       (poll_options (App.ledger st') (Poll.id p))
                   = CreateRoute.options req)).
Proof.
  pose proof (Reachable_wf _ Hreach) as Hwf.
  split; [| split].
  - intros echo ->.
    destruct (fst (RateLimiter.is_allowed (App.rate_limiter st) (App.time_now env)
                     (App.or_default (App.cr_remote_addr req) "127.0.0.1")))
      eqn:Hallowed.
    2: { unfold App.create_poll in Hroute.
         destruct (RateLimiter.is_allowed _ _ _) as [allowed rl].
         cbn [fst] in Hallowed. subst allowed. discriminate. }
    destruct (App.recursion_limit env) as [|d] eqn:Hd.
    { unfold App.create_poll in Hroute.
      destruct (RateLimiter.is_allowed _ _ _) as [allowed rl].
      cbn [fst] in Hallowed. subst allowed. rewrite Hd in Hroute. discriminate. }
    rewrite (create_route_eq cfg env st req d Hallowed Hd) in Hroute.
    destruct (create_effect _ _ _ _ _ _ _ _ _ _ _) as [[r db'] k'] eqn:Eeff.
    destruct r as [poll|e]; [discriminate |].
    destruct e; try discriminate.
    cbn [CreateRoute.answer] in Hroute. inversion Hroute; subst.
    by apply create_effect_form in Eeff.
  - intros c ->.
    destruct (create_route_redirect cfg env st req c st' Hroute)
      as (texts & i & _ & Hc & Hfree & Hdb).
    destruct (cleaned_stripped (App.MAX_OPTION_LENGTH cfg) _
                (form_options_stripped (App.cr_form req))) as [E | E];
      unfold CreateRoute.options in Hc; rewrite E in Hc; [| discriminate].
    inversion Hc; subst texts; clear Hc E.
    exists (new_poll (App.ledger st) (Py.strip (CreateRoute.question req)) c
                     (App.utc_now env)).
    split; [| split; [| split]].
    + rewrite Hdb. unfold find_poll; cbn [poll_created polls].
      erewrite find_snoc_fresh; [reflexivity | exact Hfree | apply String.eqb_refl].
    + cbn [new_poll Poll.question]. unfold CreateRoute.question.
      apply strip_idempotent.
    + rewrite Hdb. cbn [new_poll Poll.id].
      rewrite poll_options_created by exact Hwf. apply number_options_texts.
    + rewrite Hdb. cbn [new_poll Poll.id].
      rewrite poll_options_created by exact Hwf.
      apply List.Forall_forall. intros o Ho.
      by apply number_options_poll_id in Ho as [_ ?].
  - intros msg echo ->.
    destruct (fst (RateLimiter.is_allowed (App.rate_limiter st) (App.time_now env)
                     (App.or_default (App.cr_remote_addr req) "127.0.0.1")))
      eqn:Hallowed.
    2: { unfold App.create_poll in Hroute.
         destruct (RateLimiter.is_allowed _ _ _) as [allowed rl].
         cbn [fst] in Hallowed. subst allowed. cbn [negb] in Hroute.
         inversion Hroute; subst. by left. }
    destruct (App.recursion_limit env) as [|d] eqn:Hd.
    { unfold App.create_poll in Hroute.
      destruct (RateLimiter.is_allowed _ _ _) as [allowed rl].
      cbn [fst] in Hallowed. subst allowed. rewrite Hd in Hroute.
      cbn in Hroute. inversion Hroute; subst. by left. }
    rewrite (create_route_eq cfg env st req d Hallowed Hd) in Hroute.
    destruct (create_effect _ _ _ _ _ _ _ _ _ _ _) as [[r db'] k'] eqn:Eeff.
    apply create_effect_cases in Eeff
        as [(e & -> & ->)
           | (code & texts & [-> | [-> Hout]] & Hc & Hfree & ->)].
    + inversion Hroute; subst. by left.
    + discriminate.
    + inversion Hroute; subst. cbn [App.ledger]. right.
      split; [exact Hout |]. split; [reflexivity |]. split; [reflexivity |].
      destruct (cleaned_stripped (App.MAX_OPTION_LENGTH cfg) _
                  (form_options_stripped (App.cr_form req))) as [E | E];
        unfold CreateRoute.options in Hc; rewrite E in Hc; [| discriminate].
      inversion Hc; subst texts; clear Hc E.
      exists code, (new_poll (App.ledger st) (Py.strip (CreateRoute.question req))
                             code (App.utc_now env)).
      split; [exact Hfree |]. split; [| split].
      * unfold find_poll; cbn [poll_created polls].
        erewrite find_snoc_fresh; [reflexivity | exact Hfree | apply String.eqb_refl].
      * cbn [new_poll Poll.question]. unfold CreateRoute.question.
        apply strip_idempotent.
      * cbn [new_poll Poll.id].
        rewrite poll_options_created by exact Hwf. apply number_options_texts.
Qed.

End CreateRouteFacts.

(** ** The further properties on the example session *)

Section FurtherExamples.
Import Storage Session Ledger RateLimiter Limits Routes.
Local Open Scope string_scope.
Local Open Scope list_scope.

(** The example creation, as the route sees it. *)
Lemma scenario_created :
  App.create_poll App.default_config Scenario.env Example.state1
                  Example.lunch_request
  = (App.RedirectToShare "ZZ99YY88", snd Scenario.created).
Proof.
  assert (E : fst Scenario.created = App.RedirectToShare "ZZ99YY88")
    by (vm_compute; reflexivity).
  rewrite <- E. unfold Scenario.created.
  destruct (App.create_poll _ _ _ _) as [resp st']. reflexivity.
Defined.

Lemma X1_remaining_positive_iff_allowed_witness :
  fst (check_rate_limit (init 3 60) 5%Q "10.0.0.1") = true.
Proof.
  destruct (X1_remaining_positive_iff_allowed Q (init 3 60) 5%Q "10.0.0.1")
    as [_ [H _]].
  apply H. vm_compute. reflexivity.
Defined.

Lemma X7_validate_vote_agrees_witness :
  exists e, run (PollService.submit_vote (RT := Exact.runtime) 5%Q "AB12CD34" 2
                                         "10.0.0.1" "token-z")
                Example.db2 None Example.codes 1 = (Raise e, Example.db2).
Proof.
  destruct (X7_validate_vote_agrees (RT := Exact.runtime) 5%Q "AB12CD34" 2
              "10.0.0.1" "token-z" Example.db2 None Example.codes 1)
    as (valid & msg & Hv & _ & Hfalse & _).
  apply Hfalse.
  assert (E : run (PollService.validate_vote "AB12CD34"
                     "10.0.0.1" "token-z") Example.db2 None Example.codes 1
              = (Ok (false, Some "You have already voted from this IP address"),
                 Example.db2))
    by (vm_compute; reflexivity).
  rewrite E in Hv. by inversion Hv.
Defined.

Lemma X8_create_then_lookup_witness :
  run (PollService.get_poll_or_404 "AB12CD34")
      Example.db1 None Example.codes 1
  = (Ok (Poll.mk 1 "Pick one" "AB12CD34" 0%Q), Example.db1).
Proof.
  assert (Hrun : run (PollService.create_poll 1000 0%Q
                        " Pick one " [" A"; "B "] 2 10 500 200)
                     empty None Example.codes 0
                 = (Ok (Poll.mk 1 "Pick one" "AB12CD34" 0%Q), Example.db1))
    by (vm_compute; reflexivity).
  destruct (X8_create_then_lookup _ _ _ _ _ _ _ _ _ _ _ _
                                  _ _ Hrun) as [H _].
  exact (H None Example.codes 1%nat).
Defined.

Lemma X9_vote_return_value_witness :
  exists p poll_dict,
    find_poll Example.db1 "AB12CD34" = Some p
    /\ Scenario.vote_x_value
       = Py.JDict [("success", Py.JBool true); ("poll", poll_dict);
                   ("voted_option_id", Py.JInt 1)]
    /\ Py.get poll_dict "total_votes" = Some (Py.JInt 1).
Proof.
  assert (Hrun : run (PollService.submit_vote (RT := Exact.runtime) 1%Q
                        "AB12CD34" 1 "10.0.0.1" "token-x")
                     Example.db1 None Example.codes 1
                 = (Ok Scenario.vote_x_value, Example.db2))
    by (vm_compute; reflexivity).
  destruct (X9_vote_return_value (RT := Exact.runtime) Example.db1
              example_db1_reachable _ _ _ _ _ _ _ _ _ _ Hrun)
    as (p & poll_dict & Hp & Hd & _ & Ht & _).
  exists p, poll_dict. split; [exact Hp |]. split; [exact Hd |].
  assert (E : find_poll Example.db1 "AB12CD34"
              = Some (Poll.mk 1 "Pick one" "AB12CD34" 0%Q))
    by (vm_compute; reflexivity).
  rewrite E in Hp. inversion Hp; subst p.
  refine (eq_trans Ht _). vm_compute. reflexivity.
Defined.

Lemma X10_vote_failure_kinds_witness :
  (exists e,
      fst (run (PollService.submit_vote (RT := Exact.runtime) 5%Q "AB12CD34" 1
                                        "10.0.0.9" "token-q")
               Example.db1 (Some AtExecute) Example.codes 1) = Raise e
      /\ is_poll_service_error e = true)
  /\ fst (run (PollService.submit_vote (RT := Exact.runtime) 5%Q "AB12CD34"
                                       (2 ^ 63) "10.0.0.9" "token-q")
              Example.db1 None Example.codes 1) = Raise OverflowError
  /\ fits_integer (2 ^ 63) = false.
Proof.
  assert (Hrun : fst (run (PollService.submit_vote (RT := Exact.runtime) 5%Q
                             "AB12CD34" 1 "10.0.0.9" "token-q")
                          Example.db1 (Some AtExecute) Example.codes 1)
                 = Raise (PollServiceError "Failed to submit vote"))
    by (vm_compute; reflexivity).
  assert (Hrun' : fst (run (PollService.submit_vote (RT := Exact.runtime) 5%Q
                              "AB12CD34" (2 ^ 63) "10.0.0.9" "token-q")
                           Example.db1 None Example.codes 1)
                  = Raise OverflowError)
    by (vm_compute; reflexivity).
  split; [| split; [exact Hrun' |]].
  - exists (PollServiceError "Failed to submit vote"). split; [exact Hrun |].
    destruct (X10_vote_failure_kinds (RT := Exact.runtime)
                _ _ _ _ _ _ _ _ _ _ Hrun) as [H _].
    apply H. left. reflexivity.
  - destruct (X10_vote_failure_kinds (RT := Exact.runtime)
                _ _ _ _ _ _ _ _ _ _ Hrun') as (_ & H & _).
    destruct (H eq_refl) as (_ & Hf & _). exact Hf.
Defined.

Lemma X11_create_failures_witness :
  PollService.create_poll 1 0%Q "Which?" ["x"; "y"]
                          2 10 500 200 (open Example.db1 None Example.codes 1)
  = PollService.create_poll 1000 0%Q "Which?" ["x"; "y"]
                            2 10 500 200 (open Example.db1 None Example.codes 1).
Proof.
  destruct (X11_create_failures 0 999 0%Q "Which?"
              ["x"; "y"] 2 10 500 200 Example.db1 None Example.codes 1)
    as [H _].
  exact H.
Defined.

Lemma X12_vote_route_outcomes_witness :
  App.status (fst (fst Scenario.voted)) = 200%Z
  /\ length (snd (fst Scenario.voted)) = 1%nat.
Proof.
  pose proof scenario_voted as Hroute.
  assert (Hok : App.status (fst (fst Scenario.voted)) = 200%Z)
    by (vm_compute; reflexivity).
  split; [exact Hok |].
  destruct (X12_vote_route_outcomes (RT := Exact.runtime) _ _ _ _ _ _ _ Hroute)
    as (_ & _ & _ & _ & H & _).
  destruct (H Hok) as [Hl _]. exact Hl.
Defined.


Lemma X14_routes_keep_reachable_witness :
  Reachable (RT := Exact.runtime) (App.ledger (snd Scenario.voted)).
Proof.
  destruct (X14_routes_keep_reachable (RT := Exact.runtime) Example.state1
              example_db1_reachable) as [H _].
  exact (H Scenario.env "ab12cd34" Scenario.vote_request).
Defined.

Lemma X15_view_needs_stored_code_witness :
  Views.view_poll (RT := Exact.runtime) Scenario.env Example.state1 "ab12cd34" None
  = Views.NotFound "ab12cd34"
  /\ Views.share_poll (RT := Exact.runtime) Scenario.env Example.state1
                      "ab12cd34" "http://localhost:5000/"
     = Views.SharePage (Poll.mk 1 "Pick one" "AB12CD34" 0%Q)
                       "http://localhost:5000/poll/AB12CD34".
Proof.
  destruct (X15_view_needs_stored_code (RT := Exact.runtime) Scenario.env
              Example.state1 "ab12cd34" None "http://localhost:5000/")
    as [_ H].
  apply (H (Poll.mk 1 "Pick one" "AB12CD34" 0%Q)); vm_compute; reflexivity.
Defined.

Lemma X16_vote_then_view_witness :
  exists p oid,
    Views.view_poll (RT := Exact.runtime) Scenario.env (snd Scenario.voted)
                    "AB12CD34" (Some "token-new")
    = Views.PollPage p
        (snapshot (App.ledger (snd Scenario.voted)) "AB12CD34"
                  (Poll.mk 1 "Pick one" "AB12CD34" 0%Q))
        true (Some oid) None.
Proof.
  pose proof scenario_voted as Hroute.
  assert (Hok : App.status (fst (fst Scenario.voted)) = 200%Z)
    by (vm_compute; reflexivity).
  destruct (X16_vote_then_view (RT := Exact.runtime) _ _ _ _ _ _ _ Hroute Hok
                               eq_refl) as (p & oid & _ & H).
  exists p, oid.
  apply (H Scenario.env "AB12CD34" (Poll.mk 1 "Pick one" "AB12CD34" 0%Q));
    vm_compute; reflexivity.
Defined.

Lemma X17_redirect_resolves_witness :
  exists p, Poll.poll_code p = "ZZ99YY88"
            /\ find_poll (App.ledger (snd Scenario.created)) "ZZ99YY88" = Some p.
Proof.
  pose proof scenario_created as Hroute.
  destruct (X17_redirect_resolves (RT := Exact.runtime) App.default_config
              Scenario.env Example.state1 Example.lunch_request _ _
              example_db1_reachable Hroute (fun _ => eq_refl))
    as (p & Hc & Hf & _).
  exists p. split; [exact Hc | exact Hf].
Defined.

Lemma X18_create_route_form_witness :
  exists p,
    find_poll (App.ledger (snd Scenario.created)) "ZZ99YY88" = Some p
    /\ Poll.question p = "Lunch?"
    /\ map Option.option_text
           (poll_options (App.ledger (snd Scenario.created)) (Poll.id p))
       = ["soup"; "salad"].
Proof.
  pose proof scenario_created as Hroute.
  destruct (X18_create_route_form (RT := Exact.runtime) App.default_config
              Scenario.env Example.state1 Example.lunch_request _ _
              example_db1_reachable Hroute) as (_ & H & _).
  destruct (H "ZZ99YY88" eq_refl) as (p & Hf & Hq & Ho & _).
  exists p. split; [exact Hf |]. split; [exact Hq | exact Ho].
Defined.

End FurtherExamples.
